(** * WinMix statistics aggregation and prediction engine

    A shallow embedding of
    - [src/services/advanced-statistics.ts]  (calculateBasicStats,
      calculateDetailedStats),
    - the prediction engine (class PredictionEngine: getTeamFeatures,
      getHeadToHeadFeatures, getConfidenceLevel, predict),
    - the prediction hooks (usePrediction, usePredefinedPredictions), and
    - the logic of the components that show statistics and predictions,
    followed by the properties the specification states about them and
    further properties of the code. *)

From Stdlib Require Import String Ascii List Bool Arith ZArith QArith Qround Qabs.
From Stdlib Require Import Lia Lqa Qminmax Qpower Permutation Sorted DecimalString DecimalNat.
From Stdlib Require PrimFloat SpecFloat FloatOps.
Import ListNotations.

Set Implicit Arguments.

Close Scope Q_scope.
Open Scope nat_scope.

(* ===================================================================== *)
(** * JavaScript numbers *)
(* ===================================================================== *)

(** A JavaScript Number is a binary64 floating-point number.  A finite
    number is written [Fin q] with a rational [q] and stands for the
    binary64 number nearest to [q]: a literal of the source is written as
    the decimal it is.  An arithmetic operation takes the binary64 values
    of its operands and rounds the exact result to binary64, to the nearest
    number and to the even one of two equally near (IEEE 754
    roundTiesToEven).  The rounding is to 53 significant bits at every
    magnitude: the exponent range of binary64 (overflow from 2^1024 on,
    gradual underflow below 2^-1022) and the sign of zero are not
    modelled, so that the model is binary64 wherever no result leaves the
    range of the normal numbers, as is the case of the counts, quotients
    and percentages of this program.  Comparisons are made on the rationals
    as written. *)
Module Num.

Local Open Scope Q_scope.

Inductive number : Type :=
| Fin (q : Q)
| PosInf
| NegInf
| NaN.

(** ** Rounding to binary64 *)

(** The exponent of the binade of a positive rational: the [e] with
    [2^e <= x < 2^(e+1)]. *)
Definition ilog2 (x : Q) : Z :=
  let e := (Z.log2 (Qnum x) - Z.log2 (Zpos (Qden x)))%Z in
  if Qle_bool (2 ^ e) x then e else (e - 1)%Z.

(** The nearest integer, the even one of two equally near. *)
Definition round_half_even (x : Q) : Z :=
  let n := Qfloor x in
  match Qcompare (x - inject_Z n) (1 # 2) with
  | Lt => n
  | Gt => (n + 1)%Z
  | Eq => if Z.even n then n else (n + 1)%Z
  end.

(** A positive rational rounded to 53 significant bits: the nearest
    multiple of the unit in the last place of its binade. *)
Definition round53 (x : Q) : Q :=
  let ulp := 2 ^ (ilog2 x - 52) in
  inject_Z (round_half_even (x / ulp)) * ulp.

(** The binary64 number nearest to a rational. *)
Definition binary64 (x : Q) : Q :=
  Qred (match Qcompare x 0 with
        | Eq => 0
        | Gt => round53 x
        | Lt => - round53 (- x)
        end).

(** A number written by its binary64 value. *)
Definition double (q : Q) : number := Fin (binary64 q).

Definition of_nat (n : nat) : number := Fin (inject_Z (Z.of_nat n)).

Definition signed_inf (nonneg : bool) : number :=
  if nonneg then PosInf else NegInf.

(** [a / b] *)
Definition div (a b : number) : number :=
  match a, b with
  | NaN, _ | _, NaN => NaN
  | Fin x, Fin y =>
      if Qeq_bool y 0
      then (if Qeq_bool x 0 then NaN else signed_inf (Qle_bool 0 x))
      else Fin (binary64 (binary64 x / binary64 y))
  | Fin _, _ => Fin 0
  | PosInf, Fin y => signed_inf (Qle_bool 0 y)
  | NegInf, Fin y => signed_inf (negb (Qle_bool 0 y))
  | _, _ => NaN
  end.

(** [a * b] *)
Definition mul (a b : number) : number :=
  match a, b with
  | NaN, _ | _, NaN => NaN
  | Fin x, Fin y => Fin (binary64 (binary64 x * binary64 y))
  | Fin x, PosInf | PosInf, Fin x =>
      if Qeq_bool x 0 then NaN else signed_inf (Qle_bool 0 x)
  | Fin x, NegInf | NegInf, Fin x =>
      if Qeq_bool x 0 then NaN else signed_inf (negb (Qle_bool 0 x))
  | PosInf, PosInf | NegInf, NegInf => PosInf
  | PosInf, NegInf | NegInf, PosInf => NegInf
  end.

(** [a - b] *)
Definition sub (a b : number) : number :=
  match a, b with
  | NaN, _ | _, NaN => NaN
  | Fin x, Fin y => Fin (binary64 (binary64 x - binary64 y))
  | PosInf, PosInf | NegInf, NegInf => NaN
  | PosInf, _ | _, NegInf => PosInf
  | NegInf, _ | _, PosInf => NegInf
  end.

(** The nearest multiple of [10^-digits] to a non-negative rational; of two
    equally near ones the larger (Number.prototype.toFixed, step
    "let n be an integer for which n / 10^f - x is as close to zero as
    possible; if there are two such n, pick the larger n"). *)
Definition round_nonneg (digits : nat) (x : Q) : Q :=
  let scale := Z.pow 10 (Z.of_nat digits) in
  Qmake (Qfloor (x * inject_Z scale + (1 # 2))) (Z.to_pos scale).

(** toFixed works on the magnitude and restores the sign. *)
Definition round_to (digits : nat) (x : Q) : Q :=
  if Qle_bool 0 x then round_nonneg digits x
  else Qopp (round_nonneg digits (Qopp x)).

(** [Number(x.toFixed(digits))]: toFixed writes the decimal nearest to the
    exact value of the binary64 number, and [Number] reads that decimal
    back as the binary64 number nearest to it; "NaN", "Infinity" and
    "-Infinity" are read back as themselves. *)
Definition toFixed (digits : nat) (x : number) : number :=
  match x with
  | Fin q => Fin (binary64 (round_to digits (binary64 q)))
  | other => other
  end.

(** [Math.round]: the integer nearest to the binary64 number, a half going
    up. *)
Definition math_round (x : number) : number :=
  match x with
  | Fin q => Fin (inject_Z (Qfloor (binary64 q + (1 # 2))))
  | other => other
  end.

Definition is_finite (x : number) : bool :=
  match x with Fin _ => true | _ => false end.

(** Numeric equality ([===] on numbers, NaN apart). *)
Definition eqv (a b : number) : Prop :=
  match a, b with
  | Fin x, Fin y => Qeq x y
  | PosInf, PosInf | NegInf, NegInf => True
  | _, _ => False
  end.

End Num.

Import Num.

(** ** The machine's binary64 numbers

    The floats of the Rocq kernel are the binary64 numbers of the machine.
    They serve to compare the operations above with the machine's. *)

(** The number that a float is. *)
Definition of_float (f : PrimFloat.float) : number :=
  match FloatOps.Prim2SF f with
  | SpecFloat.S754_zero _ => Fin 0%Q
  | SpecFloat.S754_infinity negative => if negative then NegInf else PosInf
  | SpecFloat.S754_nan => NaN
  | SpecFloat.S754_finite negative m e =>
      Fin (Qred ((if negative then - (1) else 1) * inject_Z (Z.pos m) * 2 ^ e)%Q)
  end.

(** The float of a count. *)
Fixpoint float_of_nat (n : nat) : PrimFloat.float :=
  match n with
  | O => PrimFloat.zero
  | S k => PrimFloat.add (float_of_nat k) PrimFloat.one
  end.

(** The pairs [(x, total)] with [x <= total] and [1 <= total <= n]. *)
Definition parts (n : nat) : list (nat * nat) :=
  flat_map (fun total => map (fun x => (x, total)) (seq 0 (S total)))
    (seq 1 n).

(** [String(n)] for a non-negative integer: its decimal digits. *)
Definition string_of_nat (n : nat) : string :=
  NilEmpty.string_of_uint (Nat.to_uint n).

(* ===================================================================== *)
(** * The match row *)
(* ===================================================================== *)

(** Modelled from the spec: the row type
    [Database['public']['Tables']['matches']['Row']] is declared in
    integrations/supabase/types, which is not among the sources.  The fields
    are those the code reads; their ranges are the ones of sections 3 and 6
    of the specification: goal counts are non-negative integers, half-time
    goal counts are nullable, the outcome tag is one of H, D, A, the two
    flags are booleans, and a row carries a timestamp. *)
Inductive Outcome : Type := OutH | OutD | OutA.

Definition Outcome_eqb (a b : Outcome) : bool :=
  match a, b with
  | OutH, OutH | OutD, OutD | OutA, OutA => true
  | _, _ => false
  end.

Record Match : Type := mkMatch {
  home_team : string;
  away_team : string;
  full_time_home_goals : nat;
  full_time_away_goals : nat;
  half_time_home_goals : option nat;
  half_time_away_goals : option nat;
  result_computed : Outcome;
  btts_computed : bool;
  comeback_computed : bool;
  match_time : nat
}.

(** [x || 0] on a nullable count: null (and 0) give 0. *)
Definition or_zero (x : option nat) : nat :=
  match x with
  | Some n => n
  | None => 0
  end.

(* ===================================================================== *)
(** * advanced-statistics.ts *)
(* ===================================================================== *)

Record MatchStats : Type := mkMatchStats {
  total_matches : nat;
  home_wins : nat;
  draws : nat;
  away_wins : nat;
  btts_count : nat;
  comeback_count : nat;
  avg_goals : number;
  home_win_percentage : number;
  draw_percentage : number;
  away_win_percentage : number;
  btts_percentage : number;
  comeback_percentage : number
}.

(** The expression [Number(((x / total) * 100).toFixed(1))], which the
    source writes out at every percentage field. *)
Definition percentage_of (x total : nat) : number :=
  toFixed 1 (mul (div (of_nat x) (of_nat total)) (Fin 100%Q)).

Definition calculateBasicStats (matches : list Match) : MatchStats :=
  if length matches =? 0 then
    {| total_matches := 0;
       home_wins := 0;
       draws := 0;
       away_wins := 0;
       btts_count := 0;
       comeback_count := 0;
       avg_goals := Fin 0%Q;
       home_win_percentage := Fin 0%Q;
       draw_percentage := Fin 0%Q;
       away_win_percentage := Fin 0%Q;
       btts_percentage := Fin 0%Q;
       comeback_percentage := Fin 0%Q |}
  else
    let totalMatches := length matches in
    let homeWins :=
      length (filter (fun m => Outcome_eqb (result_computed m) OutH) matches) in
    let draws :=
      length (filter (fun m => Outcome_eqb (result_computed m) OutD) matches) in
    let awayWins :=
      length (filter (fun m => Outcome_eqb (result_computed m) OutA) matches) in
    let bttsCount :=
      length (filter (fun m => Bool.eqb (btts_computed m) true) matches) in
    let comebackCount :=
      length (filter (fun m => Bool.eqb (comeback_computed m) true) matches) in
    let totalGoals :=
      fold_left
        (fun sum m => sum + full_time_home_goals m + full_time_away_goals m)
        matches 0 in
    let avgGoals := div (of_nat totalGoals) (of_nat totalMatches) in
    {| total_matches := totalMatches;
       home_wins := homeWins;
       draws := draws;
       away_wins := awayWins;
       btts_count := bttsCount;
       comeback_count := comebackCount;
       avg_goals := toFixed 1 avgGoals;
       home_win_percentage := percentage_of homeWins totalMatches;
       draw_percentage := percentage_of draws totalMatches;
       away_win_percentage := percentage_of awayWins totalMatches;
       btts_percentage := percentage_of bttsCount totalMatches;
       comeback_percentage := percentage_of comebackCount totalMatches |}.

(** ** Objects used as string-keyed maps

    [resultFrequency] is a plain object indexed by scoreline strings.  Its
    own keys all contain the character "-", so none is an array index and
    [Object.entries] lists them in the order they were first assigned: an
    association list in insertion order. *)
Module JsObject.

Definition t : Type := list (string * nat).

Definition empty : t := [].

(** [obj[key]]: [None] is undefined. *)
Fixpoint get (key : string) (obj : t) : option nat :=
  match obj with
  | [] => None
  | (k, v) :: rest => if String.eqb key k then Some v else get key rest
  end.

(** [obj[key] = v]: an existing key keeps its place, a new key is added
    last. *)
Fixpoint set (key : string) (v : nat) (obj : t) : t :=
  match obj with
  | [] => [(key, v)]
  | (k, w) :: rest =>
      if String.eqb key k then (k, v) :: rest else (k, w) :: set key v rest
  end.

Definition entries (obj : t) : list (string * nat) := obj.

End JsObject.

(** ** Array.prototype.sort

    The sort is stable (ECMAScript 2019) and puts [a] before [b] when
    [cmp a b < 0].  Under a consistent comparator the result of a stable
    sort does not depend on the algorithm; it is computed here by
    insertion, each element entering before the sorted rest of the array
    and moving right past the elements that compare strictly before it. *)
Section ArraySort.

Variable A : Type.
Variable cmp : A -> A -> Z.

Fixpoint sort_insert (x : A) (sorted : list A) : list A :=
  match sorted with
  | [] => [x]
  | y :: rest =>
      if (cmp y x <? 0)%Z then y :: sort_insert x rest else x :: y :: rest
  end.

Fixpoint array_sort (l : list A) : list A :=
  match l with
  | [] => []
  | x :: rest => sort_insert x (array_sort rest)
  end.

End ArraySort.

(** [arr.slice(0, n)] *)
Definition slice0 (A : Type) (n : nat) (arr : list A) : list A := firstn n arr.

Record GoalStats : Type := mkGoalStats {
  home_goals_total : nat;
  away_goals_total : nat;
  home_goals_per_match : number;
  away_goals_per_match : number;
  home_clean_sheets : nat;
  away_clean_sheets : nat;
  home_clean_sheet_percentage : number;
  away_clean_sheet_percentage : number
}.

Record OverUnder : Type := mkOverUnder {
  over_25_count : nat;
  under_25_count : nat;
  over_25_percentage : number;
  under_25_percentage : number;
  over_35_count : nat;
  over_35_percentage : number
}.

Record FrequentResult : Type := mkFrequentResult {
  result : string;
  count : nat;
  percentage : number
}.

Record HalfTimeAnalysis : Type := mkHalfTimeAnalysis {
  ht_home_leads : nat;
  ht_away_leads : nat;
  ht_draws : nat;
  ht_home_lead_to_win : nat;
  ht_home_lead_to_draw : nat;
  ht_home_lead_to_loss : nat;
  ht_away_lead_to_win : nat;
  ht_away_lead_to_draw : nat;
  ht_away_lead_to_loss : nat;
  home_lead_hold_percentage : number;
  away_lead_hold_percentage : number
}.

Record DetailedMatchStats : Type := mkDetailedMatchStats {
  basic : MatchStats;
  goalStats : GoalStats;
  overUnder : OverUnder;
  frequentResults : list FrequentResult;
  halfTimeAnalysis : HalfTimeAnalysis
}.

(** The template literal [`${home}-${away}`]. *)
Definition scoreline (m : Match) : string :=
  (string_of_nat (full_time_home_goals m) ++ "-"
     ++ string_of_nat (full_time_away_goals m))%string.

(** [total > bound] for an integer total and the bounds 2.5 and 3.5. *)
Definition exceeds (total : nat) (bound : Q) : bool :=
  negb (Qle_bool (inject_Z (Z.of_nat total)) bound).

(** The first [forEach]: one more occurrence of the match's scoreline. *)
Definition countResult (resultFrequency : JsObject.t) (m : Match) : JsObject.t :=
  let result := scoreline m in
  JsObject.set result
    (or_zero (JsObject.get result resultFrequency) + 1) resultFrequency.

(** The nine counters the second [forEach] updates. *)
Record HtCounters : Type := mkHtCounters {
  htHomeLeads : nat;
  htAwayLeads : nat;
  htDraws : nat;
  htHomeLeadToWin : nat;
  htHomeLeadToDraw : nat;
  htHomeLeadToLoss : nat;
  htAwayLeadToWin : nat;
  htAwayLeadToDraw : nat;
  htAwayLeadToLoss : nat
}.

Definition htZero : HtCounters := mkHtCounters 0 0 0 0 0 0 0 0 0.

(** The body of the second [forEach]; [x++] is written [S x]. *)
Definition htStep (c : HtCounters) (m : Match) : HtCounters :=
  let '(mkHtCounters homeLeads awayLeads htdraws
          homeToWin homeToDraw homeToLoss awayToWin awayToDraw awayToLoss) := c in
  let htHomeGoals := or_zero (half_time_home_goals m) in
  let htAwayGoals := or_zero (half_time_away_goals m) in
  let ftResult := result_computed m in
  if htAwayGoals <? htHomeGoals then
    if Outcome_eqb ftResult OutH then
      mkHtCounters (S homeLeads) awayLeads htdraws
        (S homeToWin) homeToDraw homeToLoss awayToWin awayToDraw awayToLoss
    else if Outcome_eqb ftResult OutD then
      mkHtCounters (S homeLeads) awayLeads htdraws
        homeToWin (S homeToDraw) homeToLoss awayToWin awayToDraw awayToLoss
    else
      mkHtCounters (S homeLeads) awayLeads htdraws
        homeToWin homeToDraw (S homeToLoss) awayToWin awayToDraw awayToLoss
  else if htHomeGoals <? htAwayGoals then
    if Outcome_eqb ftResult OutA then
      mkHtCounters homeLeads (S awayLeads) htdraws
        homeToWin homeToDraw homeToLoss (S awayToWin) awayToDraw awayToLoss
    else if Outcome_eqb ftResult OutD then
      mkHtCounters homeLeads (S awayLeads) htdraws
        homeToWin homeToDraw homeToLoss awayToWin (S awayToDraw) awayToLoss
    else
      mkHtCounters homeLeads (S awayLeads) htdraws
        homeToWin homeToDraw homeToLoss awayToWin awayToDraw (S awayToLoss)
  else
    mkHtCounters homeLeads awayLeads (S htdraws)
      homeToWin homeToDraw homeToLoss awayToWin awayToDraw awayToLoss.

(** [Number((x / total).toFixed(2))] *)
Definition per_match (x total : nat) : number :=
  toFixed 2 (div (of_nat x) (of_nat total)).

Definition calculateDetailedStats (matches : list Match) : DetailedMatchStats :=
  let basic := calculateBasicStats matches in
  if length matches =? 0 then
    {| basic := basic;
       goalStats :=
         {| home_goals_total := 0;
            away_goals_total := 0;
            home_goals_per_match := Fin 0%Q;
            away_goals_per_match := Fin 0%Q;
            home_clean_sheets := 0;
            away_clean_sheets := 0;
            home_clean_sheet_percentage := Fin 0%Q;
            away_clean_sheet_percentage := Fin 0%Q |};
       overUnder :=
         {| over_25_count := 0;
            under_25_count := 0;
            over_25_percentage := Fin 0%Q;
            under_25_percentage := Fin 0%Q;
            over_35_count := 0;
            over_35_percentage := Fin 0%Q |};
       frequentResults := [];
       halfTimeAnalysis :=
         {| ht_home_leads := 0;
            ht_away_leads := 0;
            ht_draws := 0;
            ht_home_lead_to_win := 0;
            ht_home_lead_to_draw := 0;
            ht_home_lead_to_loss := 0;
            ht_away_lead_to_win := 0;
            ht_away_lead_to_draw := 0;
            ht_away_lead_to_loss := 0;
            home_lead_hold_percentage := Fin 0%Q;
            away_lead_hold_percentage := Fin 0%Q |} |}
  else
    let totalMatches := length matches in
    (* Goal Statistics *)
    let homeGoalsTotal :=
      fold_left (fun sum m => sum + full_time_home_goals m) matches 0 in
    let awayGoalsTotal :=
      fold_left (fun sum m => sum + full_time_away_goals m) matches 0 in
    let homeCleanSheets :=
      length (filter (fun m => full_time_away_goals m =? 0) matches) in
    let awayCleanSheets :=
      length (filter (fun m => full_time_home_goals m =? 0) matches) in
    (* Over/Under Statistics *)
    let over25Count :=
      length (filter (fun m =>
        exceeds (full_time_home_goals m + full_time_away_goals m) (5 # 2))
        matches) in
    let over35Count :=
      length (filter (fun m =>
        exceeds (full_time_home_goals m + full_time_away_goals m) (7 # 2))
        matches) in
    (* Frequent Results *)
    let resultFrequency := fold_left countResult matches JsObject.empty in
    let frequentResults :=
      slice0 4
        (array_sort
           (fun a b => (Z.of_nat (count b) - Z.of_nat (count a))%Z)
           (map (fun '(result, count) =>
                   {| result := result;
                      count := count;
                      percentage := percentage_of count totalMatches |})
                (JsObject.entries resultFrequency))) in
    (* Half-Time Analysis *)
    let ht := fold_left htStep matches htZero in
    {| basic := basic;
       goalStats :=
         {| home_goals_total := homeGoalsTotal;
            away_goals_total := awayGoalsTotal;
            home_goals_per_match := per_match homeGoalsTotal totalMatches;
            away_goals_per_match := per_match awayGoalsTotal totalMatches;
            home_clean_sheets := homeCleanSheets;
            away_clean_sheets := awayCleanSheets;
            home_clean_sheet_percentage :=
              percentage_of homeCleanSheets totalMatches;
            away_clean_sheet_percentage :=
              percentage_of awayCleanSheets totalMatches |};
       overUnder :=
         {| over_25_count := over25Count;
            under_25_count := totalMatches - over25Count;
            over_25_percentage := percentage_of over25Count totalMatches;
            under_25_percentage :=
              percentage_of (totalMatches - over25Count) totalMatches;
            over_35_count := over35Count;
            over_35_percentage := percentage_of over35Count totalMatches |};
       frequentResults := frequentResults;
       halfTimeAnalysis :=
         {| ht_home_leads := htHomeLeads ht;
            ht_away_leads := htAwayLeads ht;
            ht_draws := htDraws ht;
            ht_home_lead_to_win := htHomeLeadToWin ht;
            ht_home_lead_to_draw := htHomeLeadToDraw ht;
            ht_home_lead_to_loss := htHomeLeadToLoss ht;
            ht_away_lead_to_win := htAwayLeadToWin ht;
            ht_away_lead_to_draw := htAwayLeadToDraw ht;
            ht_away_lead_to_loss := htAwayLeadToLoss ht;
            home_lead_hold_percentage :=
              if 0 <? htHomeLeads ht
              then percentage_of (htHomeLeadToWin ht) (htHomeLeads ht)
              else Fin 0%Q;
            away_lead_hold_percentage :=
              if 0 <? htAwayLeads ht
              then percentage_of (htAwayLeadToWin ht) (htAwayLeads ht)
              else Fin 0%Q |} |}.

(* ===================================================================== *)
(** * Promises *)
(* ===================================================================== *)

(** What a [throw] carries: an [Error] object with its message, or any
    other value. *)
Inductive Thrown : Type :=
| ErrorObject (message : string)
| OtherValue.

(** The settled state of an awaited promise.  [await] of a rejected promise
    throws its reason at the point of the [await]. *)
Inductive Promise (A : Type) : Type :=
| Resolved (value : A)
| Rejected (reason : Thrown).

Arguments Resolved {A} value.
Arguments Rejected {A} reason.

Module Promise.

Definition bind {A B : Type} (p : Promise A) (k : A -> Promise B) : Promise B :=
  match p with
  | Resolved a => k a
  | Rejected e => Rejected e
  end.

(** [Promise.all]: the list of values, in the order of the promises, when
    all resolve; rejected as soon as one rejects.  Which rejection comes
    first in time is not modelled: the reason kept is the one of the first
    rejected promise of the list. *)
Fixpoint all {A : Type} (ps : list (Promise A)) : Promise (list A) :=
  match ps with
  | [] => Resolved []
  | p :: rest =>
      bind p (fun a => bind (all rest) (fun others => Resolved (a :: others)))
  end.

(** [try { body } catch (error) { handler(error) }] *)
Definition try_catch {A : Type} (body : Promise A) (handler : Thrown -> Promise A)
  : Promise A :=
  match body with
  | Resolved a => Resolved a
  | Rejected e => handler e
  end.

End Promise.

Notation "'await' x <- p ; k" := (Promise.bind p (fun x => k))
  (at level 10, x name, p at level 100, k at level 200).

(* ===================================================================== *)
(** * types/prediction.ts *)
(* ===================================================================== *)

(** The interfaces the engine builds.  Optional members that the engine
    never sets (match_context, match_id, scoreline_predictions,
    avg_season_position) are left out. *)

Record PredictionInput : Type := mkPredictionInput {
  input_home_team : string;
  input_away_team : string;
  halftime_home_goals : option nat;
  halftime_away_goals : option nat
}.

Inductive ConfidenceLevel : Type := LOW | MEDIUM | HIGH.

Inductive StreakType : Type := WIN | DRAW | LOSS | MIXED.

Record TransitionMatrix : Type := mkTransitionMatrix {
  ht_h_to_ft_h : number;
  ht_h_to_ft_d : number;
  ht_h_to_ft_a : number;
  ht_d_to_ft_h : number;
  ht_d_to_ft_d : number;
  ht_d_to_ft_a : number;
  ht_a_to_ft_h : number;
  ht_a_to_ft_d : number;
  ht_a_to_ft_a : number
}.

Inductive LastResult : Type := W | D | L.

Record HeadToHeadRecord : Type := mkHeadToHeadRecord {
  opponent_id : string;
  record_matches_played : nat;
  wins : nat;
  record_draws : nat;
  losses : nat;
  last_result : LastResult;
  avg_goals_for : number;
  avg_goals_against : number;
  halftime_to_fulltime_pattern : TransitionMatrix
}.

Record FeatureImportance : Type := mkFeatureImportance {
  feature_name : string;
  importance : number;
  feature_value : number;
  description : string
}.

Record ModelExplanation : Type := mkModelExplanation {
  model_name : string;
  weight : number;
  explained_home_win : number;
  explained_draw : number;
  explained_away_win : number;
  key_features : list FeatureImportance
}.

Record Predictions : Type := mkPredictions {
  home_win_probability : number;
  draw_probability : number;
  away_win_probability : number;
  most_likely_outcome : Outcome;
  confidence_score : number
}.

Record PredictionMetadata : Type := mkPredictionMetadata {
  model_version : string;
  prediction_timestamp : string;
  data_quality_score : number;
  prediction_confidence : ConfidenceLevel;
  warning_flags : list string
}.

Record PredictionOutput : Type := mkPredictionOutput {
  predictions : Predictions;
  model_explanations : list ModelExplanation;
  prediction_metadata : PredictionMetadata
}.

Record FormFeatures : Type := mkFormFeatures {
  recent_form_home : list number;
  recent_form_away : list number;
  recent_form_overall : list number;
  current_streak : number;
  streak_type : StreakType;
  momentum_score : number
}.

Record GoalFeatures : Type := mkGoalFeatures {
  avg_goals_scored_home : number;
  avg_goals_scored_away : number;
  avg_goals_conceded_home : number;
  avg_goals_conceded_away : number;
  btts_percentage_home : number;
  btts_percentage_away : number;
  clean_sheet_percentage_home : number;
  clean_sheet_percentage_away : number;
  comeback_ability : number;
  lead_holding : number
}.

Record HistoricalFeatures : Type := mkHistoricalFeatures {
  total_matches_played : nat;
  hist_home_win_percentage : number;
  hist_away_win_percentage : number;
  hist_draw_percentage : number;
  head_to_head_record : list HeadToHeadRecord
}.

Record TeamFeatures : Type := mkTeamFeatures {
  team_id : string;
  team_name : string;
  last_updated : string;
  form_features : FormFeatures;
  goal_features : GoalFeatures;
  historical_features : HistoricalFeatures
}.

Record HeadToHeadFeatures : Type := mkHeadToHeadFeatures {
  matches_played : nat;
  home_advantage : number;
  h2h_avg_goals : number;
  btts_rate : number;
  transition_matrix : TransitionMatrix
}.

Record HalftimeState : Type := mkHalftimeState {
  state_home_goals : nat;
  state_away_goals : nat;
  goal_difference : Z
}.

Record Features : Type := mkFeatures {
  features_home_team : TeamFeatures;
  features_away_team : TeamFeatures;
  head_to_head : HeadToHeadFeatures;
  halftime_state : option HalftimeState
}.

(* ===================================================================== *)
(** * The prediction engine (class PredictionEngine) *)
(* ===================================================================== *)

(** The answer of a query of the matches table: [data] is null when the
    query reports an error. *)
Record QueryResponse : Type := mkQueryResponse {
  data : option (list Match)
}.

(** The three queries the engine sends, each ordered by [match_time]
    descending and limited to 10 rows.  The table is outside the engine:
    a query is a promise given by the collaborator. *)
Record Supabase : Type := mkSupabase {
  (** [.eq('home_team', teamName)] *)
  select_home : string -> Promise QueryResponse;
  (** [.eq('away_team', teamName)] *)
  select_away : string -> Promise QueryResponse;
  (** [.or(and(home_team.eq.A,away_team.eq.B),and(home_team.eq.B,away_team.eq.A))] *)
  select_between : string -> string -> Promise QueryResponse
}.

(** [x || []] *)
Definition or_empty (x : option (list Match)) : list Match :=
  match x with
  | Some rows => rows
  | None => []
  end.

(** [n / Math.max(len, 1) * 100] *)
Definition rate_percent (n len : nat) : number :=
  mul (div (of_nat n) (of_nat (Nat.max len 1))) (Fin 100%Q).

(** [len > 0 ? total / len : 0] *)
Definition guarded_average (total len : nat) : number :=
  if 0 <? len then div (of_nat total) (of_nat len) else Fin 0%Q.

Definition getDefaultTransitionMatrix : TransitionMatrix :=
  {| ht_h_to_ft_h := Fin 0.65%Q; ht_h_to_ft_d := Fin 0.25%Q; ht_h_to_ft_a := Fin 0.10%Q;
     ht_d_to_ft_h := Fin 0.35%Q; ht_d_to_ft_d := Fin 0.30%Q; ht_d_to_ft_a := Fin 0.35%Q;
     ht_a_to_ft_h := Fin 0.10%Q; ht_a_to_ft_d := Fin 0.25%Q; ht_a_to_ft_a := Fin 0.65%Q |}.

(** Placeholder in the source: the matches are not read. *)
Definition calculateTransitionMatrix (matches : list Match) : TransitionMatrix :=
  getDefaultTransitionMatrix.

Definition calculateStreak (matches : list Match) (teamName : string) : number :=
  Fin 0%Q.

Definition getStreakType (matches : list Match) (teamName : string) : StreakType :=
  MIXED.

Definition calculateMomentum (matches : list Match) (teamName : string) : number :=
  Fin 0%Q.

Definition calculateLeadHolding (matches : list Match) (teamName : string) : number :=
  Fin 50%Q.

Definition assessDataQuality (features : Features) : number := Fin 0.85%Q.

Definition runAllModels (features : Features) : Promise (list ModelExplanation) :=
  Resolved [].

Definition combineModels (modelPredictions : list ModelExplanation) : Predictions :=
  {| home_win_probability := Fin 0.5%Q;
     draw_probability := Fin 0.25%Q;
     away_win_probability := Fin 0.25%Q;
     most_likely_outcome := OutH;
     confidence_score := Fin 0.75%Q |}.

(** [a >= b]; false when either side is NaN. *)
Definition geb (a b : number) : bool :=
  match a, b with
  | Fin x, Fin y => Qle_bool y x
  | PosInf, (Fin _ | PosInf | NegInf) => true
  | (Fin _ | NegInf), NegInf => true
  | _, _ => false
  end.

(** [a < b]; false when either side is NaN. *)
Definition ltb (a b : number) : bool :=
  match a, b with
  | Fin x, Fin y => negb (Qle_bool y x)
  | (Fin _ | NegInf), PosInf => true
  | NegInf, Fin _ => true
  | _, _ => false
  end.

Definition getConfidenceLevel (score : number) : ConfidenceLevel :=
  if geb score (Fin 0.8%Q) then HIGH
  else if geb score (Fin 0.6%Q) then MEDIUM
  else LOW.

Definition generateWarnings (features : Features) (qualityScore : number)
  : list string :=
  let warnings := [] in
  if ltb qualityScore (Fin 0.7%Q)
  then warnings ++ ["Limitált történeti adat"%string]
  else warnings.

(** The entry of a form array for one match, as the two [map] callbacks of
    getTeamFeatures compute it: [won] is the tag that means a win of the
    team on that side. *)
Definition form_entry (won : Outcome) (m : Match) : number :=
  if Outcome_eqb (result_computed m) won then Fin 1%Q
  else if Outcome_eqb (result_computed m) OutD then Fin 0.5%Q
  else Fin 0%Q.

(** The part of getTeamFeatures after the two queries have been awaited. *)
Definition teamFeaturesOf (now teamName : string)
    (homeMatches awayMatches : QueryResponse) : TeamFeatures :=
  let homeData := or_empty (data homeMatches) in
  let awayData := or_empty (data awayMatches) in
  let homeForm := map (form_entry OutH) (slice0 5 homeData) in
  let awayForm := map (form_entry OutA) (slice0 5 awayData) in
  let homeGoalsScored :=
    fold_left (fun sum m => sum + full_time_home_goals m) homeData 0 in
  let homeGoalsConceded :=
    fold_left (fun sum m => sum + full_time_away_goals m) homeData 0 in
  let awayGoalsScored :=
    fold_left (fun sum m => sum + full_time_away_goals m) awayData 0 in
  let awayGoalsConceded :=
    fold_left (fun sum m => sum + full_time_home_goals m) awayData 0 in
  let allData := homeData ++ awayData in
  {| team_id := teamName;
     team_name := teamName;
     last_updated := now;
     form_features :=
       {| recent_form_home := homeForm;
          recent_form_away := awayForm;
          recent_form_overall := slice0 5 (homeForm ++ awayForm);
          current_streak := calculateStreak allData teamName;
          streak_type := getStreakType allData teamName;
          momentum_score := calculateMomentum allData teamName |};
     goal_features :=
       {| avg_goals_scored_home := guarded_average homeGoalsScored (length homeData);
          avg_goals_scored_away := guarded_average awayGoalsScored (length awayData);
          avg_goals_conceded_home :=
            guarded_average homeGoalsConceded (length homeData);
          avg_goals_conceded_away :=
            guarded_average awayGoalsConceded (length awayData);
          btts_percentage_home :=
            rate_percent (length (filter btts_computed homeData)) (length homeData);
          btts_percentage_away :=
            rate_percent (length (filter btts_computed awayData)) (length awayData);
          clean_sheet_percentage_home :=
            rate_percent
              (length (filter (fun m => full_time_away_goals m =? 0) homeData))
              (length homeData);
          clean_sheet_percentage_away :=
            rate_percent
              (length (filter (fun m => full_time_home_goals m =? 0) awayData))
              (length awayData);
          comeback_ability :=
            rate_percent (length (filter comeback_computed allData))
              (length allData);
          lead_holding := calculateLeadHolding allData teamName |};
     historical_features :=
       {| total_matches_played := length homeData + length awayData;
          hist_home_win_percentage :=
            rate_percent
              (length (filter (fun m => Outcome_eqb (result_computed m) OutH)
                         homeData))
              (length homeData);
          hist_away_win_percentage :=
            rate_percent
              (length (filter (fun m => Outcome_eqb (result_computed m) OutA)
                         awayData))
              (length awayData);
          hist_draw_percentage :=
            rate_percent
              (length (filter (fun m => Outcome_eqb (result_computed m) OutD)
                         allData))
              (length allData);
          head_to_head_record := [] |} |}.

(** The part of getHeadToHeadFeatures after the query has been awaited. *)
Definition headToHeadFeaturesOf (homeTeam awayTeam : string)
    (response : QueryResponse) : HeadToHeadFeatures :=
  match data response with
  | None | Some [] =>
      {| matches_played := 0;
         home_advantage := Fin 0%Q;
         h2h_avg_goals := Fin 0%Q;
         btts_rate := Fin 0%Q;
         transition_matrix := getDefaultTransitionMatrix |}
  | Some h2hMatches =>
      let homeWins :=
        length (filter (fun m =>
          (String.eqb (home_team m) homeTeam
             && Outcome_eqb (result_computed m) OutH)
          || (String.eqb (away_team m) homeTeam
                && Outcome_eqb (result_computed m) OutA)) h2hMatches) in
      {| matches_played := length h2hMatches;
         home_advantage := div (of_nat homeWins) (of_nat (length h2hMatches));
         h2h_avg_goals :=
           div (of_nat (fold_left
                          (fun sum m =>
                             sum + full_time_home_goals m + full_time_away_goals m)
                          h2hMatches 0))
               (of_nat (length h2hMatches));
         btts_rate :=
           div (of_nat (length (filter btts_computed h2hMatches)))
               (of_nat (length h2hMatches));
         transition_matrix := calculateTransitionMatrix h2hMatches |}
  end.

Section Engine.

(** The table client, and the clock read by [new Date().toISOString()]. *)
Variable supabase : Supabase.
Variable now : string.

(** The two queries are awaited together ([Promise.all] of a pair). *)
Definition getTeamFeatures (teamName : string) : Promise TeamFeatures :=
  await homeMatches <- select_home supabase teamName;
  await awayMatches <- select_away supabase teamName;
  Resolved (teamFeaturesOf now teamName homeMatches awayMatches).

Definition getHeadToHeadFeatures (homeTeam awayTeam : string)
  : Promise HeadToHeadFeatures :=
  await response <- select_between supabase homeTeam awayTeam;
  Resolved (headToHeadFeaturesOf homeTeam awayTeam response).

(** The three feature promises are awaited together ([Promise.all]). *)
Definition prepareFeatures (input : PredictionInput) : Promise Features :=
  await homeFeatures <- getTeamFeatures (input_home_team input);
  await awayFeatures <- getTeamFeatures (input_away_team input);
  await h2hFeatures <-
    getHeadToHeadFeatures (input_home_team input) (input_away_team input);
  Resolved
    {| features_home_team := homeFeatures;
       features_away_team := awayFeatures;
       head_to_head := h2hFeatures;
       halftime_state :=
         match halftime_home_goals input with
         | Some home_goals =>
             Some {| state_home_goals := home_goals;
                     state_away_goals := or_zero (halftime_away_goals input);
                     goal_difference :=
                       (Z.of_nat home_goals
                          - Z.of_nat (or_zero (halftime_away_goals input)))%Z |}
         | None => None
         end |}.

(** The object [predict] returns, from the values of its steps 1 to 4. *)
Definition predictionOutputOf (features : Features) (qualityScore : number)
    (modelPredictions : list ModelExplanation) (finalPrediction : Predictions)
  : PredictionOutput :=
  {| predictions := finalPrediction;
     model_explanations := modelPredictions;
     prediction_metadata :=
       {| model_version := "v1.0";
          prediction_timestamp := now;
          data_quality_score := qualityScore;
          prediction_confidence :=
            getConfidenceLevel (confidence_score finalPrediction);
          warning_flags := generateWarnings features qualityScore |} |}.

Definition predict (input : PredictionInput) : Promise PredictionOutput :=
  Promise.try_catch
    (await features <- prepareFeatures input;
     let qualityScore := assessDataQuality features in
     await modelPredictions <- runAllModels features;
     let finalPrediction := combineModels modelPredictions in
     Resolved
       (predictionOutputOf features qualityScore modelPredictions finalPrediction))
    (fun error => Rejected (ErrorObject "Predikciós hiba történt")).

End Engine.

(* ===================================================================== *)
(** * The prediction hook (usePrediction) *)
(* ===================================================================== *)

Record Toast : Type := mkToast {
  title : string;
  toast_description : string;
  variant : option string
}.

(** The state the hook keeps, and the toasts shown so far (latest first). *)
Record HookState : Type := mkHookState {
  isLoading : bool;
  prediction : option PredictionOutput;
  error : option string;
  toasts : list Toast
}.

Definition setIsLoading (b : bool) (st : HookState) : HookState :=
  {| isLoading := b; prediction := prediction st; error := error st;
     toasts := toasts st |}.

Definition setError (e : option string) (st : HookState) : HookState :=
  {| isLoading := isLoading st; prediction := prediction st; error := e;
     toasts := toasts st |}.

Definition toast (t : Toast) (st : HookState) : HookState :=
  {| isLoading := isLoading st; prediction := prediction st; error := error st;
     toasts := t :: toasts st |}.

Section Hook.

Variable supabase : Supabase.
Variable now : string.

(** [predictionEngine.predict] of the singleton engine. *)
Definition engine_predict : PredictionInput -> Promise PredictionOutput :=
  predict supabase now.

(** [err instanceof Error ? err.message : fallback] *)
Definition message_of (err : Thrown) (fallback : string) : string :=
  match err with
  | ErrorObject message => message
  | OtherValue => fallback
  end.

Definition predictBatch (inputs : list PredictionInput) (st : HookState)
  : list PredictionOutput * HookState :=
  (* try *)
  let st := setIsLoading true st in
  let st := setError None st in
  let '(returned, st) :=
    match Promise.all (map engine_predict inputs) with
    | Resolved results =>
        let st :=
          toast {| title := "Batch predikció kész";
                   toast_description :=
                     (string_of_nat (length results)
                        ++ " mérkőzés előrejelzése elkészült")%string;
                   variant := None |} st in
        (results, st)
    | Rejected err =>
        (* catch *)
        let errorMessage := message_of err "Batch predikciós hiba történt" in
        let st := setError (Some errorMessage) st in
        let st :=
          toast {| title := "Batch predikciós hiba";
                   toast_description := errorMessage;
                   variant := Some "destructive"%string |} st in
        ([], st)
    end in
  (* finally *)
  (returned, setIsLoading false st).

End Hook.

(* ===================================================================== *)
(** * The ranking of scorelines, in the words of the specification *)
(* ===================================================================== *)

(** The distinct strings of a list, in the order in which each is first
    seen. *)
Fixpoint first_seen (keys : list string) : list string :=
  match keys with
  | [] => []
  | k :: rest => k :: filter (fun k' => negb (String.eqb k' k)) (first_seen rest)
  end.

(** How many times a string occurs. *)
Fixpoint occurrences (k : string) (keys : list string) : nat :=
  match keys with
  | [] => 0
  | k' :: rest =>
      if String.eqb k k' then S (occurrences k rest) else occurrences k rest
  end.

(** The position at which a string is first seen. *)
Fixpoint first_index (k : string) (keys : list string) : nat :=
  match keys with
  | [] => 0
  | k' :: rest => if String.eqb k k' then 0 else S (first_index k rest)
  end.

(** "Group by exact scoreline string": one entry per distinct scoreline, in
    the order in which the scorelines are first seen, with the number of its
    matches and the percentage the program gives that number
    ([is_rounded_percentage] says which number that is). *)
Definition scoreline_groups (matches : list Match) : list FrequentResult :=
  let keys := map scoreline matches in
  map (fun k =>
         {| result := k;
            count := occurrences k keys;
            percentage := percentage_of (occurrences k keys) (length matches) |})
      (first_seen keys).

(** "Sort by count descending then by first-seen insertion order for
    ties": when [a] must come before [b]. *)
Definition ranks_before (matches : list Match) (a b : FrequentResult) : Prop :=
  count b < count a
  \/ (count a = count b
      /\ first_index (result a) (map scoreline matches)
         < first_index (result b) (map scoreline matches)).

(* ===================================================================== *)
(** * The overall form, in the words of the specification *)
(* ===================================================================== *)

(** The entry of a form array from the team's perspective: 1 for a win,
    0.5 for a draw, 0 for a loss, on whichever side the team played. *)
Definition team_form_entry (teamName : string) (m : Match) : number :=
  if String.eqb (home_team m) teamName then form_entry OutH m
  else form_entry OutA m.

(** "Last-5-matches sequence ... overall": the five most recent of the
    team's matches, home and away together, most recent first. *)
Definition last_five_overall (teamName : string) (homeData awayData : list Match)
  : list number :=
  map (team_form_entry teamName)
    (firstn 5
       (array_sort
          (fun a b => (Z.of_nat (match_time b) - Z.of_nat (match_time a))%Z)
          (homeData ++ awayData))).

(* ===================================================================== *)
(** * Definitions used by the statements *)
(* ===================================================================== *)

(** The object built by the first loop over [keys]: the distinct keys in
    insertion order, each with the number of its occurrences. *)
Definition tally (keys : list string) : JsObject.t :=
  map (fun k => (k, occurrences k keys)) (first_seen keys).

(** The all-zero structures. *)
Definition zeroMatchStats : MatchStats :=
  {| total_matches := 0; home_wins := 0; draws := 0; away_wins := 0;
     btts_count := 0; comeback_count := 0; avg_goals := Fin 0%Q;
     home_win_percentage := Fin 0%Q; draw_percentage := Fin 0%Q;
     away_win_percentage := Fin 0%Q; btts_percentage := Fin 0%Q;
     comeback_percentage := Fin 0%Q |}.

Definition zeroDetailedMatchStats : DetailedMatchStats :=
  {| basic := zeroMatchStats;
     goalStats :=
       {| home_goals_total := 0; away_goals_total := 0;
          home_goals_per_match := Fin 0%Q; away_goals_per_match := Fin 0%Q;
          home_clean_sheets := 0; away_clean_sheets := 0;
          home_clean_sheet_percentage := Fin 0%Q;
          away_clean_sheet_percentage := Fin 0%Q |};
     overUnder :=
       {| over_25_count := 0; under_25_count := 0;
          over_25_percentage := Fin 0%Q; under_25_percentage := Fin 0%Q;
          over_35_count := 0; over_35_percentage := Fin 0%Q |};
     frequentResults := [];
     halfTimeAnalysis :=
       {| ht_home_leads := 0; ht_away_leads := 0; ht_draws := 0;
          ht_home_lead_to_win := 0; ht_home_lead_to_draw := 0;
          ht_home_lead_to_loss := 0; ht_away_lead_to_win := 0;
          ht_away_lead_to_draw := 0; ht_away_lead_to_loss := 0;
          home_lead_hold_percentage := Fin 0%Q;
          away_lead_hold_percentage := Fin 0%Q |} |}.

(** Every percentage and average of the structure is a finite number:
    no division by zero (NaN, Infinity) has reached a field. *)
Definition basic_finite (s : MatchStats) : bool :=
  is_finite (avg_goals s)
  && is_finite (home_win_percentage s)
  && is_finite (draw_percentage s)
  && is_finite (away_win_percentage s)
  && is_finite (btts_percentage s)
  && is_finite (comeback_percentage s).

Definition detailed_finite (d : DetailedMatchStats) : bool :=
  basic_finite (basic d)
  && is_finite (home_goals_per_match (goalStats d))
  && is_finite (away_goals_per_match (goalStats d))
  && is_finite (home_clean_sheet_percentage (goalStats d))
  && is_finite (away_clean_sheet_percentage (goalStats d))
  && is_finite (over_25_percentage (overUnder d))
  && is_finite (under_25_percentage (overUnder d))
  && is_finite (over_35_percentage (overUnder d))
  && forallb (fun r => is_finite (percentage r)) (frequentResults d)
  && is_finite (home_lead_hold_percentage (halfTimeAnalysis d))
  && is_finite (away_lead_hold_percentage (halfTimeAnalysis d)).

(** A missing half-time count read as 0. *)
Definition fill_half_time (m : Match) : Match :=
  {| home_team := home_team m;
     away_team := away_team m;
     full_time_home_goals := full_time_home_goals m;
     full_time_away_goals := full_time_away_goals m;
     half_time_home_goals := Some (or_zero (half_time_home_goals m));
     half_time_away_goals := Some (or_zero (half_time_away_goals m));
     result_computed := result_computed m;
     btts_computed := btts_computed m;
     comeback_computed := comeback_computed m;
     match_time := match_time m |}.

(** The same match with both half-time counts missing. *)
Definition erase_half_time (m : Match) : Match :=
  {| home_team := home_team m;
     away_team := away_team m;
     full_time_home_goals := full_time_home_goals m;
     full_time_away_goals := full_time_away_goals m;
     half_time_home_goals := None;
     half_time_away_goals := None;
     result_computed := result_computed m;
     btts_computed := btts_computed m;
     comeback_computed := comeback_computed m;
     match_time := match_time m |}.

(** Two rows that differ at most in their half-time counts. *)
Definition same_full_time (m m' : Match) : Prop :=
  erase_half_time m = erase_half_time m'.

(** The state of a match at half-time, a missing count being 0. *)
Inductive HalfTimeState : Type := HomeLead | AwayLead | Level.

Definition half_time_state (m : Match) : HalfTimeState :=
  if or_zero (half_time_away_goals m) <? or_zero (half_time_home_goals m)
  then HomeLead
  else if or_zero (half_time_home_goals m) <? or_zero (half_time_away_goals m)
  then AwayLead
  else Level.

Definition in_state (s : HalfTimeState) (m : Match) : bool :=
  match s, half_time_state m with
  | HomeLead, HomeLead | AwayLead, AwayLead | Level, Level => true
  | _, _ => false
  end.

(** A table client whose every query answers with no rows. *)
Definition empty_table : Supabase :=
  {| select_home := fun _ => Resolved {| data := Some [] |};
     select_away := fun _ => Resolved {| data := Some [] |};
     select_between := fun _ _ => Resolved {| data := Some [] |} |}.

(** A table client that cannot answer for one team (the request fails)
    and has no rows for the others. *)
Definition unreachable_for (team : string) : Supabase :=
  let answer (t : string) : Promise QueryResponse :=
    if String.eqb t team then Rejected (ErrorObject "Failed to fetch")
    else Resolved {| data := Some [] |} in
  {| select_home := answer;
     select_away := answer;
     select_between := fun a b =>
       if String.eqb a team || String.eqb b team
       then Rejected (ErrorObject "Failed to fetch")
       else Resolved {| data := Some [] |} |}.

Definition initialHookState : HookState :=
  {| isLoading := false; prediction := None; error := None; toasts := [] |}.

(** Five home wins of Arsenal, the most recent first (times 5 to 1). *)
Definition arsenal_home_rows : list Match :=
  [ mkMatch "Arsenal" "Chelsea" 2 0 None None OutH false false 5;
    mkMatch "Arsenal" "Liverpool" 1 0 None None OutH false false 4;
    mkMatch "Arsenal" "Everton" 3 1 None None OutH true false 3;
    mkMatch "Arsenal" "Fulham" 2 1 None None OutH true false 2;
    mkMatch "Arsenal" "Brentford" 1 0 None None OutH false false 1 ].

(** Five away defeats of Arsenal, all later than the home wins (times 10
    to 6), the most recent first. *)
Definition arsenal_away_rows : list Match :=
  [ mkMatch "Chelsea" "Arsenal" 1 0 None None OutH false false 10;
    mkMatch "Liverpool" "Arsenal" 2 0 None None OutH false false 9;
    mkMatch "Everton" "Arsenal" 2 1 None None OutH true false 8;
    mkMatch "Fulham" "Arsenal" 1 0 None None OutH false false 7;
    mkMatch "Brentford" "Arsenal" 3 0 None None OutH false false 6 ].

(** The answers of the table to the two queries about Arsenal. *)
Definition arsenal_table : Supabase :=
  {| select_home := fun team =>
       Resolved {| data := Some (if String.eqb team "Arsenal"
                                 then arsenal_home_rows else []) |};
     select_away := fun team =>
       Resolved {| data := Some (if String.eqb team "Arsenal"
                                 then arsenal_away_rows else []) |};
     select_between := fun _ _ => Resolved {| data := Some [] |} |}.

(** The values a form entry can take. *)
Definition is_form_value (x : number) : Prop :=
  x = Fin 0%Q \/ x = Fin 0.5%Q \/ x = Fin 1%Q.

Definition goalless_half_example : list Match :=
  [ mkMatch "Arsenal" "Chelsea" 2 1 None None OutH true false 2;
    mkMatch "Chelsea" "Arsenal" 0 3 (Some 0) (Some 2) OutA false false 1 ].

Definition goalless_half_example' : list Match :=
  [ mkMatch "Arsenal" "Chelsea" 2 1 (Some 1) (Some 0) OutH true false 2;
    mkMatch "Chelsea" "Arsenal" 0 3 None None OutA false false 1 ].

(** Twenty matches: 12 home wins, 5 draws, 3 away wins, 54 goals. *)
Definition twenty_matches : list Match :=
  repeat (mkMatch "A" "B" 2 1 None None OutH true false 0) 12
  ++ repeat (mkMatch "A" "B" 1 1 None None OutD true false 0) 5
  ++ [ mkMatch "A" "B" 1 2 None None OutA true false 0;
       mkMatch "A" "B" 1 2 None None OutA true false 0;
       mkMatch "A" "B" 0 2 None None OutA false false 0 ].

(** "[x] divided by [total], times 100, rounded to one decimal place", said
    of a number of the program: it is the binary64 number of a decimal with
    one digit after the point, and that decimal is within 0.05 of the exact
    percentage, up to 10^-12 for the error of the binary64 operations. *)
Definition is_rounded_percentage (p : number) (x total : nat) : Prop :=
  exists k : Z,
    p = Fin (binary64 (inject_Z k / 10))
    /\ (Qabs (inject_Z k / 10
              - inject_Z (Z.of_nat x) / inject_Z (Z.of_nat total) * 100)
        <= (1 # 20) + (1 # 10 ^ 12))%Q.

(** A finite number between 0 and 100. *)
Definition is_percentage (x : number) : Prop :=
  exists q : Q, x = Fin q /\ (0 <= q)%Q /\ (q <= 100)%Q.

(** The total of the full-time goals of a match. *)
Definition match_goals (m : Match) : nat :=
  full_time_home_goals m + full_time_away_goals m.

(** A match in a given half-time state that ended with a given outcome. *)
Definition led_and_ended (s : HalfTimeState) (o : Outcome) (m : Match) : bool :=
  in_state s m && Outcome_eqb (result_computed m) o.

(** The percentages of a detailed result, outside the basic statistics. *)
Definition detailed_percentages (d : DetailedMatchStats) : list number :=
  [ home_clean_sheet_percentage (goalStats d);
    away_clean_sheet_percentage (goalStats d);
    over_25_percentage (overUnder d);
    under_25_percentage (overUnder d);
    over_35_percentage (overUnder d);
    home_lead_hold_percentage (halfTimeAnalysis d);
    away_lead_hold_percentage (halfTimeAnalysis d) ]
  ++ map percentage (frequentResults d).

Definition basic_percentages (s : MatchStats) : list number :=
  [ home_win_percentage s; draw_percentage s; away_win_percentage s;
    btts_percentage s; comeback_percentage s ].

(** The matches with a given scoreline string. *)
Definition has_scoreline (k : string) (m : Match) : bool :=
  String.eqb (scoreline m) k.

(* ===================================================================== *)
(** * The rest of the prediction hook *)
(* ===================================================================== *)

(** [a > b]; false when either side is NaN. *)
Definition gtb (a b : number) : bool := ltb b a.

(** [Math.max(a, b)] and [Math.min(a, b)]: NaN when either is NaN. *)
Definition max2 (a b : number) : number :=
  match a, b with
  | NaN, _ | _, NaN => NaN
  | PosInf, _ | _, PosInf => PosInf
  | NegInf, other | other, NegInf => other
  | Fin x, Fin y => if Qle_bool x y then Fin y else Fin x
  end.

Definition min2 (a b : number) : number :=
  match a, b with
  | NaN, _ | _, NaN => NaN
  | NegInf, _ | _, NegInf => NegInf
  | PosInf, other | other, PosInf => other
  | Fin x, Fin y => if Qle_bool x y then Fin x else Fin y
  end.

(** [Math.max(a, b, c)] and [Math.min(a, b, c)] *)
Definition max3 (a b c : number) : number := max2 (max2 a b) c.

Definition min3 (a b c : number) : number := min2 (min2 a b) c.

Definition setPrediction (p : option PredictionOutput) (st : HookState)
  : HookState :=
  {| isLoading := isLoading st; prediction := p; error := error st;
     toasts := toasts st |}.

Record HalftimeScore : Type := mkHalftimeScore {
  score_home : nat;
  score_away : nat
}.

(** [{ ...input, halftime_home_goals: home, halftime_away_goals: away }] *)
Definition with_halftime (input : PredictionInput) (halftimeScore : HalftimeScore)
  : PredictionInput :=
  {| input_home_team := input_home_team input;
     input_away_team := input_away_team input;
     halftime_home_goals := Some (score_home halftimeScore);
     halftime_away_goals := Some (score_away halftimeScore) |}.

Inductive QualityLevel : Type := EXCELLENT | GOOD | FAIR | POOR.

Record QualityAssessment : Type := mkQualityAssessment {
  level : QualityLevel;
  message : string;
  color : string
}.

(** The result of analyzeTrends; the three grades are the strings 'HIGH',
    'MEDIUM' and 'LOW'. *)
Record TrendAnalysis : Type := mkTrendAnalysis {
  dominantOutcome : Outcome;
  certaintyLevel : ConfidenceLevel;
  isCloseMatch : bool;
  surpriseFactor : ConfidenceLevel
}.

Definition assessPredictionQuality (prediction : PredictionOutput)
  : QualityAssessment :=
  let confidence := confidence_score (predictions prediction) in
  let qualityScore := data_quality_score (prediction_metadata prediction) in
  if geb confidence (Fin 0.8%Q) && geb qualityScore (Fin 0.8%Q) then
    {| level := EXCELLENT;
       message := "Kiváló predikciós minőség";
       color := "success" |}
  else if geb confidence (Fin 0.6%Q) && geb qualityScore (Fin 0.6%Q) then
    {| level := GOOD;
       message := "Jó predikciós minőség";
       color := "info" |}
  else if geb confidence (Fin 0.4%Q) && geb qualityScore (Fin 0.4%Q) then
    {| level := FAIR;
       message := "Elfogadható predikciós minőség";
       color := "warning" |}
  else
    {| level := POOR;
       message := "Gyenge predikciós minőség - óvatosan használd";
       color := "error" |}.

(** [spread] is a computed number: the literals it is compared with are
    written by their binary64 values. *)
Definition analyzeTrends (prediction : PredictionOutput) : TrendAnalysis :=
  let home_win_probability := home_win_probability (predictions prediction) in
  let draw_probability := draw_probability (predictions prediction) in
  let away_win_probability := away_win_probability (predictions prediction) in
  let maxProb := max3 home_win_probability draw_probability away_win_probability in
  let minProb := min3 home_win_probability draw_probability away_win_probability in
  let spread := sub maxProb minProb in
  {| dominantOutcome := most_likely_outcome (predictions prediction);
     certaintyLevel :=
       if gtb spread (double 0.4) then HIGH
       else if gtb spread (double 0.2) then MEDIUM
       else LOW;
     isCloseMatch := ltb spread (double 0.15);
     surpriseFactor := if gtb minProb (Fin 0.25%Q) then LOW else HIGH |}.

Section HookRest.

Variable supabase : Supabase.
Variable now : string.

Definition predictMatch (input : PredictionInput) (st : HookState)
  : option PredictionOutput * HookState :=
  (* try *)
  let st := setIsLoading true st in
  let st := setError None st in
  let '(returned, st) :=
    match engine_predict supabase now input with
    | Resolved result =>
        let st := setPrediction (Some result) st in
        let st :=
          toast {| title := "Predikció kész";
                   toast_description :=
                     (input_home_team input ++ " vs " ++ input_away_team input
                        ++ " előrejelzés elkészült")%string;
                   variant := None |} st in
        (Some result, st)
    | Rejected err =>
        (* catch *)
        let errorMessage := message_of err "Predikciós hiba történt" in
        let st := setError (Some errorMessage) st in
        let st :=
          toast {| title := "Predikciós hiba";
                   toast_description := errorMessage;
                   variant := Some "destructive"%string |} st in
        (None, st)
    end in
  (* finally *)
  (returned, setIsLoading false st).

Definition updatePredictionWithHalftime (input : PredictionInput)
    (halftimeScore : HalftimeScore) (st : HookState)
  : option PredictionOutput * HookState :=
  let updatedInput := with_halftime input halftimeScore in
  predictMatch updatedInput st.

Definition clearPrediction (st : HookState) : HookState :=
  setError None (setPrediction None st).

End HookRest.

(** Whether a promise has resolved. *)
Definition is_resolved (A : Type) (p : Promise A) : bool :=
  match p with
  | Resolved _ => true
  | Rejected _ => false
  end.

(** The five queries a prediction sends about its two teams. *)
Definition table_answers (supabase : Supabase) (input : PredictionInput) : bool :=
  is_resolved (select_home supabase (input_home_team input))
  && is_resolved (select_away supabase (input_home_team input))
  && is_resolved (select_home supabase (input_away_team input))
  && is_resolved (select_away supabase (input_away_team input))
  && is_resolved
       (select_between supabase (input_home_team input) (input_away_team input)).


(** A finite number that is not negative. *)
Definition is_nonneg_finite (x : number) : Prop :=
  exists q : Q, x = Fin q /\ (0 <= q)%Q.

(** A finite number between 0 and 1. *)
Definition is_unit_ratio (x : number) : Prop :=
  exists q : Q, x = Fin q /\ (0 <= q)%Q /\ (q <= 1)%Q.

(** A row of a meeting of the two teams, on either side. *)
Definition is_between (teamA teamB : string) (m : Match) : Prop :=
  (home_team m = teamA /\ away_team m = teamB)
  \/ (home_team m = teamB /\ away_team m = teamA).

(** The rates and averages of the goal and historical features. *)
Definition feature_percentages (f : TeamFeatures) : list number :=
  [ btts_percentage_home (goal_features f);
    btts_percentage_away (goal_features f);
    clean_sheet_percentage_home (goal_features f);
    clean_sheet_percentage_away (goal_features f);
    comeback_ability (goal_features f);
    lead_holding (goal_features f);
    hist_home_win_percentage (historical_features f);
    hist_away_win_percentage (historical_features f);
    hist_draw_percentage (historical_features f) ].

Definition feature_averages (f : TeamFeatures) : list number :=
  [ avg_goals_scored_home (goal_features f);
    avg_goals_scored_away (goal_features f);
    avg_goals_conceded_home (goal_features f);
    avg_goals_conceded_away (goal_features f) ].

(* ===================================================================== *)
(** * The components that show the statistics *)
(* ===================================================================== *)

(** ** FrequentResultsChart *)

Record ChartData : Type := mkChartData {
  labels : list string;
  values : list nat;
  colors : list string
}.

(** The data handed to the pie chart; [None] when the component returns
    the "not enough data" message instead of a chart. *)
Definition FrequentResultsChart_chartData (stats : DetailedMatchStats)
  : option ChartData :=
  if length (frequentResults stats) =? 0 then None
  else
    Some {| labels := map result (frequentResults stats);
            values := map count (frequentResults stats);
            colors := [ "hsl(var(--primary))"%string;
                        "hsl(var(--secondary))"%string;
                        "hsl(var(--accent))"%string;
                        "hsl(var(--muted))"%string ] |}.

(** ** DetailedStatsCard *)

(** What the half-time block of the card shows: the two lead counts, and
    a hold percentage for each side that has led. *)
Record HalfTimeBlock : Type := mkHalfTimeBlock {
  shown_home_leads : nat;
  shown_away_leads : nat;
  shown_home_hold : option number;
  shown_away_hold : option number
}.

(** The expression [{ht_home_leads > 0 || ht_away_leads > 0 && (<div>...)}].
    [&&] binds tighter than [||]: when a home side has led the expression
    is the boolean [true], when no side has led it is [false], and a
    boolean renders nothing ([None]); the block is its value only when no
    home side and some away side has led. *)
Definition DetailedStatsCard_halfTimeBlock (stats : DetailedMatchStats)
  : option HalfTimeBlock :=
  let ht := halfTimeAnalysis stats in
  if 0 <? ht_home_leads ht then None
  else if 0 <? ht_away_leads ht then
    Some {| shown_home_leads := ht_home_leads ht;
            shown_away_leads := ht_away_leads ht;
            shown_home_hold :=
              if 0 <? ht_home_leads ht
              then Some (home_lead_hold_percentage ht) else None;
            shown_away_hold :=
              if 0 <? ht_away_leads ht
              then Some (away_lead_hold_percentage ht) else None |}
  else None.

(** ** PredictionModal (statistics of chosen pairs) *)

Record PredictedMatch : Type := mkPredictedMatch {
  slot_id : nat;
  slot_home_team : string;
  slot_away_team : string
}.

Inductive Side : Type := SideHome | SideAway.

(** A string used as a condition: the empty string is false. *)
Definition truthy (s : string) : bool := negb (String.eqb s "").

(** [Set.prototype.add], on a set kept in insertion order. *)
Definition set_add (x : string) (s : list string) : list string :=
  if existsb (String.eqb x) s then s else s ++ [x].

(** [Set.prototype.has] *)
Definition set_has (x : string) (s : list string) : bool :=
  existsb (String.eqb x) s.

Definition getUsedTeams (selectedMatches : list PredictedMatch) : list string :=
  fold_left
    (fun used m =>
       let used :=
         if truthy (slot_home_team m) then set_add (slot_home_team m) used
         else used in
       if truthy (slot_away_team m) then set_add (slot_away_team m) used
       else used)
    selectedMatches [].

(** [team === currentMatch?.home_team]: false when no match has the id. *)
Definition is_home_of (currentMatch : option PredictedMatch) (team : string)
  : bool :=
  match currentMatch with
  | Some m => String.eqb team (slot_home_team m)
  | None => false
  end.

Definition is_away_of (currentMatch : option PredictedMatch) (team : string)
  : bool :=
  match currentMatch with
  | Some m => String.eqb team (slot_away_team m)
  | None => false
  end.

Definition getAvailableTeams (teams : list string)
    (selectedMatches : list PredictedMatch) (currentMatchId : nat) (side : Side)
  : list string :=
  let usedTeams := getUsedTeams selectedMatches in
  let currentMatch :=
    find (fun m => slot_id m =? currentMatchId) selectedMatches in
  filter
    (fun team =>
       if set_has team usedTeams then
         match side with
         | SideHome => is_home_of currentMatch team
         | SideAway => is_away_of currentMatch team
         end
       else
         match side with
         | SideHome => negb (is_away_of currentMatch team)
         | SideAway => negb (is_home_of currentMatch team)
         end)
    teams.

Definition updateMatch (matchId : nat) (side : Side) (team : string)
    (prev : list PredictedMatch) : list PredictedMatch :=
  map (fun m =>
         if slot_id m =? matchId then
           match side with
           | SideHome =>
               {| slot_id := slot_id m; slot_home_team := team;
                  slot_away_team := slot_away_team m |}
           | SideAway =>
               {| slot_id := slot_id m; slot_home_team := slot_home_team m;
                  slot_away_team := team |}
           end
         else m)
      prev.

Definition clearMatch (matchId : nat) (prev : list PredictedMatch)
  : list PredictedMatch :=
  map (fun m =>
         if slot_id m =? matchId then
           {| slot_id := slot_id m; slot_home_team := "";
              slot_away_team := "" |}
         else m)
      prev.

(** [Array.from({ length: 8 }, (_, index) => ({ id: index + 1, ... }))] *)
Definition emptyMatches : list PredictedMatch :=
  map (fun index => {| slot_id := index + 1; slot_home_team := "";
                       slot_away_team := "" |})
      (seq 0 8).

(** The answer [{ data, error }] of the query of runPredictions. *)
Record PairResponse : Type := mkPairResponse {
  pair_data : option (list Match);
  pair_error : option Thrown
}.

Record StatsRow : Type := mkStatsRow {
  row_match : PredictedMatch;
  row_stats : option MatchStats;
  row_detailedStats : option DetailedMatchStats
}.

(** The statistics runPredictions computes in place for a non-empty
    answer. *)
Definition modalStats (data : list Match) : MatchStats :=
  let totalMatches := length data in
  let homeWins :=
    length (filter (fun m => Outcome_eqb (result_computed m) OutH) data) in
  let draws :=
    length (filter (fun m => Outcome_eqb (result_computed m) OutD) data) in
  let awayWins :=
    length (filter (fun m => Outcome_eqb (result_computed m) OutA) data) in
  let bttsCount :=
    length (filter (fun m => Bool.eqb (btts_computed m) true) data) in
  let comebackCount :=
    length (filter (fun m => Bool.eqb (comeback_computed m) true) data) in
  let totalGoals :=
    fold_left
      (fun sum m => sum + full_time_home_goals m + full_time_away_goals m)
      data 0 in
  let avgGoals := div (of_nat totalGoals) (of_nat totalMatches) in
  {| total_matches := totalMatches;
     home_wins := homeWins;
     draws := draws;
     away_wins := awayWins;
     btts_count := bttsCount;
     comeback_count := comebackCount;
     avg_goals := toFixed 1 avgGoals;
     home_win_percentage := percentage_of homeWins totalMatches;
     draw_percentage := percentage_of draws totalMatches;
     away_win_percentage := percentage_of awayWins totalMatches;
     btts_percentage := percentage_of bttsCount totalMatches;
     comeback_percentage := percentage_of comebackCount totalMatches |}.

Record ModalState : Type := mkModalState {
  selectedMatches : list PredictedMatch;
  modal_predictions : list StatsRow;
  loading : bool;
  modal_toasts : list Toast
}.

Section StatsModal.

(** The query of runPredictions: all rows with the given home team and
    the given away team, neither ordered nor limited. *)
Variable select_pair : string -> string -> Promise PairResponse.

Definition nullRow (m : PredictedMatch) : StatsRow :=
  {| row_match := m; row_stats := None; row_detailedStats := None |}.

(** The body of the loop over the valid matches, with its own try/catch:
    a rejected query and a reported error both end in the catch. *)
Definition statsRowOf (m : PredictedMatch) : StatsRow :=
  match select_pair (slot_home_team m) (slot_away_team m) with
  | Rejected _ => nullRow m
  | Resolved response =>
      match pair_error response with
      | Some _ => nullRow m
      | None =>
          match pair_data response with
          | Some (first :: others) =>
              let data := first :: others in
              {| row_match := m;
                 row_stats := Some (modalStats data);
                 row_detailedStats := Some (calculateDetailedStats data) |}
          | _ => nullRow m
          end
      end
  end.

(** The two dynamic imports are taken to succeed, so that the outer catch
    is not reached. *)
Definition runPredictions (st : ModalState) : ModalState :=
  let validMatches :=
    filter (fun m => truthy (slot_home_team m) && truthy (slot_away_team m))
      (selectedMatches st) in
  if length validMatches =? 0 then
    {| selectedMatches := selectedMatches st;
       modal_predictions := modal_predictions st;
       loading := loading st;
       modal_toasts :=
         {| title := "Nincs érvényes mérkőzés";
            toast_description := "Legalább egy mérkőzést be kell állítani";
            variant := Some "destructive"%string |} :: modal_toasts st |}
  else
    let results := map statsRowOf validMatches in
    {| selectedMatches := selectedMatches st;
       modal_predictions := results;
       loading := false;
       modal_toasts :=
         {| title := "Predikciók elkészültek";
            toast_description :=
              (string_of_nat (length results)
                 ++ " mérkőzés elemzése befejezve")%string;
            variant := None |} :: modal_toasts st |}.

End StatsModal.

(** The team names chosen in the slots, empty places left out. *)
Definition chosen_teams (selectedMatches : list PredictedMatch) : list string :=
  filter truthy
    (flat_map (fun m => [slot_home_team m; slot_away_team m]) selectedMatches).

(** No team is chosen twice, and the slots have different ids. *)
Definition slots_consistent (selectedMatches : list PredictedMatch) : Prop :=
  NoDup (map slot_id selectedMatches) /\ NoDup (chosen_teams selectedMatches).

(** ** PredictionModal (predictions of the coming matches) *)


Definition is_nan (x : number) : bool :=
  match x with
  | NaN => true
  | _ => false
  end.



(** The badge of the modal; its icon is named, not rendered. *)
Record ConfidenceBadge : Type := mkConfidenceBadge {
  badge_level : string;
  badge_color : string;
  badge_icon : string
}.

(** The modal's own getConfidenceLevel, with its own thresholds. *)
Definition PredictionModal_getConfidenceLevel (prediction : PredictionOutput)
  : ConfidenceBadge :=
  let confidence := confidence_score (predictions prediction) in
  if geb confidence (Fin 0.75%Q) then
    {| badge_level := "Magas"; badge_color := "bg-green-500";
       badge_icon := "CheckCircle" |}
  else if geb confidence (Fin 0.55%Q) then
    {| badge_level := "Közepes"; badge_color := "bg-yellow-500";
       badge_icon := "AlertTriangle" |}
  else
    {| badge_level := "Alacsony"; badge_color := "bg-red-500";
       badge_icon := "AlertTriangle" |}.

Record ConfidenceStats : Type := mkConfidenceStats {
  high : nat;
  medium : nat;
  low : nat
}.

Definition getConfidenceStats (predictions_shown : list PredictionOutput)
  : ConfidenceStats :=
  {| high :=
       length (filter (fun p =>
                 geb (confidence_score (predictions p)) (Fin 0.75%Q))
                 predictions_shown);
     medium :=
       length (filter (fun p =>
                 geb (confidence_score (predictions p)) (Fin 0.55%Q)
                 && ltb (confidence_score (predictions p)) (Fin 0.75%Q))
                 predictions_shown);
     low :=
       length (filter (fun p =>
                 ltb (confidence_score (predictions p)) (Fin 0.55%Q))
                 predictions_shown) |}.

(** usePredefinedPredictions *)
Definition getUpcomingMatches : list PredictionInput :=
  [ mkPredictionInput "Real Madrid" "Barcelona" None None;
    mkPredictionInput "Manchester United" "Liverpool" None None;
    mkPredictionInput "Bayern Munich" "Borussia Dortmund" None None;
    mkPredictionInput "Juventus" "Inter Milan" None None;
    mkPredictionInput "Paris Saint-Germain" "Olympique Marseille" None None;
    mkPredictionInput "Arsenal" "Chelsea" None None;
    mkPredictionInput "Atletico Madrid" "Valencia" None None;
    mkPredictionInput "AC Milan" "AS Roma" None None ].

Definition predictUpcomingMatches (supabase : Supabase) (now : string)
    (st : HookState) : list PredictionOutput * HookState :=
  let upcomingMatches := getUpcomingMatches in
  predictBatch supabase now upcomingMatches st.

(** ** formatModelExplanations *)

(** The sign of the number a comparator returns, which is all the sort
    reads of it; NaN counts as 0. *)
Definition comparator_sign (x : number) : Z :=
  if ltb x (Fin 0%Q) then (-1)%Z
  else if gtb x (Fin 0%Q) then 1%Z
  else 0%Z.

(** [(a, b) => b.importance - a.importance] *)
Definition by_importance_desc (a b : FeatureImportance) : Z :=
  comparator_sign (sub (importance b) (importance a)).

Record TopFeature : Type := mkTopFeature {
  top_name : string;
  top_importance : number;
  top_value : number
}.

Record FormattedExplanation : Type := mkFormattedExplanation {
  fmt_name : string;
  fmt_weight : number;
  fmt_home : number;
  fmt_draw : number;
  fmt_away : number;
  topFeatures : list TopFeature
}.

(** [Math.round(x * 100)] *)
Definition as_percent (x : number) : number := math_round (mul x (Fin 100%Q)).

(** [key_features.sort(...)] sorts the array of the explanation itself:
    the explanation the caller holds has its features sorted afterwards. *)
Definition sort_features (explanation : ModelExplanation) : ModelExplanation :=
  {| model_name := model_name explanation;
     weight := weight explanation;
     explained_home_win := explained_home_win explanation;
     explained_draw := explained_draw explanation;
     explained_away_win := explained_away_win explanation;
     key_features := array_sort by_importance_desc (key_features explanation) |}.

Definition format_explanation (explanation : ModelExplanation)
  : FormattedExplanation :=
  {| fmt_name := model_name explanation;
     fmt_weight := as_percent (weight explanation);
     fmt_home := as_percent (explained_home_win explanation);
     fmt_draw := as_percent (explained_draw explanation);
     fmt_away := as_percent (explained_away_win explanation);
     topFeatures :=
       map (fun feature =>
              {| top_name := description feature;
                 top_importance := as_percent (importance feature);
                 top_value := feature_value feature |})
           (slice0 3 (key_features (sort_features explanation))) |}.

(** The formatted explanations, and the prediction as the call leaves
    it. *)
Definition formatModelExplanations (prediction : PredictionOutput)
  : list FormattedExplanation * PredictionOutput :=
  (map format_explanation (model_explanations prediction),
   {| predictions := predictions prediction;
      model_explanations := map sort_features (model_explanations prediction);
      prediction_metadata := prediction_metadata prediction |}).

(** The importance of a feature, when it is finite: the binary64 value
    of the number, which is what the comparator subtracts. *)
Definition importance_value (feature : FeatureImportance) : Q :=
  match importance feature with
  | Fin q => binary64 q
  | _ => 0%Q
  end.

Definition finite_importance (feature : FeatureImportance) : Prop :=
  is_finite (importance feature) = true.

(** Not increasing in importance. *)
Definition importance_descending (features : list FeatureImportance) : Prop :=
  StronglySorted
    (fun f g => (importance_value g <= importance_value f)%Q) features.

(** ** Data of the runs *)

(** The output of the engine at a given time. *)
Definition engine_output (now : string) : PredictionOutput :=
  {| predictions :=
       {| home_win_probability := Fin 0.5%Q;
          draw_probability := Fin 0.25%Q;
          away_win_probability := Fin 0.25%Q;
          most_likely_outcome := OutH;
          confidence_score := Fin 0.75%Q |};
     model_explanations := [];
     prediction_metadata :=
       {| model_version := "v1.0";
          prediction_timestamp := now;
          data_quality_score := Fin 0.85%Q;
          prediction_confidence := MEDIUM;
          warning_flags := [] |} |}.

(** A prediction with one explanation that names four features. *)
Definition explained_output : PredictionOutput :=
  {| predictions := predictions (engine_output "2025-01-01T12:00:00.000Z");
     model_explanations :=
       [ {| model_name := "empirical";
            weight := Fin 0.3%Q;
            explained_home_win := Fin 0.45%Q;
            explained_draw := Fin 0.27%Q;
            explained_away_win := Fin 0.28%Q;
            key_features :=
              [ mkFeatureImportance "form" (Fin 0.1%Q) (Fin 1%Q) "Recent form";
                mkFeatureImportance "h2h" (Fin 0.4%Q) (Fin 2%Q) "Head to head";
                mkFeatureImportance "goals" (Fin 0.3%Q) (Fin 3%Q) "Goals";
                mkFeatureImportance "btts" (Fin 0.2%Q) (Fin 4%Q) "Both score" ]
         |} ];
     prediction_metadata :=
       prediction_metadata (engine_output "2025-01-01T12:00:00.000Z") |}.

Definition upcoming_input : PredictionInput :=
  mkPredictionInput "Arsenal" "Chelsea" None None.


(** Six meetings of Arsenal and Chelsea: one win of Arsenal, four wins of
    Chelsea and one draw. *)
Definition six_meetings : list Match :=
  [ mkMatch "Arsenal" "Chelsea" 2 1 None None OutH true false 6;
    mkMatch "Chelsea" "Arsenal" 1 0 None None OutH false false 5;
    mkMatch "Arsenal" "Chelsea" 0 2 None None OutA false false 4;
    mkMatch "Chelsea" "Arsenal" 3 1 None None OutH true false 3;
    mkMatch "Arsenal" "Chelsea" 1 1 None None OutD true false 2;
    mkMatch "Arsenal" "Chelsea" 0 1 None None OutA false false 1 ].

(** A prediction with the probabilities 0.41, 0.33 and 0.26: the program
    computes the spread 0.41 - 0.26 as 0.14999999999999997. *)
Definition close_prediction : PredictionOutput :=
  {| predictions :=
       {| home_win_probability := Fin 0.41%Q;
          draw_probability := Fin 0.33%Q;
          away_win_probability := Fin 0.26%Q;
          most_likely_outcome := OutH;
          confidence_score := Fin 0.75%Q |};
     model_explanations := [];
     prediction_metadata :=
       prediction_metadata (engine_output "2025-01-01T12:00:00.000Z") |}.

(* ===================================================================== *)
(** * Properties *)
(* ===================================================================== *)

(** ** Numbers *)

(** *** Rounding to binary64 *)

Section Binary64.

Local Open Scope Q_scope.

Lemma pow2_pos (e : Z) : 0 < 2 ^ e.
Proof. apply Qpower_0_lt. reflexivity. Qed.

Lemma pow2_succ (e : Z) : 2 ^ (e + 1) == 2 * 2 ^ e.
Proof.
  rewrite Qpower_plus by discriminate. change (2 ^ 1) with 2. ring.
Qed.

Lemma pow2_split (a b : Z) : 2 ^ a == 2 ^ (a - b) * 2 ^ b.
Proof.
  rewrite <- Qpower_plus by discriminate. now replace (a - b + b)%Z with a by lia.
Qed.

Lemma pow2_inject (n : Z) : (0 <= n)%Z -> 2 ^ n == inject_Z (2 ^ n).
Proof.
  intros Hn. now rewrite Zpower_Qpower.
Qed.

Lemma pow2_le (a b : Z) : (a <= b)%Z -> 2 ^ a <= 2 ^ b.
Proof.
  intros H. apply Qpower_le_compat_l; [exact H|discriminate].
Qed.

Lemma pow2_lt_inv (a b : Z) : 2 ^ a < 2 ^ b -> (a < b)%Z.
Proof.
  intros H. apply Qpower_lt_compat_l_inv with (q := 2); [exact H|reflexivity].
Qed.

(** [ilog2 x] is the exponent of the binade of a positive [x]. *)
Lemma ilog2_spec (x : Q) :
  0 < x -> 2 ^ ilog2 x <= x /\ x < 2 ^ (ilog2 x + 1).
Proof.
  intros Hx. destruct x as [n d].
  assert (Hn : (0 < n)%Z).
  { unfold Qlt in Hx. simpl in Hx. lia. }
  unfold ilog2. cbn [Qnum Qden].
  set (a := Z.log2 n). set (b := Z.log2 (Z.pos d)).
  destruct (Z.log2_spec n Hn) as [Ha1 Ha2]. fold a in Ha1, Ha2.
  destruct (Z.log2_spec (Z.pos d) eq_refl) as [Hb1 Hb2]. fold b in Hb1, Hb2.
  assert (Ha0 : (0 <= a)%Z) by apply Z.log2_nonneg.
  assert (Hb0 : (0 <= b)%Z) by apply Z.log2_nonneg.
  assert (HA1 : 2 ^ a <= inject_Z n).
  { rewrite pow2_inject by assumption. now rewrite <- Zle_Qle. }
  assert (HA2 : inject_Z n < 2 * 2 ^ a).
  { rewrite <- pow2_succ, pow2_inject by lia. rewrite <- Zlt_Qlt.
    now rewrite <- Z.add_1_r in Ha2. }
  assert (HB1 : 2 ^ b <= inject_Z (Z.pos d)).
  { rewrite pow2_inject by assumption. now rewrite <- Zle_Qle. }
  assert (HB2 : inject_Z (Z.pos d) < 2 * 2 ^ b).
  { rewrite <- pow2_succ, pow2_inject by lia. rewrite <- Zlt_Qlt.
    now rewrite <- Z.add_1_r in Hb2. }
  assert (Hx' : (n # d) * inject_Z (Z.pos d) == inject_Z n).
  { rewrite (Qmake_Qdiv n d). field. discriminate. }
  pose proof (pow2_split a b) as HP.
  pose proof (pow2_pos (a - b)) as HP0.
  pose proof (pow2_pos b) as HB0.
  assert (HD0 : 0 < inject_Z (Z.pos d)) by reflexivity.
  set (x := n # d) in *.
  set (N := inject_Z n) in *. set (D := inject_Z (Z.pos d)) in *.
  set (A := 2 ^ a) in *. set (B := 2 ^ b) in *. set (P := 2 ^ (a - b)) in *.
  destruct (Qle_bool P x) eqn:E.
  - apply Qle_bool_iff in E. split; [exact E|].
    rewrite pow2_succ. fold P.
    apply Qmult_lt_r with (z := D); [exact HD0|].
    rewrite Hx'. clearbody x N D A B P. nra.
  - assert (E' : x < P).
    { apply Qnot_le_lt. intros H. apply Qle_bool_iff in H. congruence. }
    replace (a - b - 1 + 1)%Z with (a - b)%Z by lia. fold P.
    split; [|exact E'].
    assert (Hh : 2 * 2 ^ (a - b - 1) == P).
    { unfold P. rewrite <- pow2_succ. now replace (a - b - 1 + 1)%Z with (a - b)%Z by lia. }
    pose proof (pow2_pos (a - b - 1)) as Hh0.
    set (H2 := 2 ^ (a - b - 1)) in *.
    apply Qmult_le_r with (z := D); [exact HD0|].
    rewrite Hx'. clearbody x N D A B P H2. nra.
Qed.

Lemma ilog2_mono (x y : Q) : 0 < x -> x <= y -> (ilog2 x <= ilog2 y)%Z.
Proof.
  intros Hx Hxy.
  assert (Hy : 0 < y) by (eapply Qlt_le_trans; eassumption).
  destruct (ilog2_spec Hx) as [H1 _].
  destruct (ilog2_spec Hy) as [_ H2].
  assert (ilog2 x < ilog2 y + 1)%Z; [|lia].
  apply pow2_lt_inv. eapply Qle_lt_trans; [exact H1|].
  eapply Qle_lt_trans; eassumption.
Qed.

(** ** Rounding to the nearest integer, ties to even *)

Lemma round_half_even_cases (x : Q) :
  let n := Qfloor x in
  (round_half_even x = n /\ x - inject_Z n <= 1 # 2)
  \/ (round_half_even x = (n + 1)%Z /\ 1 # 2 <= x - inject_Z n).
Proof.
  intros n. unfold round_half_even. fold n.
  destruct (Qcompare_spec (x - inject_Z n) (1 # 2)) as [E|E|E].
  - destruct (Z.even n); [left|right]; split; try reflexivity;
      rewrite E; apply Qle_refl.
  - left. split; [reflexivity|]. now apply Qlt_le_weak.
  - right. split; [reflexivity|]. now apply Qlt_le_weak.
Qed.

Lemma round_half_even_error (x : Q) :
  Qabs (inject_Z (round_half_even x) - x) <= 1 # 2.
Proof.
  pose proof (Qfloor_le x) as Hlo. pose proof (Qlt_floor x) as Hhi.
  rewrite inject_Z_plus in Hhi. change (inject_Z 1) with 1 in Hhi.
  apply Qabs_Qle_condition.
  destruct (round_half_even_cases x) as [[-> H]|[-> H]].
  - set (f := inject_Z (Qfloor x)) in *. clearbody f. split; lra.
  - rewrite inject_Z_plus. change (inject_Z 1) with 1.
    set (f := inject_Z (Qfloor x)) in *. clearbody f. split; lra.
Qed.

Lemma round_half_even_mono (x y : Q) :
  x <= y -> (round_half_even x <= round_half_even y)%Z.
Proof.
  intros Hxy.
  pose proof (Qfloor_resp_le _ _ Hxy) as Hfl.
  destruct (Z.eq_dec (Qfloor x) (Qfloor y)) as [E|E].
  - unfold round_half_even. rewrite <- E.
    set (n := Qfloor x).
    assert (Hfr : x - inject_Z n <= y - inject_Z n) by lra.
    destruct (Qcompare_spec (x - inject_Z n) (1 # 2)) as [Ex|Ex|Ex];
      destruct (Qcompare_spec (y - inject_Z n) (1 # 2)) as [Ey|Ey|Ey];
      try lia; try (destruct (Z.even n); lia);
      exfalso; set (f := inject_Z n) in *; clearbody f; lra.
  - destruct (round_half_even_cases x) as [[-> _]|[-> _]];
      destruct (round_half_even_cases y) as [[-> _]|[-> _]]; lia.
Qed.

Lemma round_half_even_Z (k : Z) : round_half_even (inject_Z k) = k.
Proof.
  unfold round_half_even. rewrite Qfloor_Z.
  destruct (Qcompare_spec (inject_Z k - inject_Z k) (1 # 2)) as [E|E|E].
  - exfalso. set (f := inject_Z k) in *. clearbody f. lra.
  - reflexivity.
  - exfalso. set (f := inject_Z k) in *. clearbody f. lra.
Qed.

(** ** Rounding a positive rational to 53 significant bits *)

Lemma round53_significand (x : Q) :
  0 < x ->
  let ulp := 2 ^ (ilog2 x - 52) in
  inject_Z (2 ^ 52) <= x / ulp /\ x / ulp <= inject_Z (2 ^ 53).
Proof.
  intros Hx ulp.
  destruct (ilog2_spec Hx) as [H1 H2].
  pose proof (pow2_pos (ilog2 x - 52)) as Hu. fold ulp in Hu.
  assert (E1 : 2 ^ ilog2 x == inject_Z (2 ^ 52) * ulp).
  { rewrite <- pow2_inject by lia. unfold ulp.
    rewrite <- Qpower_plus by discriminate.
    now replace (52 + (ilog2 x - 52))%Z with (ilog2 x) by lia. }
  assert (E2 : 2 ^ (ilog2 x + 1) == inject_Z (2 ^ 53) * ulp).
  { rewrite <- pow2_inject by lia. unfold ulp.
    rewrite <- Qpower_plus by discriminate.
    now replace (53 + (ilog2 x - 52))%Z with (ilog2 x + 1)%Z by lia. }
  rewrite E1 in H1. rewrite E2 in H2.
  split.
  - apply Qle_shift_div_l; assumption.
  - apply Qle_shift_div_r; [assumption|]. now apply Qlt_le_weak.
Qed.

Lemma round53_binade (x : Q) :
  0 < x -> 2 ^ ilog2 x <= round53 x /\ round53 x <= 2 ^ (ilog2 x + 1).
Proof.
  intros Hx. destruct (round53_significand Hx) as [H1 H2].
  unfold round53. set (ulp := 2 ^ (ilog2 x - 52)) in *.
  pose proof (pow2_pos (ilog2 x - 52)) as Hu. fold ulp in Hu.
  apply round_half_even_mono in H1, H2.
  rewrite round_half_even_Z in H1, H2.
  assert (E1 : 2 ^ ilog2 x == inject_Z (2 ^ 52) * ulp).
  { rewrite <- pow2_inject by lia. unfold ulp.
    rewrite <- Qpower_plus by discriminate.
    now replace (52 + (ilog2 x - 52))%Z with (ilog2 x) by lia. }
  assert (E2 : 2 ^ (ilog2 x + 1) == inject_Z (2 ^ 53) * ulp).
  { rewrite <- pow2_inject by lia. unfold ulp.
    rewrite <- Qpower_plus by discriminate.
    now replace (53 + (ilog2 x - 52))%Z with (ilog2 x + 1)%Z by lia. }
  rewrite E1, E2. rewrite Zle_Qle in H1, H2.
  split; apply Qmult_le_compat_r; try assumption; now apply Qlt_le_weak.
Qed.

Lemma round53_pos (x : Q) : 0 < x -> 0 < round53 x.
Proof.
  intros Hx. eapply Qlt_le_trans; [apply (pow2_pos (ilog2 x))|].
  now apply round53_binade.
Qed.

Lemma round53_mono (x y : Q) : 0 < x -> x <= y -> round53 x <= round53 y.
Proof.
  intros Hx Hxy.
  assert (Hy : 0 < y) by (eapply Qlt_le_trans; eassumption).
  pose proof (ilog2_mono Hx Hxy) as He.
  destruct (Z.eq_dec (ilog2 x) (ilog2 y)) as [E|E].
  - unfold round53. rewrite <- E.
    pose proof (pow2_pos (ilog2 x - 52)) as Hu.
    set (ulp := 2 ^ (ilog2 x - 52)) in *.
    apply Qmult_le_compat_r; [|now apply Qlt_le_weak].
    rewrite <- Zle_Qle. apply round_half_even_mono.
    apply Qle_shift_div_l; [assumption|].
    unfold Qdiv. rewrite <- Qmult_assoc, (Qmult_comm (/ ulp)), Qmult_inv_r, Qmult_1_r;
      [assumption|].
    intros H0. rewrite H0 in Hu. discriminate.
  - destruct (round53_binade Hx) as [_ H1].
    destruct (round53_binade Hy) as [H2 _].
    eapply Qle_trans; [exact H1|]. eapply Qle_trans; [|exact H2].
    apply pow2_le. lia.
Qed.

(** The relative error of the rounding is at most 2^-53. *)
Lemma round53_error (x : Q) :
  0 < x -> Qabs (round53 x - x) <= x * (1 # 2 ^ 53).
Proof.
  intros Hx. destruct (ilog2_spec Hx) as [H1 _].
  unfold round53.
  pose proof (pow2_pos (ilog2 x - 52)) as Hu.
  assert (E1 : 2 ^ ilog2 x == inject_Z (2 ^ 52) * 2 ^ (ilog2 x - 52)).
  { rewrite <- pow2_inject by lia.
    rewrite <- Qpower_plus by discriminate.
    now replace (52 + (ilog2 x - 52))%Z with (ilog2 x) by lia. }
  rewrite E1 in H1.
  set (ulp := 2 ^ (ilog2 x - 52)) in *.
  pose proof (round_half_even_error (x / ulp)) as Herr.
  set (m := inject_Z (round_half_even (x / ulp))) in *.
  assert (Hdiv : x / ulp * ulp == x).
  { field. intros H0. rewrite H0 in Hu. discriminate. }
  apply Qabs_Qle_condition in Herr. destruct Herr as [He1 He2].
  assert (Ha : - (ulp * (1 # 2)) <= m * ulp - x /\ m * ulp - x <= ulp * (1 # 2)).
  { set (q := x / ulp) in *. rewrite <- Hdiv.
    clearbody m q ulp. split; nra. }
  apply Qabs_Qle_condition.
  change (inject_Z (2 ^ 52)) with (4503599627370496 # 1) in H1.
  change (1 # 2 ^ 53) with (1 # 9007199254740992).
  clearbody m ulp. destruct Ha. split; lra.
Qed.

(** ** Rounding to binary64 *)

Lemma binary64_of_zero (x : Q) : x == 0 -> binary64 x = 0.
Proof.
  intros E. unfold binary64.
  destruct (Qcompare_spec x 0) as [_|H|H]; [reflexivity| |]; exfalso; lra.
Qed.

Lemma binary64_of_pos (x : Q) : 0 < x -> binary64 x == round53 x.
Proof.
  intros H. unfold binary64. rewrite Qred_correct.
  destruct (Qcompare_spec x 0) as [E|E|E]; [| |reflexivity]; exfalso; lra.
Qed.

Lemma binary64_of_neg (x : Q) : x < 0 -> binary64 x == - round53 (- x).
Proof.
  intros H. unfold binary64. rewrite Qred_correct.
  destruct (Qcompare_spec x 0) as [E|E|E]; [|reflexivity|]; exfalso; lra.
Qed.

Lemma binary64_pos (x : Q) : 0 < x -> 0 < binary64 x.
Proof.
  intros H. rewrite (binary64_of_pos H). now apply round53_pos.
Qed.

Lemma binary64_neg (x : Q) : x < 0 -> binary64 x < 0.
Proof.
  intros H. rewrite (binary64_of_neg H).
  assert (H' : 0 < - x) by lra.
  pose proof (round53_pos H'). lra.
Qed.

(** Rounding keeps the order. *)
Lemma binary64_mono (x y : Q) : x <= y -> binary64 x <= binary64 y.
Proof.
  intros Hxy.
  destruct (Qcompare_spec x 0) as [Ex|Ex|Ex];
    destruct (Qcompare_spec y 0) as [Ey|Ey|Ey];
    try (exfalso; lra).
  - rewrite (binary64_of_zero Ex), (binary64_of_zero Ey). apply Qle_refl.
  - rewrite (binary64_of_zero Ex). apply Qlt_le_weak. now apply binary64_pos.
  - rewrite (binary64_of_zero Ey). apply Qlt_le_weak. now apply binary64_neg.
  - rewrite (binary64_of_neg Ex), (binary64_of_neg Ey).
    assert (H' : 0 < - y) by lra.
    assert (H'' : - y <= - x) by lra.
    pose proof (round53_mono H' H''). lra.
  - apply Qlt_le_weak. eapply Qlt_trans; [now apply binary64_neg|now apply binary64_pos].
  - rewrite (binary64_of_pos Ex), (binary64_of_pos Ey). now apply round53_mono.
Qed.

Lemma binary64_nonneg (x : Q) : 0 <= x -> 0 <= binary64 x.
Proof.
  intros H. change 0 with (binary64 0). now apply binary64_mono.
Qed.

(** Two writings of one rational are rounded to one number. *)
Lemma binary64_compat (x y : Q) : x == y -> binary64 x = binary64 y.
Proof.
  intros E.
  assert (H : binary64 x == binary64 y).
  { apply Qle_antisym; apply binary64_mono; rewrite E; apply Qle_refl. }
  unfold binary64 in *. rewrite !Qred_correct in H. now apply Qred_complete.
Qed.

(** The relative error of a rounding is at most 2^-53. *)
Lemma binary64_error (x : Q) :
  Qabs (binary64 x - x) <= Qabs x * (1 # 2 ^ 53).
Proof.
  destruct (Qcompare_spec x 0) as [Ex|Ex|Ex].
  - rewrite (binary64_of_zero Ex), Ex. discriminate.
  - rewrite (binary64_of_neg Ex).
    assert (H' : 0 < - x) by lra.
    pose proof (round53_error H') as H.
    rewrite (Qabs_neg x) by lra.
    apply Qabs_Qle_condition in H. apply Qabs_Qle_condition.
    set (r := round53 (- x)) in *. clearbody r. destruct H. split; lra.
  - rewrite (binary64_of_pos Ex), (Qabs_pos x) by lra.
    now apply round53_error.
Qed.


(** A bound that is itself a binary64 number is kept by the rounding. *)
Lemma binary64_le (x b : Q) : binary64 b == b -> x <= b -> binary64 x <= b.
Proof.
  intros Hb Hx. rewrite <- Hb. now apply binary64_mono.
Qed.

End Binary64.

(** *** Agreement with the machine

    The operations of the model give the numbers that the binary64
    arithmetic of the machine gives: on the quotient and the product
    behind every percentage of up to 50 matches, and on the values at
    which rounding the exact rational would give another result. *)

Section Machine.

Import PrimFloat.

#[local] Set Warnings "-inexact-float".

Example machine_quotients :
  forallb
    (fun '(x, total) =>
       match Num.div (of_nat x) (of_nat total),
             of_float (float_of_nat x / float_of_nat total) with
       | Fin q, Fin q' => Qeq_bool q q'
       | _, _ => false
       end)
    (parts 50)
  = true.
Proof. vm_compute. reflexivity. Qed.

Example machine_percentages :
  forallb
    (fun '(x, total) =>
       match Num.mul (Num.div (of_nat x) (of_nat total)) (Fin 100%Q),
             of_float (float_of_nat x / float_of_nat total * 100) with
       | Fin q, Fin q' => Qeq_bool q q'
       | _, _ => false
       end)
    (parts 50)
  = true.
Proof. vm_compute. reflexivity. Qed.

(** The numbers read back from the decimals 0.0, 0.1, ... up to 100.0. *)
Example machine_tenths :
  forallb
    (fun k =>
       match double (inject_Z (Z.of_nat k) / 10),
             of_float (float_of_nat k / 10) with
       | Fin q, Fin q' => Qeq_bool q q'
       | _, _ => false
       end)
    (seq 0 1001)
  = true.
Proof. vm_compute. reflexivity. Qed.

(** 23 of 80 is 28.75 percent; the machine's product is
    28.749999999999996, and toFixed(1) gives 28.7. *)
Example machine_23_of_80 :
  Num.mul (Num.div (of_nat 23) (of_nat 80)) (Fin 100%Q)
  = of_float (23 / 80 * 100)
  /\ percentage_of 23 80 = of_float 28.7
  /\ percentage_of 41 80 = of_float 51.2.
Proof. repeat split; vm_compute; reflexivity. Qed.

(** 3 goals in 20 matches are 0.15 a match, 0.1 after toFixed(1), and 3
    goals in 40 matches are 0.075 a match, 0.07 after toFixed(2). *)
Example machine_goal_averages :
  toFixed 1 (Num.div (of_nat 3) (of_nat 20)) = of_float 0.1
  /\ per_match 3 40 = of_float 0.07.
Proof. repeat split; vm_compute; reflexivity. Qed.

(** 0.575 * 100 is 57.49999999999999 and is rounded to 57;
    0.41 - 0.26 is 0.14999999999999997. *)
Example machine_product_and_difference :
  Num.mul (Fin 0.575%Q) (Fin 100%Q) = of_float (0.575 * 100)
  /\ math_round (Num.mul (Fin 0.575%Q) (Fin 100%Q)) = of_float 57
  /\ Num.sub (Fin 0.41%Q) (Fin 0.26%Q) = of_float (0.41 - 0.26)
  /\ Num.sub (Fin 0.41%Q) (Fin 0.26%Q) = of_float 0.14999999999999997.
Proof. repeat split; vm_compute; reflexivity. Qed.

(** A literal of the source is the number nearest to its decimal. *)
Example machine_literals :
  double 0.15 = of_float 0.15
  /\ double 0.2 = of_float 0.2
  /\ double 0.4 = of_float 0.4
  /\ double 0.85 = of_float 0.85
  /\ double 28.7 = of_float 28.7.
Proof. repeat split; vm_compute; reflexivity. Qed.

End Machine.

(** *** Operations on counts *)

Section Counts.

Local Open Scope Q_scope.

Lemma binary64_100 : binary64 100 = 100.
Proof. reflexivity. Qed.

Lemma binary64_1 : binary64 1 = 1.
Proof. reflexivity. Qed.

(** The absolute error of a rounding below a bound. *)
Lemma binary64_error_below (x b : Q) :
  0 <= x -> x <= b -> Qabs (binary64 x - x) <= b * (1 # 2 ^ 53).
Proof.
  intros H0 Hb. eapply Qle_trans; [apply binary64_error|].
  rewrite Qabs_pos by assumption.
  apply Qmult_le_compat_r; [assumption|discriminate].
Qed.

Lemma inject_nat_nonneg (n : nat) : 0 <= inject_Z (Z.of_nat n).
Proof.
  change 0 with (inject_Z 0). rewrite <- Zle_Qle. lia.
Qed.

Lemma inject_nat_pos (n : nat) : n <> 0%nat -> 0 < inject_Z (Z.of_nat n).
Proof.
  intros H. change 0 with (inject_Z 0). rewrite <- Zlt_Qlt. lia.
Qed.

Lemma inject_nat_le (x t : nat) :
  (x <= t)%nat -> inject_Z (Z.of_nat x) <= inject_Z (Z.of_nat t).
Proof.
  intros H. rewrite <- Zle_Qle. lia.
Qed.

(** The quotient of the binary64 values of two rationals. *)
Lemma ratio_error (X T : Q) :
  0 <= X -> 0 < T ->
  0 <= binary64 X / binary64 T
  /\ (X <= T -> binary64 X / binary64 T <= 1)
  /\ Qabs (binary64 X / binary64 T - X / T) <= X / T * (3 # 2 ^ 53).
Proof.
  intros HX HT.
  pose proof (binary64_nonneg HX) as Hx0.
  pose proof (binary64_pos HT) as Ht0.
  pose proof (binary64_error X) as Ex. pose proof (binary64_error T) as Et.
  rewrite (Qabs_pos X) in Ex by assumption.
  rewrite (Qabs_pos T) in Et by lra.
  apply Qabs_Qle_condition in Ex, Et.
  change (1 # 2 ^ 53) with (1 # 9007199254740992) in *.
  change (3 # 2 ^ 53) with (3 # 9007199254740992).
  assert (Hmono : X <= T -> binary64 X <= binary64 T) by apply binary64_mono.
  set (x := binary64 X) in *. set (t := binary64 T) in *.
  clearbody x t.
  assert (Htne : ~ t == 0) by lra.
  assert (HTne : ~ T == 0) by lra.
  split; [|split].
  - apply Qle_shift_div_l; [assumption|]. lra.
  - intros H. apply Qle_shift_div_r; [assumption|]. specialize (Hmono H). lra.
  - apply Qabs_Qle_condition.
    assert (E : x / t - X / T == (x * T - X * t) / (t * T)) by (field; split; assumption).
    assert (E' : X / T * (3 # 9007199254740992)
                 == (X * t * (3 # 9007199254740992)) / (t * T)) by (field; split; assumption).
    rewrite E, E'.
    assert (HtT : 0 < t * T) by nra.
    destruct Ex as [Ex1 Ex2]. destruct Et as [Et1 Et2].
    split.
    + setoid_replace (- (X * t * (3 # 9007199254740992) / (t * T)))
        with ((- (X * t * (3 # 9007199254740992))) / (t * T)) by (field; split; assumption).
      apply Qle_shift_div_l; [assumption|].
      unfold Qdiv. rewrite <- Qmult_assoc, (Qmult_comm (/ (t * T))), Qmult_inv_r, Qmult_1_r by lra.
      nra.
    + apply Qle_shift_div_r; [assumption|].
      unfold Qdiv. rewrite <- Qmult_assoc, (Qmult_comm (/ (t * T))), Qmult_inv_r, Qmult_1_r by lra.
      nra.
Qed.

Lemma inject_nat_nonzero (n : nat) :
  n <> 0%nat -> Qeq_bool (inject_Z (Z.of_nat n)) 0 = false.
Proof.
  intros Hn. destruct n as [|n]; [congruence|].
  reflexivity.
Qed.

Lemma div_of_nat (x total : nat) :
  total <> 0%nat ->
  div (of_nat x) (of_nat total)
  = Fin (binary64 (binary64 (inject_Z (Z.of_nat x))
                     / binary64 (inject_Z (Z.of_nat total)))).
Proof.
  intros Hn. unfold div, of_nat. now rewrite inject_nat_nonzero.
Qed.

(** The quotient of two counts as the program computes it: not negative,
    at most 1 for a part of a whole, and the exact quotient up to a
    relative error of 5 x 2^-53. *)
Lemma count_quotient (x total : nat) :
  total <> 0%nat ->
  exists r : Q,
    div (of_nat x) (of_nat total) = Fin r
    /\ 0 <= r
    /\ ((x <= total)%nat -> r <= 1)
    /\ Qabs (r - inject_Z (Z.of_nat x) / inject_Z (Z.of_nat total))
       <= inject_Z (Z.of_nat x) / inject_Z (Z.of_nat total) * (5 # 2 ^ 53).
Proof.
  intros Ht. rewrite (div_of_nat x Ht). eexists. split; [reflexivity|].
  pose proof (inject_nat_nonneg x) as HX. pose proof (inject_nat_pos Ht) as HT.
  destruct (ratio_error HX HT) as [Hq0 [Hq1 Hqe]].
  assert (Hrho : 0 <= inject_Z (Z.of_nat x) / inject_Z (Z.of_nat total)).
  { apply Qle_shift_div_l; [assumption|]. lra. }
  set (rho := inject_Z (Z.of_nat x) / inject_Z (Z.of_nat total)) in *.
  set (q := binary64 (inject_Z (Z.of_nat x)) / binary64 (inject_Z (Z.of_nat total))) in *.
  split; [now apply binary64_nonneg|]. split.
  - intros Hle. apply binary64_le; [now rewrite binary64_1|].
    apply Hq1. now apply inject_nat_le.
  - pose proof (binary64_error q) as Eq. rewrite (Qabs_pos q) in Eq by assumption.
    apply Qabs_Qle_condition in Eq, Hqe. apply Qabs_Qle_condition.
    change (1 # 2 ^ 53) with (1 # 9007199254740992) in *.
    change (3 # 2 ^ 53) with (3 # 9007199254740992) in *.
    change (5 # 2 ^ 53) with (5 # 9007199254740992).
    set (r := binary64 q) in *. clearbody r q rho.
    destruct Eq, Hqe. split; nra.
Qed.

(** toFixed(1) of a number between 0 and 100 is a number of tenths between
    0 and 1000, within 0.05 of it. *)
Lemma round_to_1_tenths (y : Q) :
  0 <= y -> y <= 100 ->
  exists k : Z,
    round_to 1 y == inject_Z k / 10
    /\ (0 <= k <= 1000)%Z
    /\ Qabs (inject_Z k / 10 - y) <= 1 # 20.
Proof.
  intros H0 H100. unfold round_to.
  pose proof H0 as Hb. apply Qle_bool_iff in Hb. rewrite Hb.
  unfold round_nonneg.
  change (Z.to_pos (10 ^ Z.of_nat 1)) with 10%positive.
  change (inject_Z (10 ^ Z.of_nat 1)) with 10.
  exists (Qfloor (y * 10 + (1 # 2))).
  set (z := y * 10 + (1 # 2)).
  split; [|split].
  - rewrite (Qmake_Qdiv (Qfloor z) 10). reflexivity.
  - split.
    + change 0%Z with (Qfloor 0). apply Qfloor_resp_le. unfold z. lra.
    + change 1000%Z with (Qfloor (1000 + (1 # 2))). apply Qfloor_resp_le.
      unfold z. lra.
  - pose proof (Qfloor_le z) as Hlo. pose proof (Qlt_floor z) as Hhi.
    rewrite inject_Z_plus in Hhi. change (inject_Z 1) with 1 in Hhi.
    apply Qabs_Qle_condition.
    set (f := inject_Z (Qfloor z)) in *. unfold z in *. clearbody f.
    assert (E : f / 10 * 10 == f) by (field; discriminate).
    set (t := f / 10) in *. clearbody t.
    split; lra.
Qed.

(** The expression [Number(((x / total) * 100).toFixed(1))] for a part [x]
    of a whole [total]: the binary64 number of a decimal with one digit
    after the point, which is within 0.05 of the exact percentage up to the
    error of the binary64 operations. *)
Lemma percentage_of_spec (x total : nat) :
  total <> 0%nat -> (x <= total)%nat ->
  exists k : Z,
    percentage_of x total = Fin (binary64 (inject_Z k / 10))
    /\ (0 <= k <= 1000)%Z
    /\ Qabs (inject_Z k / 10
             - inject_Z (Z.of_nat x) / inject_Z (Z.of_nat total) * 100)
       <= (1 # 20) + (1 # 10 ^ 12).
Proof.
  intros Ht Hle. unfold percentage_of.
  destruct (count_quotient x Ht) as [r [-> [Hr0 [Hr1 Hre]]]].
  specialize (Hr1 Hle).
  assert (Hrho0 : 0 <= inject_Z (Z.of_nat x) / inject_Z (Z.of_nat total)).
  { apply Qle_shift_div_l; [now apply inject_nat_pos|].
    pose proof (inject_nat_nonneg x). lra. }
  assert (Hrho1 : inject_Z (Z.of_nat x) / inject_Z (Z.of_nat total) <= 1).
  { apply Qle_shift_div_r; [now apply inject_nat_pos|].
    pose proof (inject_nat_le Hle). lra. }
  set (rho := inject_Z (Z.of_nat x) / inject_Z (Z.of_nat total)) in *.
  unfold mul, toFixed. rewrite binary64_100.
  (* the operand of the product *)
  pose proof (binary64_nonneg Hr0) as Ha0.
  pose proof (binary64_le (x := r) (b := 1) (Qeq_refl _) Hr1) as Ha1.
  pose proof (binary64_error_below Hr0 Hr1) as Hae.
  set (a := binary64 r) in *.
  (* the product *)
  assert (Hp0 : 0 <= a * 100) by lra.
  assert (Hp1 : a * 100 <= 100) by lra.
  pose proof (binary64_nonneg Hp0) as Hm0.
  pose proof (binary64_le (x := a * 100) (b := 100) (Qeq_refl _) Hp1) as Hm1.
  pose proof (binary64_error_below Hp0 Hp1) as Hme.
  set (m := binary64 (a * 100)) in *.
  (* the operand of toFixed *)
  pose proof (binary64_nonneg Hm0) as Hn0.
  pose proof (binary64_le (x := m) (b := 100) (Qeq_refl _) Hm1) as Hn1.
  pose proof (binary64_error_below Hm0 Hm1) as Hne.
  set (n := binary64 m) in *.
  destruct (round_to_1_tenths Hn0 Hn1) as [k [Hk [Hrange Hke]]].
  exists k. split; [|split; [exact Hrange|]].
  - f_equal. now apply binary64_compat.
  - apply Qabs_Qle_condition in Hre, Hae, Hme, Hne, Hke.
    apply Qabs_Qle_condition.
    change (1 # 2 ^ 53) with (1 # 9007199254740992) in *.
    change (5 # 2 ^ 53) with (5 # 9007199254740992) in *.
    change (1 # 10 ^ 12) with (1 # 1000000000000).
    set (t := inject_Z k / 10) in *.
    clearbody t n m a rho.
    destruct Hre, Hae, Hme, Hne, Hke. split; nra.
Qed.
End Counts.

(** ** Basic statistics *)

Lemma length_nonzero (A : Type) (l : list A) :
  l <> [] -> (length l =? 0) = false.
Proof.
  destruct l; [congruence|reflexivity].
Qed.

(** Every match has exactly one of the three outcome tags. *)
Lemma outcome_counts_partition (matches : list Match) :
  length (filter (fun m => Outcome_eqb (result_computed m) OutH) matches)
  + length (filter (fun m => Outcome_eqb (result_computed m) OutD) matches)
  + length (filter (fun m => Outcome_eqb (result_computed m) OutA) matches)
  = length matches.
Proof.
  induction matches as [|m rest IH]; [reflexivity|].
  simpl. destruct (result_computed m); simpl; lia.
Qed.

Lemma shares_sum_to_100 (h d a t : nat) :
  h + d + a = t -> t <> 0 ->
  (inject_Z (Z.of_nat h) / inject_Z (Z.of_nat t) * 100
   + inject_Z (Z.of_nat d) / inject_Z (Z.of_nat t) * 100
   + inject_Z (Z.of_nat a) / inject_Z (Z.of_nat t) * 100 == 100)%Q.
Proof.
  intros Hsum Ht.
  assert (Hq : (inject_Z (Z.of_nat h) + inject_Z (Z.of_nat d)
                + inject_Z (Z.of_nat a) == inject_Z (Z.of_nat t))%Q).
  { rewrite <- !inject_Z_plus, <- !Nat2Z.inj_add, Hsum. reflexivity. }
  assert (Hnz : ~ (inject_Z (Z.of_nat t) == 0)%Q).
  { intros E. apply Qeq_bool_iff in E.
    rewrite inject_nat_nonzero in E by assumption. discriminate. }
  set (qh := inject_Z (Z.of_nat h)) in *.
  set (qd := inject_Z (Z.of_nat d)) in *.
  set (qa := inject_Z (Z.of_nat a)) in *.
  set (qt := inject_Z (Z.of_nat t)) in *.
  clearbody qh qd qa qt.
  assert (E : (qh / qt * 100 + qd / qt * 100 + qa / qt * 100
               == (qh + qd + qa) / qt * 100)%Q) by (field; assumption).
  rewrite E, Hq. field. assumption.
Qed.

Lemma percentage_of_rounded (x total : nat) :
  total <> 0 -> x <= total ->
  is_rounded_percentage (percentage_of x total) x total.
Proof.
  intros Ht Hle. destruct (percentage_of_spec Ht Hle) as [k [Hk [_ He]]].
  exists k. now split.
Qed.

(** The number read back from a decimal between 0 and 100 is the decimal
    up to 100 x 2^-53. *)
Lemma tenths_read_back (k : Z) :
  (0 <= k <= 1000)%Z ->
  (Qabs (binary64 (inject_Z k / 10) - inject_Z k / 10) <= 100 * (1 # 2 ^ 53))%Q.
Proof.
  intros [H0 H1]. apply binary64_error_below.
  - apply Qle_shift_div_l; [reflexivity|]. rewrite Qmult_0_l.
    change 0%Q with (inject_Z 0). now rewrite <- Zle_Qle.
  - apply Qle_shift_div_r; [reflexivity|].
    change (100 * 10)%Q with (inject_Z 1000). now rewrite <- Zle_Qle.
Qed.

(** C1.  For a non-empty list of matches each of the three outcome
    percentages of calculateBasicStats is the outcome count divided by
    total_matches, times 100, rounded to one decimal, and their sum differs
    from 100 by at most 0.2. *)
Theorem basic_percentages_sum_to_100 (matches : list Match) :
  matches <> [] ->
  let stats := calculateBasicStats matches in
  is_rounded_percentage (home_win_percentage stats)
    (home_wins stats) (total_matches stats)
  /\ is_rounded_percentage (draw_percentage stats)
       (draws stats) (total_matches stats)
  /\ is_rounded_percentage (away_win_percentage stats)
       (away_wins stats) (total_matches stats)
  /\ exists h d a : Q,
       home_win_percentage stats = Fin h
       /\ draw_percentage stats = Fin d
       /\ away_win_percentage stats = Fin a
       /\ (Qabs (h + d + a - 100) <= 2 # 10)%Q.
Proof.
  intros Hne stats. subst stats. unfold calculateBasicStats.
  rewrite (length_nonzero Hne). cbn [home_win_percentage draw_percentage
    away_win_percentage home_wins draws away_wins total_matches].
  assert (Ht : length matches <> 0) by (destruct matches; simpl; congruence).
  pose proof (outcome_counts_partition matches) as Hpart.
  pose proof (shares_sum_to_100 _ _ _ Hpart Ht) as Hsum.
  set (nh := length (filter _ matches)) in *.
  set (nd := length (filter (fun m => Outcome_eqb (result_computed m) OutD) matches)) in *.
  set (na := length (filter (fun m => Outcome_eqb (result_computed m) OutA) matches)) in *.
  assert (Hh : nh <= length matches) by lia.
  assert (Hd : nd <= length matches) by lia.
  assert (Ha : na <= length matches) by lia.
  split; [now apply percentage_of_rounded|].
  split; [now apply percentage_of_rounded|].
  split; [now apply percentage_of_rounded|].
  destruct (percentage_of_spec Ht Hh) as [kh [-> [Rh Eh]]].
  destruct (percentage_of_spec Ht Hd) as [kd [-> [Rd Ed]]].
  destruct (percentage_of_spec Ht Ha) as [ka [-> [Ra Ea]]].
  do 3 eexists. repeat (split; [reflexivity|]).
  pose proof (tenths_read_back Rh) as Bh.
  pose proof (tenths_read_back Rd) as Bd.
  pose proof (tenths_read_back Ra) as Ba.
  apply Qabs_Qle_condition in Eh, Ed, Ea, Bh, Bd, Ba.
  apply Qabs_Qle_condition.
  change (1 # 2 ^ 53)%Q with (1 # 9007199254740992)%Q in *.
  change (1 # 10 ^ 12)%Q with (1 # 1000000000000)%Q in *.
  set (h := binary64 (inject_Z kh / 10)) in *.
  set (d := binary64 (inject_Z kd / 10)) in *.
  set (a := binary64 (inject_Z ka / 10)) in *.
  set (th := (inject_Z kh / 10)%Q) in *.
  set (td := (inject_Z kd / 10)%Q) in *.
  set (ta := (inject_Z ka / 10)%Q) in *.
  set (eh := (inject_Z (Z.of_nat nh) / inject_Z (Z.of_nat (length matches)) * 100)%Q) in *.
  set (ed := (inject_Z (Z.of_nat nd) / inject_Z (Z.of_nat (length matches)) * 100)%Q) in *.
  set (ea := (inject_Z (Z.of_nat na) / inject_Z (Z.of_nat (length matches)) * 100)%Q) in *.
  clearbody h d a th td ta eh ed ea.
  destruct Eh, Ed, Ea, Bh, Bd, Ba. split; lra.
Qed.

(** A run of C1 on three matches (one home win, one draw, one away win):
    33.3 + 33.3 + 33.3. *)
Lemma basic_percentages_sum_to_100_witness :
  let matches :=
    [ mkMatch "Arsenal" "Chelsea" 2 1 (Some 1) (Some 0) OutH true false 3;
      mkMatch "Arsenal" "Chelsea" 1 1 None None OutD true false 2;
      mkMatch "Chelsea" "Arsenal" 0 3 (Some 0) (Some 2) OutA false false 1 ] in
  let stats := calculateBasicStats matches in
  matches <> []
  /\ is_rounded_percentage (home_win_percentage stats)
       (home_wins stats) (total_matches stats)
  /\ is_rounded_percentage (draw_percentage stats)
       (draws stats) (total_matches stats)
  /\ is_rounded_percentage (away_win_percentage stats)
       (away_wins stats) (total_matches stats)
  /\ exists h d a : Q,
       home_win_percentage stats = Fin h
       /\ draw_percentage stats = Fin d
       /\ away_win_percentage stats = Fin a
       /\ (Qabs (h + d + a - 100) <= 2 # 10)%Q.
Proof.
  intros matches stats. split.
  - discriminate.
  - apply (basic_percentages_sum_to_100 (matches := matches)). discriminate.
Defined.

(** ** Half-time analysis *)

(** The counters after the loop, whatever their values before it. *)
Lemma htStep_invariant (c : HtCounters) (m : Match) :
  let c' := htStep c m in
  htHomeLeads c' + htAwayLeads c' + htDraws c'
  = S (htHomeLeads c + htAwayLeads c + htDraws c)
  /\ (htHomeLeadToWin c' + htHomeLeadToDraw c' + htHomeLeadToLoss c')
     + htHomeLeads c
     = (htHomeLeadToWin c + htHomeLeadToDraw c + htHomeLeadToLoss c)
       + htHomeLeads c'
  /\ (htAwayLeadToWin c' + htAwayLeadToDraw c' + htAwayLeadToLoss c')
     + htAwayLeads c
     = (htAwayLeadToWin c + htAwayLeadToDraw c + htAwayLeadToLoss c)
       + htAwayLeads c'.
Proof.
  destruct c as [hl al dr hw hd hlo aw ad alo]. unfold htStep.
  destruct (or_zero (half_time_away_goals m) <? or_zero (half_time_home_goals m));
    [|destruct (or_zero (half_time_home_goals m) <? or_zero (half_time_away_goals m))];
    destruct (result_computed m); cbn; lia.
Qed.

Lemma ht_loop_invariant (matches : list Match) (c : HtCounters) :
  let c' := fold_left htStep matches c in
  htHomeLeads c' + htAwayLeads c' + htDraws c'
  = htHomeLeads c + htAwayLeads c + htDraws c + length matches
  /\ (htHomeLeadToWin c' + htHomeLeadToDraw c' + htHomeLeadToLoss c')
     + htHomeLeads c
     = (htHomeLeadToWin c + htHomeLeadToDraw c + htHomeLeadToLoss c)
       + htHomeLeads c'
  /\ (htAwayLeadToWin c' + htAwayLeadToDraw c' + htAwayLeadToLoss c')
     + htAwayLeads c
     = (htAwayLeadToWin c + htAwayLeadToDraw c + htAwayLeadToLoss c)
       + htAwayLeads c'.
Proof.
  revert c. induction matches as [|m rest IH]; intros c; cbn zeta.
  - simpl. lia.
  - simpl fold_left. specialize (IH (htStep c m)). cbn zeta in IH.
    pose proof (htStep_invariant c m) as Hstep. cbn zeta in Hstep.
    simpl length. lia.
Qed.

(** The half-time fields of the result are the counters after the loop,
    also for the empty list (where the loop does not run). *)
Lemma halfTimeAnalysis_counters (matches : list Match) :
  let ht := fold_left htStep matches htZero in
  halfTimeAnalysis (calculateDetailedStats matches)
  = {| ht_home_leads := htHomeLeads ht;
       ht_away_leads := htAwayLeads ht;
       ht_draws := htDraws ht;
       ht_home_lead_to_win := htHomeLeadToWin ht;
       ht_home_lead_to_draw := htHomeLeadToDraw ht;
       ht_home_lead_to_loss := htHomeLeadToLoss ht;
       ht_away_lead_to_win := htAwayLeadToWin ht;
       ht_away_lead_to_draw := htAwayLeadToDraw ht;
       ht_away_lead_to_loss := htAwayLeadToLoss ht;
       home_lead_hold_percentage :=
         if 0 <? htHomeLeads ht
         then percentage_of (htHomeLeadToWin ht) (htHomeLeads ht)
         else Fin 0%Q;
       away_lead_hold_percentage :=
         if 0 <? htAwayLeads ht
         then percentage_of (htAwayLeadToWin ht) (htAwayLeads ht)
         else Fin 0%Q |}.
Proof.
  destruct matches as [|m rest]; reflexivity.
Qed.

(** C10.  The half-time analysis partitions the matches: the three
    half-time states add up to the number of matches, and the three
    full-time outcomes of each lead add up to the number of such leads. *)
Theorem half_time_analysis_partitions (matches : list Match) :
  let ht := halfTimeAnalysis (calculateDetailedStats matches) in
  ht_home_leads ht + ht_away_leads ht + ht_draws ht = length matches
  /\ ht_home_lead_to_win ht + ht_home_lead_to_draw ht + ht_home_lead_to_loss ht
     = ht_home_leads ht
  /\ ht_away_lead_to_win ht + ht_away_lead_to_draw ht + ht_away_lead_to_loss ht
     = ht_away_leads ht.
Proof.
  cbn zeta. rewrite halfTimeAnalysis_counters. cbn zeta.
  cbn [ht_home_leads ht_away_leads ht_draws ht_home_lead_to_win
       ht_home_lead_to_draw ht_home_lead_to_loss ht_away_lead_to_win
       ht_away_lead_to_draw ht_away_lead_to_loss].
  pose proof (ht_loop_invariant matches htZero) as Hinv. cbn zeta in Hinv.
  simpl in Hinv. lia.
Qed.


(** ** Counting scorelines *)

Lemma first_seen_In (k : string) (keys : list string) :
  In k (first_seen keys) <-> In k keys.
Proof.
  induction keys as [|k0 rest IH]; simpl; [tauto|].
  rewrite filter_In, IH, negb_true_iff, String.eqb_neq.
  destruct (String.eqb_spec k0 k); intuition congruence.
Qed.

Lemma first_seen_NoDup (keys : list string) : NoDup (first_seen keys).
Proof.
  induction keys as [|k0 rest IH]; simpl; constructor.
  - rewrite filter_In, String.eqb_refl. simpl. intros [_ Hf]. discriminate.
  - now apply NoDup_filter.
Qed.

Lemma first_seen_snoc (keys : list string) (k : string) :
  first_seen (keys ++ [k])
  = if existsb (String.eqb k) keys then first_seen keys
    else first_seen keys ++ [k].
Proof.
  induction keys as [|k0 rest IH]; [reflexivity|].
  simpl. rewrite IH.
  destruct (String.eqb_spec k k0) as [->|Hne]; simpl.
  - destruct (existsb (String.eqb k0) rest); [reflexivity|].
    rewrite filter_app. simpl. rewrite String.eqb_refl. simpl.
    now rewrite app_nil_r.
  - destruct (existsb (String.eqb k) rest); [reflexivity|].
    rewrite filter_app. simpl.
    destruct (String.eqb_spec k k0); [contradiction|]. reflexivity.
Qed.

Lemma existsb_eqb_In (k : string) (keys : list string) :
  existsb (String.eqb k) keys = true <-> In k keys.
Proof.
  rewrite existsb_exists. split.
  - intros [x [Hin Heq]]. apply String.eqb_eq in Heq. now subst.
  - intros Hin. exists k. split; [assumption|apply String.eqb_refl].
Qed.

Lemma occurrences_snoc (k' : string) (keys : list string) (k : string) :
  occurrences k' (keys ++ [k])
  = occurrences k' keys + (if String.eqb k' k then 1 else 0).
Proof.
  induction keys as [|k0 rest IH]; simpl.
  - destruct (String.eqb k' k); reflexivity.
  - rewrite IH. destruct (String.eqb k' k0); reflexivity.
Qed.

Lemma occurrences_absent (k : string) (keys : list string) :
  ~ In k keys -> occurrences k keys = 0.
Proof.
  induction keys as [|k0 rest IH]; simpl; [reflexivity|].
  intros Hnot. destruct (String.eqb_spec k k0); [subst; tauto|].
  apply IH. tauto.
Qed.

Lemma get_keyed (f : string -> nat) (k : string) (ks : list string) :
  JsObject.get k (map (fun k' => (k', f k')) ks)
  = if existsb (String.eqb k) ks then Some (f k) else None.
Proof.
  induction ks as [|k0 rest IH]; [reflexivity|].
  simpl. destruct (String.eqb_spec k k0) as [->|Hne]; [reflexivity|].
  simpl. exact IH.
Qed.

Lemma set_keyed_absent (f : string -> nat) (k : string) (v : nat)
    (ks : list string) :
  ~ In k ks ->
  JsObject.set k v (map (fun k' => (k', f k')) ks)
  = map (fun k' => (k', f k')) ks ++ [(k, v)].
Proof.
  induction ks as [|k0 rest IH]; [reflexivity|].
  simpl. intros Hnot.
  destruct (String.eqb_spec k k0) as [->|Hne]; [tauto|].
  rewrite IH by tauto. reflexivity.
Qed.

Lemma set_keyed_present (f g : string -> nat) (k : string) (ks : list string) :
  NoDup ks -> In k ks ->
  (forall k', k' <> k -> g k' = f k') ->
  JsObject.set k (g k) (map (fun k' => (k', f k')) ks)
  = map (fun k' => (k', g k')) ks.
Proof.
  intros Hnd Hin Hagree.
  induction ks as [|k0 rest IH]; [contradiction|].
  inversion Hnd as [|? ? Hnotin Hnd']; subst.
  simpl. destruct (String.eqb_spec k k0) as [->|Hne].
  - f_equal. apply map_ext_in. intros k' Hk'.
    rewrite Hagree; [reflexivity|]. intros ->. contradiction.
  - rewrite (Hagree k0) by congruence. f_equal.
    apply IH; [assumption|]. destruct Hin; [congruence|assumption].
Qed.

Lemma countResult_tally (keys : list string) (m : Match) :
  countResult (tally keys) m = tally (keys ++ [scoreline m]).
Proof.
  unfold countResult, tally. set (k := scoreline m).
  rewrite get_keyed, first_seen_snoc.
  destruct (existsb (String.eqb k) (first_seen keys)) eqn:Hmem.
  - apply existsb_eqb_In in Hmem.
    assert (Hin : In k keys) by now apply first_seen_In.
    apply existsb_eqb_In in Hin. rewrite Hin.
    apply existsb_eqb_In in Hin. simpl or_zero.
    replace (occurrences k keys + 1) with (occurrences k (keys ++ [k]))
      by (rewrite occurrences_snoc, String.eqb_refl; reflexivity).
    apply set_keyed_present with (g := fun k' => occurrences k' (keys ++ [k])).
    + apply first_seen_NoDup.
    + assumption.
    + intros k' Hne. rewrite occurrences_snoc.
      destruct (String.eqb_spec k' k); [contradiction|lia].
  - assert (Hnot : ~ In k (first_seen keys)).
    { intros Hin. apply existsb_eqb_In in Hin. congruence. }
    assert (Hnot' : ~ In k keys) by (now rewrite <- first_seen_In).
    destruct (existsb (String.eqb k) keys) eqn:Hmem';
      [apply existsb_eqb_In in Hmem'; contradiction|].
    rewrite set_keyed_absent by assumption.
    rewrite map_app. simpl. f_equal.
    + apply map_ext_in. intros k' Hk'. rewrite occurrences_snoc.
      destruct (String.eqb_spec k' k); [subst; contradiction|].
      now rewrite Nat.add_0_r.
    + rewrite occurrences_snoc, String.eqb_refl.
      now rewrite (occurrences_absent k keys Hnot').
Qed.

Lemma resultFrequency_tally (matches : list Match) :
  fold_left countResult matches JsObject.empty = tally (map scoreline matches).
Proof.
  induction matches as [|m rest IH] using rev_ind; [reflexivity|].
  rewrite fold_left_app, map_app. simpl. rewrite IH.
  apply countResult_tally.
Qed.

(** ** Sorting by a count, descending *)

Section SortByCount.

Variable A : Type.
Variable key : A -> nat.
Variable idx : A -> nat.

Let by_key_desc (a b : A) : Z := (Z.of_nat (key b) - Z.of_nat (key a))%Z.

(** Larger key first; among equal keys, smaller index first. *)
Let before (a b : A) : Prop :=
  key b < key a \/ (key a = key b /\ idx a < idx b).

Lemma sort_insert_perm (x : A) (l : list A) :
  Permutation (sort_insert by_key_desc x l) (x :: l).
Proof.
  induction l as [|y rest IH]; simpl; [apply Permutation_refl|].
  destruct (by_key_desc y x <? 0)%Z.
  - rewrite IH. apply perm_swap.
  - apply Permutation_refl.
Qed.

Lemma array_sort_perm (l : list A) :
  Permutation (array_sort by_key_desc l) l.
Proof.
  induction l as [|x rest IH]; simpl; [constructor|].
  rewrite sort_insert_perm. now constructor.
Qed.

Lemma sort_insert_ranked (x : A) (l : list A) :
  StronglySorted before l ->
  Forall (fun y => idx x < idx y) l ->
  StronglySorted before (sort_insert by_key_desc x l).
Proof.
  induction l as [|y rest IH]; intros Hsorted Hlater; simpl.
  - repeat constructor.
  - inversion Hsorted as [|? ? Hrest Hy]; subst.
    inversion Hlater as [|? ? Hxy Hlater']; subst.
    destruct (Z.ltb_spec (by_key_desc y x) 0) as [Hcmp|Hcmp];
      unfold by_key_desc in Hcmp.
    + constructor; [now apply IH|].
      apply (Permutation_Forall (Permutation_sym (sort_insert_perm x rest))).
      constructor; [|assumption].
      left. lia.
    + constructor; [assumption|].
      constructor.
      * unfold before. lia.
      * rewrite Forall_forall in *. intros z Hz.
        specialize (Hy z Hz). specialize (Hlater' z Hz).
        unfold before in *. lia.
Qed.

(** A stable sort of a list given in increasing index order ranks equal
    keys by index. *)
Lemma array_sort_ranked (l : list A) :
  StronglySorted (fun a b => idx a < idx b) l ->
  StronglySorted before (array_sort by_key_desc l).
Proof.
  induction l as [|x rest IH]; intros Hsorted; simpl; [constructor|].
  inversion Hsorted as [|? ? Hrest Hx]; subst.
  apply sort_insert_ranked; [now apply IH|].
  now apply (Permutation_Forall (Permutation_sym (array_sort_perm rest))).
Qed.

(** There is only one way to rank a given collection. *)
Lemma ranking_unique (l1 l2 : list A) :
  Permutation l1 l2 ->
  StronglySorted before l1 -> StronglySorted before l2 -> l1 = l2.
Proof.
  revert l2. induction l1 as [|a r1 IH]; intros l2 Hperm Hs1 Hs2.
  - apply Permutation_nil in Hperm. now subst.
  - destruct l2 as [|b r2];
      [apply Permutation_sym, Permutation_nil in Hperm; discriminate|].
    inversion Hs1 as [|? ? Hr1 Ha]; subst.
    inversion Hs2 as [|? ? Hr2 Hb]; subst.
    assert (Heq : a = b).
    { assert (Hin_a : In a (b :: r2))
        by (apply (Permutation_in _ Hperm); now left).
      assert (Hin_b : In b (a :: r1))
        by (apply (Permutation_in _ (Permutation_sym Hperm)); now left).
      destruct Hin_a as [|Hin_a]; [congruence|].
      destruct Hin_b as [|Hin_b]; [congruence|].
      rewrite Forall_forall in Ha, Hb.
      specialize (Ha b Hin_b). specialize (Hb a Hin_a).
      unfold before in *. lia. }
    subst b. f_equal.
    apply IH; [now apply Permutation_cons_inv with a|assumption|assumption].
Qed.

End SortByCount.

Lemma StronglySorted_filter (A : Type) (R : A -> A -> Prop) (f : A -> bool)
    (l : list A) :
  StronglySorted R l -> StronglySorted R (filter f l).
Proof.
  induction 1 as [|a l Hl IH Ha]; simpl; [constructor|].
  destruct (f a); [|assumption].
  constructor; [assumption|].
  rewrite Forall_forall in *. intros x Hx. apply filter_In in Hx. now apply Ha.
Qed.

Lemma StronglySorted_weaken (A : Type) (R R' : A -> A -> Prop) (l : list A) :
  (forall a b, In a l -> In b l -> R a b -> R' a b) ->
  StronglySorted R l -> StronglySorted R' l.
Proof.
  intros Himp Hs. induction Hs as [|a l Hl IH Ha]; [constructor|].
  constructor.
  - apply IH. intros x y Hx Hy. apply Himp; now right.
  - rewrite Forall_forall in *. intros x Hx.
    apply Himp; [now left|now right|now apply Ha].
Qed.

Lemma StronglySorted_map (A B : Type) (R : B -> B -> Prop) (f : A -> B)
    (l : list A) :
  StronglySorted (fun a b => R (f a) (f b)) l -> StronglySorted R (map f l).
Proof.
  induction 1 as [|a l Hl IH Ha]; simpl; constructor; [assumption|].
  rewrite Forall_forall in *. intros y Hy.
  apply in_map_iff in Hy. destruct Hy as [x [<- Hx]]. now apply Ha.
Qed.

(** Scorelines are listed in the order of their first occurrence. *)
Lemma first_seen_ordered (keys : list string) :
  StronglySorted (fun a b => first_index a keys < first_index b keys)
    (first_seen keys).
Proof.
  induction keys as [|k0 rest IH]; simpl; [constructor|].
  constructor.
  - apply StronglySorted_filter with (f := fun k' => negb (String.eqb k' k0))
      in IH.
    revert IH. apply StronglySorted_weaken.
    intros a b Ha Hb Hab.
    apply filter_In in Ha. apply filter_In in Hb.
    destruct Ha as [_ Ha]. destruct Hb as [_ Hb].
    apply negb_true_iff in Ha, Hb. rewrite Ha, Hb. lia.
  - rewrite Forall_forall. intros b Hb. apply filter_In in Hb.
    destruct Hb as [_ Hb]. apply negb_true_iff in Hb.
    rewrite String.eqb_refl, Hb. lia.
Qed.

(** ** Frequent results *)

(** The entries of [resultFrequency], mapped to result objects, are the
    groups of the specification. *)
Lemma entries_are_groups (matches : list Match) :
  matches <> [] ->
  map (fun '(result, count) =>
         {| result := result;
            count := count;
            percentage := percentage_of count (length matches) |})
      (JsObject.entries (fold_left countResult matches JsObject.empty))
  = scoreline_groups matches.
Proof.
  intros Hne. rewrite resultFrequency_tally.
  unfold JsObject.entries, tally, scoreline_groups. rewrite map_map.
  apply map_ext. intros k. reflexivity.
Qed.

Lemma groups_in_first_seen_order (matches : list Match) :
  StronglySorted
    (fun a b => first_index (result a) (map scoreline matches)
                < first_index (result b) (map scoreline matches))
    (scoreline_groups matches).
Proof.
  unfold scoreline_groups. apply StronglySorted_map. simpl.
  apply first_seen_ordered.
Qed.

Lemma frequentResults_sorted_groups (matches : list Match) :
  frequentResults (calculateDetailedStats matches)
  = firstn 4
      (array_sort (fun a b => (Z.of_nat (count b) - Z.of_nat (count a))%Z)
         (scoreline_groups matches)).
Proof.
  destruct matches as [|m rest] eqn:E; [reflexivity|]. rewrite <- E.
  assert (Hne : matches <> []) by (subst; discriminate).
  unfold calculateDetailedStats. rewrite (length_nonzero Hne).
  cbn [frequentResults]. unfold slice0.
  now rewrite entries_are_groups.
Qed.

Lemma sorted_groups_ranked (matches : list Match) :
  let ranked :=
    array_sort (fun a b => (Z.of_nat (count b) - Z.of_nat (count a))%Z)
      (scoreline_groups matches) in
  Permutation ranked (scoreline_groups matches)
  /\ StronglySorted (ranks_before matches) ranked.
Proof.
  split; [apply array_sort_perm|].
  apply (array_sort_ranked count
           (fun a => first_index (result a) (map scoreline matches))).
  apply groups_in_first_seen_order.
Qed.

(** ** Totality and the empty input *)

Lemma percentage_of_is_finite (x total : nat) :
  total <> 0 -> is_finite (percentage_of x total) = true.
Proof.
  intros Ht. unfold percentage_of. now rewrite div_of_nat.
Qed.

Lemma toFixed_div_is_finite (digits x total : nat) :
  total <> 0 -> is_finite (toFixed digits (div (of_nat x) (of_nat total))) = true.
Proof.
  intros Ht. now rewrite div_of_nat.
Qed.

Lemma calculateBasicStats_finite (matches : list Match) :
  basic_finite (calculateBasicStats matches) = true.
Proof.
  destruct matches as [|m rest] eqn:E; [reflexivity|]. rewrite <- E.
  assert (Hne : matches <> []) by (subst; discriminate).
  assert (Ht : length matches <> 0) by (subst; simpl; congruence).
  unfold calculateBasicStats. rewrite (length_nonzero Hne).
  unfold basic_finite.
  cbn [avg_goals home_win_percentage draw_percentage away_win_percentage
       btts_percentage comeback_percentage].
  now rewrite !percentage_of_is_finite, toFixed_div_is_finite.
Qed.

Lemma In_firstn (A : Type) (n : nat) (x : A) (l : list A) :
  In x (firstn n l) -> In x l.
Proof.
  intros Hin. rewrite <- (firstn_skipn n l). apply in_or_app. now left.
Qed.

Lemma frequentResults_finite (matches : list Match) :
  forallb (fun r => is_finite (percentage r))
    (frequentResults (calculateDetailedStats matches)) = true.
Proof.
  rewrite frequentResults_sorted_groups. apply forallb_forall.
  intros r Hr. apply In_firstn in Hr.
  apply (Permutation_in _ (proj1 (sorted_groups_ranked matches))) in Hr.
  unfold scoreline_groups in Hr. apply in_map_iff in Hr.
  destruct Hr as [k [<- Hk]]. cbn [percentage].
  apply percentage_of_is_finite.
  apply first_seen_In in Hk. destruct matches; [contradiction|discriminate].
Qed.

Lemma calculateDetailedStats_finite (matches : list Match) :
  detailed_finite (calculateDetailedStats matches) = true.
Proof.
  unfold detailed_finite.
  rewrite frequentResults_finite, halfTimeAnalysis_counters.
  destruct matches as [|m rest] eqn:E; [reflexivity|]. rewrite <- E.
  assert (Hne : matches <> []) by (subst; discriminate).
  assert (Ht : length matches <> 0) by (subst; simpl; congruence).
  assert (Hbasic : basic (calculateDetailedStats matches)
                   = calculateBasicStats matches)
    by (subst; reflexivity).
  rewrite Hbasic, calculateBasicStats_finite.
  unfold calculateDetailedStats. rewrite (length_nonzero Hne).
  cbn [goalStats overUnder home_goals_per_match away_goals_per_match
       home_clean_sheet_percentage away_clean_sheet_percentage
       over_25_percentage under_25_percentage over_35_percentage
       home_lead_hold_percentage away_lead_hold_percentage].
  unfold per_match.
  rewrite !percentage_of_is_finite, !toFixed_div_is_finite by assumption.
  cbn [andb].
  set (ht := fold_left htStep matches htZero).
  destruct (htHomeLeads ht) as [|h]; destruct (htAwayLeads ht) as [|a];
    cbn [Nat.ltb Nat.leb]; rewrite ?percentage_of_is_finite by discriminate;
    reflexivity.
Qed.

(** C2.  Both functions are total.  On the empty list each returns its
    all-zero structure, and on every list every percentage and average
    they return is a finite number: no field is the result of a division
    by zero. *)
Theorem empty_input_zero_structures :
  calculateBasicStats [] = zeroMatchStats
  /\ calculateDetailedStats [] = zeroDetailedMatchStats
  /\ (forall matches : list Match,
        basic_finite (calculateBasicStats matches) = true
        /\ detailed_finite (calculateDetailedStats matches) = true).
Proof.
  split; [reflexivity|]. split; [reflexivity|].
  intros matches. split.
  - apply calculateBasicStats_finite.
  - apply calculateDetailedStats_finite.
Qed.

(** ** Missing half-time goals *)

Lemma length_filter_map (A B : Type) (f : B -> bool) (g : A -> B) (l : list A) :
  length (filter f (map g l)) = length (filter (fun x => f (g x)) l).
Proof.
  induction l as [|a rest IH]; [reflexivity|].
  simpl. destruct (f (g a)); simpl; now rewrite IH.
Qed.

Lemma fold_left_map (A B C : Type) (f : C -> B -> C) (g : A -> B)
    (l : list A) (c : C) :
  fold_left f (map g l) c = fold_left (fun acc x => f acc (g x)) l c.
Proof.
  revert c. induction l as [|a rest IH]; intros c; [reflexivity|].
  simpl. apply IH.
Qed.

Ltac push_map :=
  rewrite ?length_map, ?length_filter_map, ?fold_left_map.

Lemma calculateBasicStats_fill (matches : list Match) :
  calculateBasicStats (map fill_half_time matches) = calculateBasicStats matches.
Proof.
  unfold calculateBasicStats. push_map. reflexivity.
Qed.

Lemma calculateDetailedStats_fill (matches : list Match) :
  calculateDetailedStats (map fill_half_time matches)
  = calculateDetailedStats matches.
Proof.
  unfold calculateDetailedStats. rewrite calculateBasicStats_fill.
  push_map. reflexivity.
Qed.

Lemma calculateBasicStats_erase (matches : list Match) :
  calculateBasicStats (map erase_half_time matches) = calculateBasicStats matches.
Proof.
  unfold calculateBasicStats. push_map. reflexivity.
Qed.

Lemma full_time_fields_erase (matches : list Match) :
  let d := calculateDetailedStats matches in
  let d' := calculateDetailedStats (map erase_half_time matches) in
  basic d' = basic d /\ goalStats d' = goalStats d
  /\ overUnder d' = overUnder d /\ frequentResults d' = frequentResults d.
Proof.
  cbn zeta. unfold calculateDetailedStats.
  rewrite calculateBasicStats_erase. push_map.
  destruct (length matches =? 0); repeat split; reflexivity.
Qed.

Lemma same_full_time_erase (matches matches' : list Match) :
  Forall2 same_full_time matches matches' ->
  map erase_half_time matches = map erase_half_time matches'.
Proof.
  induction 1 as [|m m' rest rest' Hm Hrest IH]; [reflexivity|].
  simpl. now rewrite Hm, IH.
Qed.

(** The loop counts each match under its half-time state. *)
Lemma ht_loop_counts (matches : list Match) (c : HtCounters) :
  let c' := fold_left htStep matches c in
  htHomeLeads c' = htHomeLeads c + length (filter (in_state HomeLead) matches)
  /\ htAwayLeads c' = htAwayLeads c + length (filter (in_state AwayLead) matches)
  /\ htDraws c' = htDraws c + length (filter (in_state Level) matches).
Proof.
  revert c. induction matches as [|m rest IH]; intros c; cbn zeta.
  - simpl. lia.
  - simpl fold_left. specialize (IH (htStep c m)). cbn zeta in IH.
    destruct IH as [IH1 [IH2 IH3]]. rewrite IH1, IH2, IH3.
    destruct c as [hl al dr hw hd hlo aw ad alo].
    simpl filter. unfold in_state, half_time_state, htStep.
    destruct (or_zero (half_time_away_goals m) <? or_zero (half_time_home_goals m));
      [|destruct (or_zero (half_time_home_goals m)
                  <? or_zero (half_time_away_goals m))];
      destruct (result_computed m); cbn; lia.
Qed.

(** C8.  A match whose half-time counts are missing is read as 0-0 at
    half-time: filling the missing counts with 0 changes nothing in the
    result, the match is in the half-time state "level", and the matches in
    that state are the ones counted by ht_draws.  The half-time counts of
    the rows, missing or not, do not reach the fields computed from
    full-time data: two lists that differ at most in them have the same
    basic statistics, goal statistics, over/under statistics and frequent
    results. *)
Theorem missing_half_time_read_as_zero (matches : list Match) :
  calculateDetailedStats (map fill_half_time matches)
  = calculateDetailedStats matches
  /\ (forall m : Match,
        half_time_home_goals m = None -> half_time_away_goals m = None ->
        half_time_state m = Level /\ in_state Level m = true)
  /\ (let ht := halfTimeAnalysis (calculateDetailedStats matches) in
      ht_home_leads ht = length (filter (in_state HomeLead) matches)
      /\ ht_away_leads ht = length (filter (in_state AwayLead) matches)
      /\ ht_draws ht = length (filter (in_state Level) matches))
  /\ (forall matches' : list Match,
        Forall2 same_full_time matches matches' ->
        let d := calculateDetailedStats matches in
        let d' := calculateDetailedStats matches' in
        basic d' = basic d /\ goalStats d' = goalStats d
        /\ overUnder d' = overUnder d
        /\ frequentResults d' = frequentResults d).
Proof.
  split; [apply calculateDetailedStats_fill|].
  split.
  { intros m Hh Ha. unfold in_state, half_time_state. now rewrite Hh, Ha. }
  split.
  { cbn zeta. rewrite halfTimeAnalysis_counters. cbn zeta.
    cbn [ht_home_leads ht_away_leads ht_draws].
    pose proof (ht_loop_counts matches htZero) as Hc. cbn zeta in Hc.
    exact Hc. }
  intros matches' Hsame. cbn zeta.
  apply same_full_time_erase in Hsame.
  destruct (full_time_fields_erase matches) as [E1 [E2 [E3 E4]]].
  destruct (full_time_fields_erase matches') as [F1 [F2 [F3 F4]]].
  rewrite <- E1, <- E2, <- E3, <- E4, <- F1, <- F2, <- F3, <- F4.
  rewrite Hsame. repeat split; reflexivity.
Qed.

(** ** Head-to-head features without history *)

(** C4.  When the head-to-head query answers with an empty list,
    getHeadToHeadFeatures returns normally, with zero for the other fields
    and the default transition matrix: home-lead row (0.65, 0.25, 0.10),
    draw row (0.35, 0.30, 0.35), away-lead row (0.10, 0.25, 0.65). *)
Theorem no_history_default_matrix (supabase : Supabase)
    (homeTeam awayTeam : string) :
  select_between supabase homeTeam awayTeam = Resolved {| data := Some [] |} ->
  getHeadToHeadFeatures supabase homeTeam awayTeam
  = Resolved
      {| matches_played := 0;
         home_advantage := Fin 0%Q;
         h2h_avg_goals := Fin 0%Q;
         btts_rate := Fin 0%Q;
         transition_matrix :=
           {| ht_h_to_ft_h := Fin 0.65%Q;
              ht_h_to_ft_d := Fin 0.25%Q;
              ht_h_to_ft_a := Fin 0.10%Q;
              ht_d_to_ft_h := Fin 0.35%Q;
              ht_d_to_ft_d := Fin 0.30%Q;
              ht_d_to_ft_a := Fin 0.35%Q;
              ht_a_to_ft_h := Fin 0.10%Q;
              ht_a_to_ft_d := Fin 0.25%Q;
              ht_a_to_ft_a := Fin 0.65%Q |} |}.
Proof.
  intros Hquery. unfold getHeadToHeadFeatures. rewrite Hquery. reflexivity.
Qed.

Lemma no_history_default_matrix_witness :
  select_between empty_table "Arsenal" "Chelsea"
  = Resolved {| data := Some [] |}
  /\ getHeadToHeadFeatures empty_table "Arsenal" "Chelsea"
     = Resolved
         {| matches_played := 0;
            home_advantage := Fin 0%Q;
            h2h_avg_goals := Fin 0%Q;
            btts_rate := Fin 0%Q;
            transition_matrix :=
              {| ht_h_to_ft_h := Fin 0.65%Q;
                 ht_h_to_ft_d := Fin 0.25%Q;
                 ht_h_to_ft_a := Fin 0.10%Q;
                 ht_d_to_ft_h := Fin 0.35%Q;
                 ht_d_to_ft_d := Fin 0.30%Q;
                 ht_d_to_ft_a := Fin 0.35%Q;
                 ht_a_to_ft_h := Fin 0.10%Q;
                 ht_a_to_ft_d := Fin 0.25%Q;
                 ht_a_to_ft_a := Fin 0.65%Q |} |}.
Proof.
  split.
  - reflexivity.
  - apply (no_history_default_matrix empty_table "Arsenal" "Chelsea").
    reflexivity.
Defined.

(** ** The confidence tier *)

Lemma Qle_bool_false (x y : Q) : Qle_bool x y = false -> (y < x)%Q.
Proof.
  intros E. apply Qnot_le_lt. intros Hle.
  apply Qle_bool_iff in Hle. congruence.
Qed.




(** ** Batch prediction *)

Lemma predict_rejection (supabase : Supabase) (now : string)
    (input : PredictionInput) (reason : Thrown) :
  predict supabase now input = Rejected reason ->
  reason = ErrorObject "Predikciós hiba történt".
Proof.
  unfold predict, Promise.try_catch.
  destruct (prepareFeatures supabase now input) as [features|e]; simpl.
  - discriminate.
  - congruence.
Qed.

Lemma all_resolved (A B : Type) (f : A -> Promise B) (l : list A)
    (values : list B) :
  Promise.all (map f l) = Resolved values ->
  Forall2 (fun a b => f a = Resolved b) l values.
Proof.
  revert values. induction l as [|a rest IH]; intros values; simpl.
  - intros E. injection E as <-. constructor.
  - destruct (f a) as [b|e] eqn:Ea; simpl; [|discriminate].
    destruct (Promise.all (map f rest)) as [others|e] eqn:Erest; simpl;
      [|discriminate].
    intros E. injection E as <-. constructor; [assumption|now apply IH].
Qed.

Lemma all_rejected (A B : Type) (f : A -> Promise B) (l : list A)
    (reason : Thrown) :
  Promise.all (map f l) = Rejected reason ->
  Exists (fun a => f a = Rejected reason) l.
Proof.
  induction l as [|a rest IH]; simpl; [discriminate|].
  destruct (f a) as [b|e] eqn:Ea; simpl.
  - destruct (Promise.all (map f rest)) as [others|e] eqn:Erest; simpl;
      [discriminate|].
    intros E. injection E as <-. apply Exists_cons_tl. now apply IH.
  - intros E. injection E as <-. now apply Exists_cons_hd.
Qed.

(** C5, amended.  predictBatch is all or nothing.  Either every
    prediction succeeds and the returned list holds the outputs, one per
    input and in input order; or some prediction fails, and then the
    returned list is empty and the hook records the one error message.
    In both cases the loading flag is back to false. *)
Theorem predictBatch_all_or_nothing (supabase : Supabase) (now : string)
    (inputs : list PredictionInput) (st : HookState) :
  let results := fst (predictBatch supabase now inputs st) in
  let st' := snd (predictBatch supabase now inputs st) in
  isLoading st' = false
  /\ ((Forall2 (fun input output => predict supabase now input = Resolved output)
         inputs results
       /\ error st' = None)
      \/ (Exists (fun input =>
                    predict supabase now input
                    = Rejected (ErrorObject "Predikciós hiba történt")) inputs
          /\ results = []
          /\ error st' = Some "Predikciós hiba történt"%string)).
Proof.
  cbn zeta. unfold predictBatch.
  destruct (Promise.all (map (engine_predict supabase now) inputs))
    as [results|reason] eqn:Eall; cbn [fst snd].
  - split; [reflexivity|]. left. split; [|reflexivity].
    now apply all_resolved in Eall.
  - split; [reflexivity|]. right.
    apply all_rejected in Eall.
    assert (Hreason : reason = ErrorObject "Predikciós hiba történt").
    { apply Exists_exists in Eall. destruct Eall as [input [_ Hin]].
      now apply predict_rejection in Hin. }
    subst reason. repeat split; assumption || reflexivity.
Qed.

(** C5, as stated, fails: of two inputs the first is predicted and the
    second is not, and the batch returns no result at all, neither the
    first output nor a marker for the second. *)
Lemma batch_aborted_by_one_failure :
  let supabase := unreachable_for "Juventus" in
  let now := "2025-01-01T12:00:00.000Z"%string in
  let inputs :=
    [ mkPredictionInput "Real Madrid" "Barcelona" None None;
      mkPredictionInput "Juventus" "Inter Milan" None None ] in
  (exists output,
      predict supabase now (mkPredictionInput "Real Madrid" "Barcelona" None None)
      = Resolved output)
  /\ predict supabase now (mkPredictionInput "Juventus" "Inter Milan" None None)
     = Rejected (ErrorObject "Predikciós hiba történt")
  /\ fst (predictBatch supabase now inputs initialHookState) = []
  /\ length (fst (predictBatch supabase now inputs initialHookState))
     <> length inputs.
Proof.
  cbn zeta. split; [eexists; reflexivity|].
  split; [reflexivity|]. split; [reflexivity|]. discriminate.
Qed.

(** ** Form arrays *)

Lemma form_entry_value (won : Outcome) (m : Match) :
  is_form_value (form_entry won m).
Proof.
  unfold form_entry, is_form_value.
  destruct (Outcome_eqb (result_computed m) won); [tauto|].
  destruct (Outcome_eqb (result_computed m) OutD); tauto.
Qed.

(** What does hold of the three form arrays, for every answer of the
    table: the split arrays are the entries of the first five rows of their
    split, and the overall array is the first five entries of the home
    array followed by the away array. *)
Lemma form_arrays_shape (now teamName : string)
    (homeMatches awayMatches : QueryResponse) :
  let form :=
    form_features (teamFeaturesOf now teamName homeMatches awayMatches) in
  recent_form_home form
  = map (form_entry OutH) (firstn 5 (or_empty (data homeMatches)))
  /\ recent_form_away form
     = map (form_entry OutA) (firstn 5 (or_empty (data awayMatches)))
  /\ recent_form_overall form
     = firstn 5 (recent_form_home form ++ recent_form_away form)
  /\ length (recent_form_home form) <= 5
  /\ length (recent_form_away form) <= 5
  /\ length (recent_form_overall form) <= 5
  /\ Forall is_form_value (recent_form_home form)
  /\ Forall is_form_value (recent_form_away form)
  /\ Forall is_form_value (recent_form_overall form).
Proof.
  cbn zeta. unfold teamFeaturesOf, slice0.
  cbn [form_features recent_form_home recent_form_away recent_form_overall].
  assert (Hvalues : forall won rows,
             Forall is_form_value (map (form_entry won) rows)).
  { intros won rows. apply Forall_forall. intros x Hx.
    apply in_map_iff in Hx. destruct Hx as [m [<- _]].
    apply form_entry_value. }
  repeat split; try reflexivity;
    try (rewrite length_map; apply firstn_le_length);
    try apply firstn_le_length; try apply Hvalues.
  apply Forall_forall. intros x Hx. apply In_firstn in Hx.
  apply in_app_or in Hx.
  destruct Hx as [Hx|Hx]; revert x Hx; apply Forall_forall; apply Hvalues.
Qed.

(** C9, on the code: Arsenal has won its five home matches and then lost
    its five away matches.  The last five matches overall are the five
    defeats, yet the overall form returned is the five home wins. *)
Theorem overall_form_is_home_form_first :
  let now := "2025-01-01T12:00:00.000Z"%string in
  exists features : TeamFeatures,
    getTeamFeatures arsenal_table now "Arsenal" = Resolved features
    /\ recent_form_home (form_features features)
       = [Fin 1%Q; Fin 1%Q; Fin 1%Q; Fin 1%Q; Fin 1%Q]
    /\ recent_form_away (form_features features)
       = [Fin 0%Q; Fin 0%Q; Fin 0%Q; Fin 0%Q; Fin 0%Q]
    /\ recent_form_overall (form_features features)
       = [Fin 1%Q; Fin 1%Q; Fin 1%Q; Fin 1%Q; Fin 1%Q]
    /\ last_five_overall "Arsenal" arsenal_home_rows arsenal_away_rows
       = [Fin 0%Q; Fin 0%Q; Fin 0%Q; Fin 0%Q; Fin 0%Q]
    /\ recent_form_overall (form_features features)
       <> last_five_overall "Arsenal" arsenal_home_rows arsenal_away_rows.
Proof.
  cbn zeta. eexists. split; [reflexivity|].
  repeat split; try reflexivity.
  vm_compute. discriminate.
Qed.

(** ** A run of C8 *)

Lemma missing_half_time_read_as_zero_witness :
  half_time_state (mkMatch "Arsenal" "Chelsea" 2 1 None None OutH true false 2)
  = Level
  /\ Forall2 same_full_time goalless_half_example goalless_half_example'
  /\ basic (calculateDetailedStats goalless_half_example')
     = basic (calculateDetailedStats goalless_half_example)
  /\ frequentResults (calculateDetailedStats goalless_half_example')
     = frequentResults (calculateDetailedStats goalless_half_example).
Proof.
  destruct (missing_half_time_read_as_zero goalless_half_example)
    as [_ [Hlevel [_ Hfull]]].
  assert (Hsame : Forall2 same_full_time goalless_half_example
                    goalless_half_example')
    by (repeat constructor).
  split.
  - apply (Hlevel (mkMatch "Arsenal" "Chelsea" 2 1 None None OutH true false 2));
      reflexivity.
  - split; [exact Hsame|].
    destruct (Hfull goalless_half_example' Hsame) as [Hb [_ [_ Hf]]].
    split; [exact Hb|exact Hf].
Defined.

(** ** The end-to-end example of the specification *)

Example twenty_matches_stats :
  let stats := calculateBasicStats twenty_matches in
  total_matches stats = 20
  /\ avg_goals stats = double 2.7
  /\ home_win_percentage stats = double 60
  /\ draw_percentage stats = double 25
  /\ away_win_percentage stats = double 15.
Proof.
  cbn zeta. repeat split; vm_compute; reflexivity.
Qed.

(* ===================================================================== *)
(** * Further properties of the statistics *)
(* ===================================================================== *)

(** ** Counts *)

(** X1.  The counts of the basic statistics are consistent: total_matches
    is the number of matches, the three outcome counts add up to it, and
    the two flag counts do not exceed it. *)
Theorem basic_counts_consistent (matches : list Match) :
  let s := calculateBasicStats matches in
  total_matches s = length matches
  /\ home_wins s + draws s + away_wins s = total_matches s
  /\ btts_count s <= total_matches s
  /\ comeback_count s <= total_matches s.
Proof.
  cbn zeta. destruct matches as [|m rest] eqn:E.
  - cbn. lia.
  - rewrite <- E.
    assert (Hne : matches <> []) by (subst; discriminate).
    unfold calculateBasicStats. rewrite (length_nonzero Hne).
    cbn [total_matches home_wins draws away_wins btts_count comeback_count].
    split; [reflexivity|]. split; [apply outcome_counts_partition|].
    split; apply filter_length_le.
Qed.

(** ** Percentages *)

Lemma percentage_of_is_percentage (x total : nat) :
  x <= total -> total <> 0 -> is_percentage (percentage_of x total).
Proof.
  intros Hle Hnz.
  destruct (percentage_of_spec Hnz Hle) as [k [-> [[Hk0 Hk1] _]]].
  eexists. split; [reflexivity|]. split.
  - apply binary64_nonneg. apply Qle_shift_div_l; [reflexivity|].
    rewrite Qmult_0_l. change 0%Q with (inject_Z 0). now rewrite <- Zle_Qle.
  - apply binary64_le; [now rewrite binary64_100|].
    apply Qle_shift_div_r; [reflexivity|].
    change (100 * 10)%Q with (inject_Z 1000). now rewrite <- Zle_Qle.
Qed.

Lemma zero_is_percentage : is_percentage (Fin 0%Q).
Proof.
  exists 0%Q. repeat split; lra.
Qed.

Lemma calculateBasicStats_percentages (matches : list Match) :
  Forall is_percentage (basic_percentages (calculateBasicStats matches)).
Proof.
  destruct matches as [|m rest] eqn:E.
  - repeat constructor; apply zero_is_percentage.
  - rewrite <- E.
    assert (Hne : matches <> []) by (subst; discriminate).
    assert (Ht : length matches <> 0) by (subst; simpl; congruence).
    unfold calculateBasicStats. rewrite (length_nonzero Hne).
    unfold basic_percentages.
    cbn [home_win_percentage draw_percentage away_win_percentage
         btts_percentage comeback_percentage].
    repeat constructor;
      apply percentage_of_is_percentage; try assumption;
      apply filter_length_le.
Qed.

Lemma occurrences_le_length (k : string) (keys : list string) :
  occurrences k keys <= length keys.
Proof.
  induction keys as [|k0 rest IH]; simpl; [lia|].
  destruct (String.eqb k k0); lia.
Qed.

Lemma scoreline_groups_percentages (matches : list Match) :
  Forall (fun r => is_percentage (percentage r)) (scoreline_groups matches).
Proof.
  apply Forall_forall. intros r Hr. unfold scoreline_groups in Hr.
  apply in_map_iff in Hr. destruct Hr as [k [<- Hk]]. cbn [percentage].
  apply first_seen_In in Hk.
  assert (Hne : length matches <> 0).
  { destruct matches; [contradiction|simpl; congruence]. }
  apply percentage_of_is_percentage; [|assumption].
  rewrite <- (length_map scoreline matches). apply occurrences_le_length.
Qed.

Lemma frequentResults_percentages (matches : list Match) :
  Forall is_percentage
    (map percentage (frequentResults (calculateDetailedStats matches))).
Proof.
  apply Forall_forall. intros x Hx. apply in_map_iff in Hx.
  destruct Hx as [r [<- Hr]].
  rewrite frequentResults_sorted_groups in Hr. apply In_firstn in Hr.
  apply (Permutation_in _ (proj1 (sorted_groups_ranked matches))) in Hr.
  revert r Hr. apply Forall_forall. apply scoreline_groups_percentages.
Qed.

Lemma lead_hold_is_percentage (won leads : nat) :
  won <= leads ->
  is_percentage
    (if 0 <? leads then percentage_of won leads else Fin 0%Q).
Proof.
  intros Hle. destruct leads as [|n]; cbn [Nat.ltb Nat.leb].
  - apply zero_is_percentage.
  - apply percentage_of_is_percentage; [assumption|discriminate].
Qed.

(** X2.  Every percentage the two functions return is a finite number
    between 0 and 100: the five of the basic statistics, and the clean
    sheet, over/under, lead-hold and frequent-result percentages of the
    detailed statistics. *)
Theorem percentages_between_0_and_100 (matches : list Match) :
  Forall is_percentage (basic_percentages (calculateBasicStats matches))
  /\ Forall is_percentage (detailed_percentages (calculateDetailedStats matches)).
Proof.
  split; [apply calculateBasicStats_percentages|].
  unfold detailed_percentages. apply Forall_app.
  split; [|apply frequentResults_percentages].
  rewrite halfTimeAnalysis_counters. cbn zeta.
  cbn [home_lead_hold_percentage away_lead_hold_percentage].
  pose proof (ht_loop_invariant matches htZero) as Hinv. cbn zeta in Hinv.
  simpl in Hinv. destruct Hinv as [_ [Hhome Haway]].
  set (ht := fold_left htStep matches htZero) in *.
  destruct matches as [|m rest] eqn:E.
  - repeat constructor; apply zero_is_percentage.
  - rewrite <- E in *.
    assert (Hne : matches <> []) by (subst; discriminate).
    assert (Ht : length matches <> 0) by (subst; simpl; congruence).
    unfold calculateDetailedStats. rewrite (length_nonzero Hne).
    cbn [goalStats overUnder home_clean_sheet_percentage
         away_clean_sheet_percentage over_25_percentage under_25_percentage
         over_35_percentage].
    repeat constructor;
      try (apply lead_hold_is_percentage; lia);
      apply percentage_of_is_percentage; try assumption;
      try apply filter_length_le; lia.
Qed.

(** ** Over/under *)

Lemma exceeds_two_and_a_half (n : nat) : exceeds n (5 # 2) = (3 <=? n).
Proof.
  unfold exceeds, Qle_bool. cbn [Qnum Qden inject_Z].
  destruct (Nat.leb_spec 3 n).
  - apply negb_true_iff, Z.leb_gt. lia.
  - apply negb_false_iff, Z.leb_le. lia.
Qed.

Lemma exceeds_three_and_a_half (n : nat) : exceeds n (7 # 2) = (4 <=? n).
Proof.
  unfold exceeds, Qle_bool. cbn [Qnum Qden inject_Z].
  destruct (Nat.leb_spec 4 n).
  - apply negb_true_iff, Z.leb_gt. lia.
  - apply negb_false_iff, Z.leb_le. lia.
Qed.

Lemma filter_length_mono (A : Type) (f g : A -> bool) (l : list A) :
  (forall x, f x = true -> g x = true) ->
  length (filter f l) <= length (filter g l).
Proof.
  intros Himp. induction l as [|a rest IH]; simpl; [lia|].
  destruct (f a) eqn:Ef.
  - rewrite (Himp a Ef). simpl. lia.
  - destruct (g a); simpl; lia.
Qed.

(** X3.  Over 2.5 counts the matches with at least three goals and over
    3.5 those with at least four; over and under 2.5 together are all the
    matches, and a match over 3.5 is also over 2.5. *)
Theorem over_under_counts (matches : list Match) :
  let ou := overUnder (calculateDetailedStats matches) in
  over_25_count ou = length (filter (fun m => 3 <=? match_goals m) matches)
  /\ over_35_count ou = length (filter (fun m => 4 <=? match_goals m) matches)
  /\ over_25_count ou + under_25_count ou = length matches
  /\ over_35_count ou <= over_25_count ou.
Proof.
  cbn zeta. destruct matches as [|m0 rest] eqn:E; [cbn; lia|]. rewrite <- E.
  assert (Hne : matches <> []) by (subst; discriminate).
  unfold calculateDetailedStats. rewrite (length_nonzero Hne).
  cbn [overUnder over_25_count over_35_count under_25_count].
  rewrite (filter_ext (fun m => exceeds (full_time_home_goals m
                                           + full_time_away_goals m) (5 # 2))
             (fun m => 3 <=? match_goals m))
    by (intros m; apply exceeds_two_and_a_half).
  rewrite (filter_ext (fun m => exceeds (full_time_home_goals m
                                           + full_time_away_goals m) (7 # 2))
             (fun m => 4 <=? match_goals m))
    by (intros m; apply exceeds_three_and_a_half).
  split; [reflexivity|]. split; [reflexivity|].
  pose proof (filter_length_le (fun m => 3 <=? match_goals m) matches).
  split; [lia|].
  apply filter_length_mono. intros m Hm.
  apply Nat.leb_le in Hm. apply Nat.leb_le. lia.
Qed.

(** ** Goals *)

Lemma fold_left_sum (A : Type) (step : nat -> A -> nat) (g : A -> nat)
    (l : list A) (start : nat) :
  (forall s a, step s a = s + g a) ->
  fold_left step l start = start + list_sum (map g l).
Proof.
  intros Hstep. revert start.
  induction l as [|a rest IH]; intros start; simpl; [lia|].
  rewrite IH, Hstep. lia.
Qed.

Lemma list_sum_map_add (A : Type) (f g : A -> nat) (l : list A) :
  list_sum (map (fun a => f a + g a) l)
  = list_sum (map f l) + list_sum (map g l).
Proof.
  induction l as [|a rest IH]; simpl; lia.
Qed.

(** Rounding to two decimals moves a non-negative value by at most
    0.005. *)
Lemma round_to_2_error (x : Q) :
  (0 <= x)%Q ->
  (x - (1 # 200) <= round_to 2 x /\ round_to 2 x <= x + (1 # 200))%Q.
Proof.
  intros Hx. unfold round_to.
  apply Qle_bool_iff in Hx. rewrite Hx.
  unfold round_nonneg.
  change (Z.to_pos (10 ^ Z.of_nat 2)) with 100%positive.
  change (inject_Z (10 ^ Z.of_nat 2)) with 100%Q.
  set (y := (x * 100 + (1 # 2))%Q).
  pose proof (Qfloor_le y) as Hlo.
  pose proof (Qlt_floor y) as Hhi.
  rewrite inject_Z_plus in Hhi.
  rewrite (Qmake_Qdiv (Qfloor y) 100).
  change (inject_Z (Z.pos 100)) with 100%Q.
  set (f := inject_Z (Qfloor y)) in *.
  change (inject_Z 1) with 1%Q in Hhi.
  unfold y in *. clear y. clearbody f.
  split.
  - apply Qle_shift_div_l; [reflexivity|]. lra.
  - apply Qle_shift_div_r; [reflexivity|]. lra.
Qed.

Lemma nat_ratio_nonneg (x total : nat) :
  (0 <= inject_Z (Z.of_nat x) / inject_Z (Z.of_nat total))%Q.
Proof.
  destruct total as [|t].
  - unfold Qdiv, Qinv; simpl. rewrite Qmult_0_r. apply Qle_refl.
  - apply Qle_shift_div_l.
    + reflexivity.
    + rewrite Qmult_0_l. unfold Qle; simpl. lia.
Qed.

(** The expression [Number((x / total).toFixed(digits))] for an average of
    at most 1000: the exact quotient, up to the distance [half] by which
    toFixed moves a number and 10^-12 for the binary64 operations. *)
Lemma rounded_average_error (digits : nat) (half : Q) (x total : nat) :
  (forall y : Q, 0 <= y -> y - half <= round_to digits y <= y + half)%Q ->
  (0 <= half)%Q -> (half <= 1)%Q ->
  total <> 0 -> x <= 1000 * total ->
  exists v : Q,
    toFixed digits (div (of_nat x) (of_nat total)) = Fin v
    /\ (Qabs (v - inject_Z (Z.of_nat x) / inject_Z (Z.of_nat total))
        <= half + (1 # 10 ^ 12))%Q.
Proof.
  intros Hround Hh0 Hh1 Ht Hle.
  destruct (count_quotient x Ht) as [r [-> [Hr0 [_ Hre]]]].
  cbn [toFixed]. eexists. split; [reflexivity|].
  pose proof (nat_ratio_nonneg x total) as Hrho0.
  assert (Hrho1 : (inject_Z (Z.of_nat x) / inject_Z (Z.of_nat total) <= 1000)%Q).
  { apply Qle_shift_div_r; [now apply inject_nat_pos|].
    change 1000%Q with (inject_Z (Z.of_nat 1000)).
    rewrite <- inject_Z_mult, <- Nat2Z.inj_mul. now apply inject_nat_le. }
  set (rho := (inject_Z (Z.of_nat x) / inject_Z (Z.of_nat total))%Q) in *.
  apply Qabs_Qle_condition in Hre.
  change (5 # 2 ^ 53)%Q with (5 # 9007199254740992)%Q in Hre.
  assert (Hr1 : (r <= 1024)%Q) by (clearbody rho; destruct Hre; lra).
  pose proof (binary64_nonneg Hr0) as Hn0.
  pose proof (binary64_le (x := r) (b := 1024%Q) (Qeq_refl _) Hr1) as Hn1.
  pose proof (binary64_error_below Hr0 Hr1) as Hne.
  set (n := binary64 r) in *.
  destruct (Hround n Hn0) as [Ht1 Ht2].
  set (t := round_to digits n) in *.
  assert (Ht0 : (0 <= t)%Q).
  { unfold t, round_to. pose proof Hn0 as Hb. apply Qle_bool_iff in Hb.
    rewrite Hb. unfold round_nonneg.
    assert (Hf : (Qfloor 0 <= Qfloor (n * inject_Z (10 ^ Z.of_nat digits)
                                       + (1 # 2)))%Z).
    { apply Qfloor_resp_le.
      assert (Hs : (0 <= inject_Z (10 ^ Z.of_nat digits))%Q).
      { change 0%Q with (inject_Z 0). rewrite <- Zle_Qle.
        apply Z.pow_nonneg. lia. }
      pose proof (Qmult_le_0_compat _ _ Hn0 Hs) as Hp.
      set (p := (n * inject_Z (10 ^ Z.of_nat digits))%Q) in *.
      clearbody p. clear - Hp. lra. }
    change (Qfloor 0) with 0%Z in Hf. unfold Qle. cbn [Qnum Qden].
    rewrite Z.mul_0_l, Z.mul_1_r. exact Hf. }
  assert (Htb : (t <= 2048)%Q) by (clear - Ht2 Hn1 Hh1; clearbody t n; lra).
  pose proof (binary64_error_below Ht0 Htb) as Hve.
  apply Qabs_Qle_condition in Hne, Hve. apply Qabs_Qle_condition.
  change (1 # 2 ^ 53)%Q with (1 # 9007199254740992)%Q in *.
  change (1 # 10 ^ 12)%Q with (1 # 1000000000000)%Q.
  set (v := binary64 t) in *. clearbody v t n rho.
  destruct Hre, Hne, Hve. split; lra.
Qed.

(** Rounding to one decimal moves a non-negative value by at most 0.05. *)
Lemma round_to_1_error (x : Q) :
  (0 <= x)%Q ->
  (x - (1 # 20) <= round_to 1 x /\ round_to 1 x <= x + (1 # 20))%Q.
Proof.
  intros Hx. unfold round_to.
  apply Qle_bool_iff in Hx. rewrite Hx.
  unfold round_nonneg.
  change (Z.to_pos (10 ^ Z.of_nat 1)) with 10%positive.
  change (inject_Z (10 ^ Z.of_nat 1)) with 10%Q.
  set (y := (x * 10 + (1 # 2))%Q).
  pose proof (Qfloor_le y) as Hlo.
  pose proof (Qlt_floor y) as Hhi.
  rewrite inject_Z_plus in Hhi.
  rewrite (Qmake_Qdiv (Qfloor y) 10).
  change (inject_Z (Z.pos 10)) with 10%Q.
  set (f := inject_Z (Qfloor y)) in *.
  change (inject_Z 1) with 1%Q in Hhi.
  unfold y in *. clear y. clearbody f.
  split.
  - apply Qle_shift_div_l; [reflexivity|]. lra.
  - apply Qle_shift_div_r; [reflexivity|]. lra.
Qed.

(** X4.  The goal totals are the sums of the home and of the away goals,
    and the three averages agree: for a non-empty list with at most 1000
    goals a match on average, the average goals of the basic statistics is
    the quotient of the two totals together by the number of matches
    rounded to one decimal, and it differs from the sum of the two per-side
    averages by at most 0.06 (and 10^-9 for the binary64 operations). *)
Theorem goal_averages_agree (matches : list Match) :
  matches <> [] ->
  list_sum (map match_goals matches) <= 1000 * length matches ->
  let d := calculateDetailedStats matches in
  home_goals_total (goalStats d)
  = list_sum (map full_time_home_goals matches)
  /\ away_goals_total (goalStats d)
     = list_sum (map full_time_away_goals matches)
  /\ exists avg home away : Q,
       avg_goals (basic d) = Fin avg
       /\ home_goals_per_match (goalStats d) = Fin home
       /\ away_goals_per_match (goalStats d) = Fin away
       /\ (Qabs (avg
                 - inject_Z (Z.of_nat (home_goals_total (goalStats d)
                                       + away_goals_total (goalStats d)))
                   / inject_Z (Z.of_nat (length matches)))
           <= (1 # 20) + (1 # 10 ^ 9))%Q
       /\ (Qabs (avg - (home + away)) <= (6 # 100) + (1 # 10 ^ 9))%Q.
Proof.
  intros Hne Hgoals. cbn zeta.
  assert (Ht : length matches <> 0) by (destruct matches; simpl; congruence).
  unfold calculateDetailedStats, calculateBasicStats.
  rewrite (length_nonzero Hne).
  cbn [goalStats basic avg_goals home_goals_total away_goals_total
       home_goals_per_match away_goals_per_match].
  unfold per_match.
  rewrite (fold_left_sum _ full_time_home_goals matches 0) by reflexivity.
  rewrite (fold_left_sum _ full_time_away_goals matches 0) by reflexivity.
  rewrite (fold_left_sum _ (fun m => full_time_home_goals m
                                       + full_time_away_goals m) matches 0)
    by (intros; lia).
  unfold match_goals in Hgoals.
  rewrite list_sum_map_add in *. rewrite !Nat.add_0_l.
  set (hg := list_sum (map full_time_home_goals matches)) in *.
  set (ag := list_sum (map full_time_away_goals matches)) in *.
  split; [reflexivity|]. split; [reflexivity|].
  assert (H2 : (0 <= 1 # 200)%Q /\ (1 # 200 <= 1)%Q) by (split; discriminate).
  assert (H1 : (0 <= 1 # 20)%Q /\ (1 # 20 <= 1)%Q) by (split; discriminate).
  destruct (@rounded_average_error 1 (1 # 20) (hg + ag) (length matches)
              round_to_1_error (proj1 H1) (proj2 H1) Ht Hgoals)
    as [avg [-> Eavg]].
  destruct (@rounded_average_error 2 (1 # 200) hg (length matches)
              round_to_2_error (proj1 H2) (proj2 H2) Ht ltac:(lia))
    as [home [-> Ehome]].
  destruct (@rounded_average_error 2 (1 # 200) ag (length matches)
              round_to_2_error (proj1 H2) (proj2 H2) Ht ltac:(lia))
    as [away [-> Eaway]].
  exists avg, home, away. repeat (split; [reflexivity|]).
  assert (Hsplit :
            (inject_Z (Z.of_nat (hg + ag)) / inject_Z (Z.of_nat (length matches))
             == inject_Z (Z.of_nat hg) / inject_Z (Z.of_nat (length matches))
                + inject_Z (Z.of_nat ag) / inject_Z (Z.of_nat (length matches)))%Q).
  { rewrite Nat2Z.inj_add, inject_Z_plus. field.
    intros E. apply Qeq_bool_iff in E.
    rewrite inject_nat_nonzero in E by assumption. discriminate. }
  apply Qabs_Qle_condition in Eavg, Ehome, Eaway.
  change (1 # 10 ^ 12)%Q with (1 # 1000000000000)%Q in *.
  change (1 # 10 ^ 9)%Q with (1 # 1000000000)%Q.
  set (x := (inject_Z (Z.of_nat (hg + ag))
             / inject_Z (Z.of_nat (length matches)))%Q) in *.
  set (xh := (inject_Z (Z.of_nat hg)
              / inject_Z (Z.of_nat (length matches)))%Q) in *.
  set (xa := (inject_Z (Z.of_nat ag)
              / inject_Z (Z.of_nat (length matches)))%Q) in *.
  clearbody x xh xa.
  destruct Eavg, Ehome, Eaway.
  split; apply Qabs_Qle_condition; split; lra.
Qed.

(** ** Half-time transitions *)

Lemma ht_loop_transition_counts (matches : list Match) (c : HtCounters) :
  let c' := fold_left htStep matches c in
  let n := fun s o => length (filter (led_and_ended s o) matches) in
  htHomeLeadToWin c' = htHomeLeadToWin c + n HomeLead OutH
  /\ htHomeLeadToDraw c' = htHomeLeadToDraw c + n HomeLead OutD
  /\ htHomeLeadToLoss c' = htHomeLeadToLoss c + n HomeLead OutA
  /\ htAwayLeadToWin c' = htAwayLeadToWin c + n AwayLead OutA
  /\ htAwayLeadToDraw c' = htAwayLeadToDraw c + n AwayLead OutD
  /\ htAwayLeadToLoss c' = htAwayLeadToLoss c + n AwayLead OutH.
Proof.
  revert c. induction matches as [|m rest IH]; intros c; cbn zeta.
  - simpl. lia.
  - simpl fold_left. specialize (IH (htStep c m)). cbn zeta in IH.
    destruct IH as [IH1 [IH2 [IH3 [IH4 [IH5 IH6]]]]].
    rewrite IH1, IH2, IH3, IH4, IH5, IH6.
    destruct c as [hl al dr hw hd hlo aw ad alo].
    simpl filter. unfold led_and_ended, in_state, half_time_state, htStep.
    destruct (or_zero (half_time_away_goals m) <? or_zero (half_time_home_goals m));
      [|destruct (or_zero (half_time_home_goals m)
                  <? or_zero (half_time_away_goals m))];
      destruct (result_computed m); cbn; lia.
Qed.

(** X5.  Each of the six transition counters is the number of matches
    that were in the half-time state and ended with the outcome it names:
    a lead "to win" is a win of the leading side, "to loss" a win of the
    other side. *)
Theorem half_time_transition_counts (matches : list Match) :
  let ht := halfTimeAnalysis (calculateDetailedStats matches) in
  let n := fun s o => length (filter (led_and_ended s o) matches) in
  ht_home_lead_to_win ht = n HomeLead OutH
  /\ ht_home_lead_to_draw ht = n HomeLead OutD
  /\ ht_home_lead_to_loss ht = n HomeLead OutA
  /\ ht_away_lead_to_win ht = n AwayLead OutA
  /\ ht_away_lead_to_draw ht = n AwayLead OutD
  /\ ht_away_lead_to_loss ht = n AwayLead OutH.
Proof.
  cbn zeta. rewrite halfTimeAnalysis_counters. cbn zeta.
  cbn [ht_home_lead_to_win ht_home_lead_to_draw ht_home_lead_to_loss
       ht_away_lead_to_win ht_away_lead_to_draw ht_away_lead_to_loss].
  pose proof (ht_loop_transition_counts matches htZero) as Hc.
  cbn zeta in Hc. exact Hc.
Qed.

(** ** The order of the matches *)

Lemma Permutation_filter_length (A : Type) (f : A -> bool) (l l' : list A) :
  Permutation l l' -> length (filter f l) = length (filter f l').
Proof.
  induction 1 as [|a l l' Hp IH|a b l|l1 l2 l3 H1 IH1 H2 IH2]; simpl.
  - reflexivity.
  - destruct (f a); simpl; congruence.
  - destruct (f a); destruct (f b); reflexivity.
  - congruence.
Qed.

Lemma Permutation_list_sum (l l' : list nat) :
  Permutation l l' -> list_sum l = list_sum l'.
Proof.
  induction 1; simpl; lia.
Qed.

Lemma Permutation_fold_sum (A : Type) (step : nat -> A -> nat) (g : A -> nat)
    (l l' : list A) :
  (forall s a, step s a = s + g a) ->
  Permutation l l' -> fold_left step l 0 = fold_left step l' 0.
Proof.
  intros Hstep Hp.
  rewrite !(fold_left_sum step g _ 0 Hstep).
  f_equal. apply Permutation_list_sum. now apply Permutation_map.
Qed.

Lemma ht_loop_closed_form (matches : list Match) :
  let n := fun s o => length (filter (led_and_ended s o) matches) in
  fold_left htStep matches htZero
  = mkHtCounters
      (length (filter (in_state HomeLead) matches))
      (length (filter (in_state AwayLead) matches))
      (length (filter (in_state Level) matches))
      (n HomeLead OutH) (n HomeLead OutD) (n HomeLead OutA)
      (n AwayLead OutA) (n AwayLead OutD) (n AwayLead OutH).
Proof.
  cbn zeta.
  pose proof (ht_loop_counts matches htZero) as Hs.
  pose proof (ht_loop_transition_counts matches htZero) as Ht.
  cbn zeta in Hs, Ht. simpl in Hs, Ht.
  destruct (fold_left htStep matches htZero)
    as [hl al dr hw hd hlo aw ad alo].
  cbn in Hs, Ht.
  destruct Hs as [-> [-> ->]].
  destruct Ht as [-> [-> [-> [-> [-> ->]]]]].
  reflexivity.
Qed.

Lemma Permutation_ht_loop (matches matches' : list Match) :
  Permutation matches matches' ->
  fold_left htStep matches htZero = fold_left htStep matches' htZero.
Proof.
  intros Hp. rewrite !ht_loop_closed_form. cbn zeta.
  rewrite !(Permutation_filter_length _ Hp). reflexivity.
Qed.

Lemma Permutation_basic (matches matches' : list Match) :
  Permutation matches matches' ->
  calculateBasicStats matches = calculateBasicStats matches'.
Proof.
  intros Hp. unfold calculateBasicStats.
  rewrite (Permutation_length Hp).
  rewrite !(Permutation_filter_length _ Hp).
  rewrite (Permutation_fold_sum _
             (fun m => full_time_home_goals m + full_time_away_goals m)
             (fun s m => eq_sym (Nat.add_assoc s _ _)) Hp).
  reflexivity.
Qed.

(** X6.  The order of the matches does not matter to the counts: two
    lists with the same matches in any order have the same basic
    statistics, goal statistics, over/under statistics and half-time
    analysis.  (The frequent results are left out: their ties are broken
    by the order of the matches.) *)
Theorem statistics_ignore_match_order (matches matches' : list Match) :
  Permutation matches matches' ->
  let d := calculateDetailedStats matches in
  let d' := calculateDetailedStats matches' in
  calculateBasicStats matches = calculateBasicStats matches'
  /\ basic d = basic d'
  /\ goalStats d = goalStats d'
  /\ overUnder d = overUnder d'
  /\ halfTimeAnalysis d = halfTimeAnalysis d'.
Proof.
  intros Hp. cbn zeta.
  split; [now apply Permutation_basic|].
  rewrite !halfTimeAnalysis_counters. cbn zeta.
  rewrite (Permutation_ht_loop Hp).
  unfold calculateDetailedStats.
  rewrite (Permutation_basic Hp), (Permutation_length Hp).
  rewrite !(Permutation_filter_length _ Hp).
  rewrite (Permutation_fold_sum _ full_time_home_goals
             (fun s m => eq_refl) Hp).
  rewrite (Permutation_fold_sum _ full_time_away_goals
             (fun s m => eq_refl) Hp).
  destruct (length matches' =? 0); repeat split; reflexivity.
Qed.

(** ** Scoreline strings *)

Lemma digits_then_dash (d d' : Decimal.uint) (s s' : string) :
  (NilEmpty.string_of_uint d ++ String "-"%char s
   = NilEmpty.string_of_uint d' ++ String "-"%char s')%string ->
  d = d' /\ s = s'.
Proof.
  revert d'. induction d; destruct d'; simpl; intros E;
    try discriminate;
    try (injection E as E; apply IHd in E; destruct E; subst; tauto).
  injection E as E. now subst.
Qed.

Lemma string_of_nat_inj (a b : nat) :
  string_of_nat a = string_of_nat b -> a = b.
Proof.
  unfold string_of_nat. intros E.
  apply Unsigned.to_uint_inj.
  assert (Hs : Some (Nat.to_uint a) = Some (Nat.to_uint b)).
  { rewrite <- !NilEmpty.usu. now rewrite E. }
  now injection Hs.
Qed.

(** X7.  The scoreline string determines the score: two matches have the
    same scoreline string exactly when they have the same full-time home
    goals and the same full-time away goals, so that grouping by the
    string is grouping by the score. *)
Theorem scoreline_determines_score (m m' : Match) :
  scoreline m = scoreline m'
  <-> full_time_home_goals m = full_time_home_goals m'
      /\ full_time_away_goals m = full_time_away_goals m'.
Proof.
  split.
  - unfold scoreline, string_of_nat. intros E.
    apply digits_then_dash in E. destruct E as [Eh Ea].
    split.
    + now apply Unsigned.to_uint_inj.
    + now apply string_of_nat_inj.
  - intros [Eh Ea]. unfold scoreline. now rewrite Eh, Ea.
Qed.

(** ** More on the frequent results *)

Lemma occurrences_has_scoreline (k : string) (matches : list Match) :
  occurrences k (map scoreline matches)
  = length (filter (has_scoreline k) matches).
Proof.
  induction matches as [|m rest IH]; [reflexivity|].
  simpl. unfold has_scoreline at 1. rewrite (String.eqb_sym (scoreline m) k).
  destruct (String.eqb k (scoreline m)); simpl; now rewrite IH.
Qed.

Lemma occurrences_present (k : string) (keys : list string) :
  In k keys -> 1 <= occurrences k keys.
Proof.
  induction keys as [|k0 rest IH]; simpl; [contradiction|].
  intros [->|Hin].
  - rewrite String.eqb_refl. lia.
  - destruct (String.eqb k k0); [lia|now apply IH].
Qed.

Lemma sum_over_NoDup (f : string -> nat) (k0 : string) (l : list string) :
  NoDup l ->
  list_sum (map f l)
  = (if existsb (String.eqb k0) l then f k0 else 0)
    + list_sum (map f (filter (fun k => negb (String.eqb k k0)) l)).
Proof.
  induction 1 as [|k rest Hnotin Hnd IH]; [reflexivity|].
  simpl. rewrite IH. rewrite (String.eqb_sym k k0).
  destruct (String.eqb_spec k0 k) as [->|Hne]; simpl.
  - destruct (existsb (String.eqb k) rest) eqn:Hmem;
      [apply existsb_eqb_In in Hmem; contradiction|]. lia.
  - lia.
Qed.

(** Every match is in exactly one group. *)
Lemma group_counts_add_up (keys : list string) :
  list_sum (map (fun k => occurrences k keys) (first_seen keys)) = length keys.
Proof.
  induction keys as [|k0 rest IH]; [reflexivity|].
  simpl first_seen. simpl map. simpl list_sum.
  rewrite String.eqb_refl.
  rewrite (map_ext_in (fun k => occurrences k (k0 :: rest))
             (fun k => occurrences k rest)).
  - rewrite (sum_over_NoDup (fun k => occurrences k rest) k0
               (first_seen_NoDup rest)) in IH.
    destruct (existsb (String.eqb k0) (first_seen rest)) eqn:Hmem.
    + simpl. lia.
    + assert (Hnot : ~ In k0 rest).
      { intros Hin. apply first_seen_In in Hin.
        apply existsb_eqb_In in Hin. congruence. }
      rewrite (occurrences_absent k0 rest Hnot). simpl. lia.
  - intros k Hk. apply filter_In in Hk. destruct Hk as [_ Hk].
    apply negb_true_iff in Hk. simpl. now rewrite Hk.
Qed.

Lemma list_sum_firstn (n : nat) (l : list nat) :
  list_sum (firstn n l) <= list_sum l.
Proof.
  rewrite <- (firstn_skipn n l) at 2. rewrite list_sum_app. lia.
Qed.

Lemma NoDup_firstn (A : Type) (n : nat) (l : list A) :
  NoDup l -> NoDup (firstn n l).
Proof.
  intros Hnd. rewrite <- (firstn_skipn n l) in Hnd.
  now apply NoDup_app_remove_r in Hnd.
Qed.

Lemma groups_results (matches : list Match) :
  map result (scoreline_groups matches) = first_seen (map scoreline matches).
Proof.
  unfold scoreline_groups. rewrite map_map. simpl. apply map_id.
Qed.

Lemma groups_counts (matches : list Match) :
  map count (scoreline_groups matches)
  = map (fun k => occurrences k (map scoreline matches))
      (first_seen (map scoreline matches)).
Proof.
  unfold scoreline_groups. rewrite map_map. reflexivity.
Qed.

Lemma group_of_match (matches : list Match) (m : Match) :
  In m matches ->
  exists r, In r (scoreline_groups matches)
            /\ result r = scoreline m
            /\ count r = occurrences (scoreline m) (map scoreline matches).
Proof.
  intros Hin. eexists. split.
  - unfold scoreline_groups. apply in_map_iff.
    exists (scoreline m). split; [reflexivity|].
    apply first_seen_In. now apply in_map.
  - split; reflexivity.
Qed.

Lemma frequentResults_facts (matches : list Match) :
  let fr := frequentResults (calculateDetailedStats matches) in
  NoDup (map result fr)
  /\ (forall r, In r fr ->
        count r = length (filter (has_scoreline (result r)) matches)
        /\ 1 <= count r)
  /\ list_sum (map count fr) <= length matches
  /\ (fr = [] <-> matches = [])
  /\ (forall top rest m, fr = top :: rest -> In m matches ->
        length (filter (has_scoreline (scoreline m)) matches) <= count top).
Proof.
  cbn zeta. rewrite frequentResults_sorted_groups.
  destruct (sorted_groups_ranked matches) as [Hperm Hsorted].
  cbn zeta in Hperm, Hsorted.
  set (ranked := array_sort _ (scoreline_groups matches)) in *.
  split.
  { rewrite <- firstn_map. apply NoDup_firstn.
    apply (Permutation_NoDup
             (Permutation_sym (Permutation_map result Hperm))).
    rewrite groups_results. apply first_seen_NoDup. }
  split.
  { intros r Hr. apply In_firstn in Hr.
    apply (Permutation_in _ Hperm) in Hr.
    unfold scoreline_groups in Hr. apply in_map_iff in Hr.
    destruct Hr as [k [<- Hk]]. cbn [count result].
    split; [apply occurrences_has_scoreline|].
    apply occurrences_present. now apply first_seen_In. }
  split.
  { rewrite <- firstn_map.
    etransitivity; [apply list_sum_firstn|].
    rewrite (Permutation_list_sum (Permutation_map count Hperm)).
    rewrite groups_counts, group_counts_add_up. now rewrite length_map. }
  split.
  { split.
    - intros Hnil. destruct matches as [|m rest]; [reflexivity|].
      exfalso.
      assert (Hlen : length ranked = length (scoreline_groups (m :: rest)))
        by now apply Permutation_length.
      destruct ranked as [|r0 ranked']; [|discriminate].
      discriminate.
    - intros ->. reflexivity. }
  intros top rest m Htop Hm.
  destruct (group_of_match matches m Hm) as [r [Hr [_ Hcount]]].
  rewrite <- occurrences_has_scoreline, <- Hcount.
  apply (Permutation_in _ (Permutation_sym Hperm)) in Hr.
  destruct ranked as [|r0 ranked']; [contradiction|].
  simpl in Htop. injection Htop as -> _.
  inversion Hsorted as [|? ? _ Hall]; subst.
  destruct Hr as [->|Hr]; [lia|].
  rewrite Forall_forall in Hall. specialize (Hall r Hr).
  unfold ranks_before in Hall. lia.
Qed.



(** The ranking in C3 is determined by the groups: any list that ranks
    them gives the frequent results. *)
Lemma frequent_results_determined (matches : list Match)
    (ranked : list FrequentResult) :
  Permutation ranked (scoreline_groups matches) ->
  StronglySorted (ranks_before matches) ranked ->
  frequentResults (calculateDetailedStats matches) = firstn 4 ranked.
Proof.
  intros Hperm Hsorted.
  destruct (sorted_groups_ranked matches) as [Hp Hs].
  rewrite frequentResults_sorted_groups. f_equal.
  apply (ranking_unique count
           (fun a => first_index (result a) (map scoreline matches))).
  - rewrite Hperm. exact Hp.
  - exact Hs.
  - exact Hsorted.
Qed.

(** X8.  The frequent results name distinct scorelines; each entry counts
    the matches with its scoreline, at least one; the counts together do
    not exceed the number of matches; the list is empty only for the empty
    input; and its first entry is a most frequent scoreline: no scoreline
    of the input occurs more often. *)
Theorem frequent_results_counts (matches : list Match) :
  let fr := frequentResults (calculateDetailedStats matches) in
  NoDup (map result fr)
  /\ (forall r, In r fr ->
        count r = length (filter (has_scoreline (result r)) matches)
        /\ 1 <= count r)
  /\ list_sum (map count fr) <= length matches
  /\ (fr = [] <-> matches = [])
  /\ (forall top rest m, fr = top :: rest -> In m matches ->
        length (filter (has_scoreline (scoreline m)) matches) <= count top).
Proof.
  intros fr. subst fr.
  destruct (frequentResults_facts matches) as [Hnd [Hcount [Hsum [Hnil Htop]]]].
  split; [exact Hnd|]. split; [exact Hcount|]. split; [exact Hsum|].
  split; [exact Hnil|exact Htop].
Qed.

(* ===================================================================== *)
(** * Further properties of the engine and the hook *)
(* ===================================================================== *)

(** ** When a prediction fails *)

(** X9.  A prediction fails only when the table does: if the five queries
    about the two teams resolve, whatever rows or errors they report,
    [predict] resolves; if one of them is rejected, [predict] is rejected
    with its one error message. *)
Theorem predict_fails_only_with_the_table (supabase : Supabase) (now : string)
    (input : PredictionInput) :
  if table_answers supabase input
  then exists output, predict supabase now input = Resolved output
  else predict supabase now input
       = Rejected (ErrorObject "Predikciós hiba történt").
Proof.
  unfold table_answers, predict, prepareFeatures, getTeamFeatures,
    getHeadToHeadFeatures, Promise.try_catch.
  destruct (select_home supabase (input_home_team input)); simpl;
    [|reflexivity].
  destruct (select_away supabase (input_home_team input)); simpl;
    [|reflexivity].
  destruct (select_home supabase (input_away_team input)); simpl;
    [|reflexivity].
  destruct (select_away supabase (input_away_team input)); simpl;
    [|reflexivity].
  destruct (select_between supabase (input_home_team input)
              (input_away_team input)); simpl; [|reflexivity].
  eexists. reflexivity.
Qed.

(** ** What a prediction contains *)

(** X10.  A prediction does not depend on the teams or on their history:
    whenever [predict] resolves, its output is the same triple
    (0.5, 0.25, 0.25) with outcome H and confidence 0.75, tier MEDIUM,
    data quality 0.85, no model explanation and no warning; only the
    timestamp is read from outside. *)
Theorem predict_output_is_fixed (supabase : Supabase) (now : string)
    (input : PredictionInput) (output : PredictionOutput) :
  predict supabase now input = Resolved output ->
  output
  = {| predictions :=
         {| home_win_probability := Fin 0.5%Q;
            draw_probability := Fin 0.25%Q;
            away_win_probability := Fin 0.25%Q;
            most_likely_outcome := OutH;
            confidence_score := Fin 0.75%Q |};
       model_explanations := [];
       prediction_metadata :=
         {| model_version := "v1.0";
            prediction_timestamp := now;
            data_quality_score := Fin 0.85%Q;
            prediction_confidence := MEDIUM;
            warning_flags := [] |} |}.
Proof.
  unfold predict, Promise.try_catch.
  destruct (prepareFeatures supabase now input) as [features|e]; simpl.
  - intros E. injection E as <-. reflexivity.
  - discriminate.
Qed.

(** X11.  The half-time score is not used: a prediction for an input
    updated with a half-time score is the prediction for the input
    itself. *)
Theorem halftime_score_does_not_change_prediction (supabase : Supabase)
    (now : string) (input : PredictionInput) (halftimeScore : HalftimeScore) :
  predict supabase now (with_halftime input halftimeScore)
  = predict supabase now input.
Proof.
  unfold predict, prepareFeatures, with_halftime, Promise.try_catch.
  cbn [input_home_team input_away_team halftime_home_goals halftime_away_goals].
  destruct (getTeamFeatures supabase now (input_home_team input)); simpl;
    [|reflexivity].
  destruct (getTeamFeatures supabase now (input_away_team input)); simpl;
    [|reflexivity].
  destruct (getHeadToHeadFeatures supabase (input_home_team input)
              (input_away_team input)); simpl; reflexivity.
Qed.

(** ** Team features *)

Lemma rate_percent_is_percentage (n len : nat) :
  n <= len -> is_percentage (rate_percent n len).
Proof.
  intros Hle. unfold rate_percent.
  assert (Hnz : Nat.max len 1 <> 0) by lia.
  destruct (count_quotient n Hnz) as [r [-> [Hr0 [Hr1 _]]]].
  specialize (Hr1 ltac:(lia)). cbn [mul]. rewrite binary64_100.
  pose proof (binary64_nonneg Hr0) as Ha0.
  pose proof (binary64_le (x := r) (b := 1%Q) (Qeq_refl _) Hr1) as Ha1.
  eexists. split; [reflexivity|]. split.
  - apply binary64_nonneg. set (a := binary64 r) in *. clearbody a. lra.
  - apply binary64_le; [now rewrite binary64_100|].
    set (a := binary64 r) in *. clearbody a. lra.
Qed.

Lemma guarded_average_nonneg (total len : nat) :
  is_nonneg_finite (guarded_average total len).
Proof.
  unfold guarded_average. destruct len as [|n]; cbn [Nat.ltb Nat.leb].
  - exists 0%Q. split; [reflexivity|lra].
  - assert (Hnz : S n <> 0) by discriminate.
    destruct (count_quotient total Hnz) as [r [-> [Hr0 _]]].
    eexists. split; [reflexivity|]. exact Hr0.
Qed.

(** X12.  Whatever the two queries answer, the rates of the team features
    are finite numbers between 0 and 100 and the goal averages are finite
    and not negative: an empty split gives 0, never NaN. *)
Theorem team_features_bounded (now teamName : string)
    (homeMatches awayMatches : QueryResponse) :
  let f := teamFeaturesOf now teamName homeMatches awayMatches in
  Forall is_percentage (feature_percentages f)
  /\ Forall is_nonneg_finite (feature_averages f)
  /\ total_matches_played (historical_features f)
     = length (or_empty (data homeMatches))
       + length (or_empty (data awayMatches)).
Proof.
  cbn zeta. unfold teamFeaturesOf, feature_percentages, feature_averages.
  cbn [goal_features historical_features btts_percentage_home
       btts_percentage_away clean_sheet_percentage_home
       clean_sheet_percentage_away comeback_ability lead_holding
       hist_home_win_percentage hist_away_win_percentage hist_draw_percentage
       avg_goals_scored_home avg_goals_scored_away avg_goals_conceded_home
       avg_goals_conceded_away total_matches_played].
  split; [|split; [|reflexivity]].
  - repeat constructor;
      try (apply rate_percent_is_percentage; apply filter_length_le).
    exists 50%Q. repeat split; lra.
  - repeat constructor; apply guarded_average_nonneg.
Qed.

(** X13.  A team without rows, whether its queries answer with no rows or
    with an error (null data), gets the neutral features: no form entry,
    no match played, every average and every rate 0, lead holding 50,
    streak 0 of type MIXED. *)
Theorem team_without_history (now teamName : string)
    (homeMatches awayMatches : QueryResponse) :
  or_empty (data homeMatches) = [] ->
  or_empty (data awayMatches) = [] ->
  let f := teamFeaturesOf now teamName homeMatches awayMatches in
  form_features f
  = {| recent_form_home := [];
       recent_form_away := [];
       recent_form_overall := [];
       current_streak := Fin 0%Q;
       streak_type := MIXED;
       momentum_score := Fin 0%Q |}
  /\ total_matches_played (historical_features f) = 0
  /\ Forall (fun x => eqv x (Fin 0%Q)) (feature_averages f)
  /\ Forall (fun x => eqv x (Fin 0%Q))
        [ btts_percentage_home (goal_features f);
          btts_percentage_away (goal_features f);
          clean_sheet_percentage_home (goal_features f);
          clean_sheet_percentage_away (goal_features f);
          comeback_ability (goal_features f);
          hist_home_win_percentage (historical_features f);
          hist_away_win_percentage (historical_features f);
          hist_draw_percentage (historical_features f) ]
  /\ lead_holding (goal_features f) = Fin 50%Q.
Proof.
  intros Hh Ha. cbn zeta. unfold teamFeaturesOf. rewrite Hh, Ha.
  split; [reflexivity|]. split; [reflexivity|].
  split; [|split; [|reflexivity]]; repeat constructor.
Qed.

(** ** Head-to-head features *)

Lemma unit_ratio_of_counts (x total : nat) :
  x <= total -> total <> 0 ->
  is_unit_ratio (div (of_nat x) (of_nat total)).
Proof.
  intros Hle Hnz.
  destruct (count_quotient x Hnz) as [r [-> [Hr0 [Hr1 _]]]].
  eexists. split; [reflexivity|]. split; [exact Hr0|now apply Hr1].
Qed.

(** X14.  Whatever the head-to-head query answers, matches_played is the
    number of rows, the home advantage and the BTTS rate are finite
    numbers between 0 and 1, the average of goals is finite and not
    negative, and the transition matrix is the default one. *)
Theorem head_to_head_features_bounded (homeTeam awayTeam : string)
    (response : QueryResponse) :
  let f := headToHeadFeaturesOf homeTeam awayTeam response in
  matches_played f = length (or_empty (data response))
  /\ is_unit_ratio (home_advantage f)
  /\ is_unit_ratio (btts_rate f)
  /\ is_nonneg_finite (h2h_avg_goals f)
  /\ transition_matrix f = getDefaultTransitionMatrix.
Proof.
  cbn zeta. unfold headToHeadFeaturesOf.
  destruct (data response) as [[|m rest]|]; cbn [or_empty].
  - repeat split; try reflexivity;
      try (exists 0%Q; repeat split; lra).
  - set (rows := m :: rest).
    assert (Hnz : length rows <> 0) by discriminate.
    cbn [matches_played home_advantage btts_rate h2h_avg_goals
         transition_matrix].
    split; [reflexivity|].
    split; [apply unit_ratio_of_counts; [apply filter_length_le|assumption]|].
    split; [apply unit_ratio_of_counts; [apply filter_length_le|assumption]|].
    split; [|reflexivity].
    destruct (count_quotient
                (fold_left
                   (fun sum m0 =>
                      sum + full_time_home_goals m0 + full_time_away_goals m0)
                   rows 0) Hnz) as [r [-> [Hr0 _]]].
    eexists. split; [reflexivity|]. exact Hr0.
  - repeat split; try reflexivity;
      try (exists 0%Q; repeat split; lra).
Qed.

Lemma wins_and_draws_partition (teamA teamB : string) (rows : list Match) :
  teamA <> teamB ->
  Forall (is_between teamA teamB) rows ->
  length (filter (fun m =>
            (String.eqb (home_team m) teamA
               && Outcome_eqb (result_computed m) OutH)
            || (String.eqb (away_team m) teamA
                  && Outcome_eqb (result_computed m) OutA)) rows)
  + length (filter (fun m =>
              (String.eqb (home_team m) teamB
                 && Outcome_eqb (result_computed m) OutH)
              || (String.eqb (away_team m) teamB
                    && Outcome_eqb (result_computed m) OutA)) rows)
  + length (filter (fun m => Outcome_eqb (result_computed m) OutD) rows)
  = length rows.
Proof.
  intros Hne Hall. induction Hall as [|m rest Hm Hrest IH]; [reflexivity|].
  simpl.
  assert (Hab : String.eqb teamA teamB = false) by now apply String.eqb_neq.
  assert (Hba : String.eqb teamB teamA = false)
    by (apply String.eqb_neq; congruence).
  destruct Hm as [[-> ->]|[-> ->]];
    rewrite ?String.eqb_refl, ?Hab, ?Hba;
    destruct (result_computed m); simpl; lia.
Qed.

(** X15.  Over the same rows, all of them meetings of two different
    teams, the home advantage computed for one team as home and the one
    computed for the other team as home are the two teams' shares of wins:
    together with the share of draws they add up to 1, up to 10^-14 (each
    is a quotient of two counts rounded to binary64). *)
Theorem home_advantages_are_shares (teamA teamB : string) (rows : list Match) :
  teamA <> teamB ->
  rows <> [] ->
  Forall (is_between teamA teamB) rows ->
  exists a b : Q,
    home_advantage (headToHeadFeaturesOf teamA teamB {| data := Some rows |})
    = Fin a
    /\ home_advantage (headToHeadFeaturesOf teamB teamA {| data := Some rows |})
       = Fin b
    /\ (Qabs (a + b
              + inject_Z (Z.of_nat
                  (length (filter (fun m => Outcome_eqb (result_computed m) OutD)
                             rows)))
                / inject_Z (Z.of_nat (length rows))
              - 1)
        <= 1 # 10 ^ 14)%Q.
Proof.
  intros Hne Hrows Hall.
  pose proof (wins_and_draws_partition Hne Hall) as Hpart.
  unfold headToHeadFeaturesOf. cbn [data].
  destruct rows as [|m rest] eqn:E; [contradiction|]. rewrite <- E in *.
  assert (Hnz : length rows <> 0) by (subst; discriminate).
  cbn [home_advantage].
  set (wa := length (filter _ rows)) in *.
  set (wb := length (filter (fun m =>
                (String.eqb (home_team m) teamB
                   && Outcome_eqb (result_computed m) OutH)
                || (String.eqb (away_team m) teamB
                      && Outcome_eqb (result_computed m) OutA)) rows)) in *.
  set (dr := length (filter (fun m => Outcome_eqb (result_computed m) OutD)
                       rows)) in *.
  destruct (count_quotient wa Hnz) as [a [-> [_ [_ Ea]]]].
  destruct (count_quotient wb Hnz) as [b [-> [_ [_ Eb]]]].
  exists a, b. split; [reflexivity|]. split; [reflexivity|].
  assert (Hq : (inject_Z (Z.of_nat wa) + inject_Z (Z.of_nat wb)
                + inject_Z (Z.of_nat dr)
                == inject_Z (Z.of_nat (length rows)))%Q).
  { rewrite <- !inject_Z_plus, <- !Nat2Z.inj_add, Hpart. reflexivity. }
  assert (Hn : ~ (inject_Z (Z.of_nat (length rows)) == 0)%Q).
  { intros E0. apply Qeq_bool_iff in E0.
    rewrite inject_nat_nonzero in E0 by assumption. discriminate. }
  pose proof (nat_ratio_nonneg wa (length rows)) as Ha0.
  pose proof (nat_ratio_nonneg wb (length rows)) as Hb0.
  pose proof (nat_ratio_nonneg dr (length rows)) as Hd0.
  assert (Ex : (inject_Z (Z.of_nat wa) / inject_Z (Z.of_nat (length rows))
                + inject_Z (Z.of_nat wb) / inject_Z (Z.of_nat (length rows))
                + inject_Z (Z.of_nat dr) / inject_Z (Z.of_nat (length rows))
                == 1)%Q).
  { set (qa := inject_Z (Z.of_nat wa)) in *.
    set (qb := inject_Z (Z.of_nat wb)) in *.
    set (qd := inject_Z (Z.of_nat dr)) in *.
    set (qn := inject_Z (Z.of_nat (length rows))) in *.
    clearbody qa qb qd qn.
    assert (Ex : (qa / qn + qb / qn + qd / qn == (qa + qb + qd) / qn)%Q)
      by (field; assumption).
    rewrite Ex, Hq. field. assumption. }
  apply Qabs_Qle_condition in Ea, Eb. apply Qabs_Qle_condition.
  change (5 # 2 ^ 53)%Q with (5 # 9007199254740992)%Q in *.
  change (1 # 10 ^ 14)%Q with (1 # 100000000000000)%Q.
  set (xa := (inject_Z (Z.of_nat wa) / inject_Z (Z.of_nat (length rows)))%Q) in *.
  set (xb := (inject_Z (Z.of_nat wb) / inject_Z (Z.of_nat (length rows)))%Q) in *.
  set (xd := (inject_Z (Z.of_nat dr) / inject_Z (Z.of_nat (length rows)))%Q) in *.
  clearbody xa xb xd. destruct Ea, Eb. split; lra.
Qed.

(** ** Single predictions *)

(** X16.  predictMatch ends with the loading flag off and one more toast.
    When the prediction succeeds it is returned and stored, and the error
    is cleared; when it fails, null is returned, the error holds the one
    error message, and the prediction stored before stays as it was. *)
Theorem predictMatch_outcome (supabase : Supabase) (now : string)
    (input : PredictionInput) (st : HookState) :
  let returned := fst (predictMatch supabase now input st) in
  let st' := snd (predictMatch supabase now input st) in
  isLoading st' = false
  /\ length (toasts st') = S (length (toasts st))
  /\ match predict supabase now input with
     | Resolved output =>
         returned = Some output
         /\ prediction st' = Some output
         /\ error st' = None
     | Rejected _ =>
         returned = None
         /\ prediction st' = prediction st
         /\ error st' = Some "Predikciós hiba történt"%string
     end.
Proof.
  cbn zeta. unfold predictMatch, engine_predict.
  destruct (predict supabase now input) as [output|reason] eqn:E;
    cbn [fst snd].
  - repeat split; reflexivity.
  - apply predict_rejection in E. subst reason.
    repeat split; reflexivity.
Qed.

(** X17.  predictBatch never touches the stored single prediction and
    shows exactly one toast.  The empty batch succeeds: it returns the
    empty list with no error and announces 0 predictions, so that the
    returned list alone does not tell an empty batch from a failed one. *)
Theorem predictBatch_effects (supabase : Supabase) (now : string)
    (inputs : list PredictionInput) (st : HookState) :
  let st' := snd (predictBatch supabase now inputs st) in
  prediction st' = prediction st
  /\ (exists shown, toasts st' = shown :: toasts st)
  /\ predictBatch supabase now [] st
     = ([],
        {| isLoading := false;
           prediction := prediction st;
           error := None;
           toasts :=
             {| title := "Batch predikció kész";
                toast_description := "0 mérkőzés előrejelzése elkészült";
                variant := None |} :: toasts st |}).
Proof.
  cbn zeta. unfold predictBatch.
  destruct (Promise.all (map (engine_predict supabase now) inputs));
    cbn [fst snd]; repeat split; try reflexivity; eexists; reflexivity.
Qed.

(** ** The quality of a prediction *)



(** X19.  The engine and the hook grade the same prediction differently,
    and always the same way: every prediction the engine resolves carries
    the tier MEDIUM and is assessed GOOD by the hook. *)
Theorem resolved_predictions_are_medium_and_good (supabase : Supabase)
    (now : string) (input : PredictionInput) (output : PredictionOutput) :
  predict supabase now input = Resolved output ->
  prediction_confidence (prediction_metadata output) = MEDIUM
  /\ level (assessPredictionQuality output) = GOOD.
Proof.
  unfold predict, Promise.try_catch.
  destruct (prepareFeatures supabase now input) as [features|e]; simpl.
  - intros E. injection E as <-. split; reflexivity.
  - discriminate.
Qed.

(** ** Trends *)

Lemma max2_fin (x y : Q) :
  exists M : Q,
    max2 (Fin x) (Fin y) = Fin M
    /\ (x <= M)%Q /\ (y <= M)%Q /\ (M = x \/ M = y).
Proof.
  unfold max2. destruct (Qle_bool x y) eqn:E.
  - apply Qle_bool_iff in E. exists y. repeat split; auto; lra.
  - apply Qle_bool_false in E. exists x. repeat split; auto; lra.
Qed.

Lemma min2_fin (x y : Q) :
  exists m : Q,
    min2 (Fin x) (Fin y) = Fin m
    /\ (m <= x)%Q /\ (m <= y)%Q /\ (m = x \/ m = y).
Proof.
  unfold min2. destruct (Qle_bool x y) eqn:E.
  - apply Qle_bool_iff in E. exists x. repeat split; auto; lra.
  - apply Qle_bool_false in E. exists y. repeat split; auto; lra.
Qed.

Lemma max3_fin (h d a : Q) :
  exists M : Q,
    max3 (Fin h) (Fin d) (Fin a) = Fin M
    /\ (h <= M)%Q /\ (d <= M)%Q /\ (a <= M)%Q
    /\ (M = h \/ M = d \/ M = a).
Proof.
  unfold max3.
  destruct (max2_fin h d) as [M1 [E1 [H1 [H2 H3]]]]. rewrite E1.
  destruct (max2_fin M1 a) as [M [E [H4 [H5 H6]]]]. rewrite E.
  exists M. split; [reflexivity|].
  repeat split; try lra.
  destruct H6 as [->| ->]; [destruct H3 as [->| ->]|]; tauto.
Qed.

Lemma min3_fin (h d a : Q) :
  exists m : Q,
    min3 (Fin h) (Fin d) (Fin a) = Fin m
    /\ (m <= h)%Q /\ (m <= d)%Q /\ (m <= a)%Q
    /\ (m = h \/ m = d \/ m = a).
Proof.
  unfold min3.
  destruct (min2_fin h d) as [m1 [E1 [H1 [H2 H3]]]]. rewrite E1.
  destruct (min2_fin m1 a) as [m [E [H4 [H5 H6]]]]. rewrite E.
  exists m. split; [reflexivity|].
  repeat split; try lra.
  destruct H6 as [->| ->]; [destruct H3 as [->| ->]|]; tauto.
Qed.

(** X20.  For a prediction whose three probabilities are finite and add
    up to 1, the grades of analyzeTrends agree with each other: a close
    match has certainty LOW, and a low surprise factor (every outcome above
    0.25) excludes the certainty HIGH. *)
Theorem trend_grades_agree (output : PredictionOutput) (h d a : Q) :
  home_win_probability (predictions output) = Fin h ->
  draw_probability (predictions output) = Fin d ->
  away_win_probability (predictions output) = Fin a ->
  (h + d + a == 1)%Q ->
  let t := analyzeTrends output in
  (isCloseMatch t = true -> certaintyLevel t = LOW)
  /\ (surpriseFactor t = LOW -> certaintyLevel t <> HIGH)
  /\ dominantOutcome t = most_likely_outcome (predictions output).
Proof.
  intros Hh Hd Ha Hsum. cbn zeta. unfold analyzeTrends.
  rewrite Hh, Hd, Ha.
  destruct (max3_fin h d a) as [M [EM [M1 [M2 [M3 Mis]]]]].
  destruct (min3_fin h d a) as [m [Em [m1 [m2 [m3 mis]]]]].
  rewrite EM, Em.
  cbn [certaintyLevel isCloseMatch surpriseFactor dominantOutcome sub gtb ltb
       double].
  set (spread := binary64 (binary64 M - binary64 m)).
  assert (H15 : (binary64 0.15 <= binary64 0.2)%Q)
    by (apply binary64_mono; discriminate).
  assert (H20 : (binary64 0.2 <= binary64 0.4)%Q)
    by (apply binary64_mono; discriminate).
  assert (H25 : (binary64 (1 # 4) <= binary64 0.4)%Q)
    by (apply binary64_mono; discriminate).
  split; [|split; [|reflexivity]].
  - intros Hclose. apply negb_true_iff in Hclose.
    apply Qle_bool_false in Hclose.
    destruct (Qle_bool spread (binary64 0.4)) eqn:E4;
      [|apply Qle_bool_false in E4;
        set (c15 := binary64 0.15) in *; set (c20 := binary64 0.2) in *;
        set (c40 := binary64 0.4) in *; clearbody spread c15 c20 c40; lra].
    destruct (Qle_bool spread (binary64 0.2)) eqn:E2;
      [|apply Qle_bool_false in E2;
        set (c15 := binary64 0.15) in *; set (c20 := binary64 0.2) in *;
        clearbody spread c15 c20; lra].
    reflexivity.
  - destruct (Qle_bool m 0.25) eqn:E25; simpl; [discriminate|].
    apply Qle_bool_false in E25. intros _.
    assert (HM : (M <= 1 # 2)%Q) by (destruct Mis as [->|[->| ->]]; lra).
    assert (Hm : (1 # 4 <= m)%Q) by lra.
    apply binary64_mono in HM, Hm.
    change (binary64 (1 # 2)) with (1 # 2)%Q in HM.
    assert (Hs : (spread <= binary64 (1 # 4))%Q).
    { apply binary64_mono.
      change (binary64 (1 # 4)) with (1 # 4)%Q in Hm.
      set (bM := binary64 M) in *. set (bm := binary64 m) in *.
      clearbody bM bm. lra. }
    assert (E4 : Qle_bool spread (binary64 0.4) = true).
    { apply Qle_bool_iff. eapply Qle_trans; eassumption. }
    rewrite E4. simpl. destruct (Qle_bool spread (binary64 0.2)); discriminate.
Qed.

(* ===================================================================== *)
(** * Properties of the components *)
(* ===================================================================== *)

(** ** The pie chart of frequent results *)

(** X21.  Fed with the detailed statistics of a list of matches, the
    chart component shows its "not enough data" message exactly for the
    empty list; otherwise the chart gets one label per value, no more
    values than it has colours, labels that are all different, values of
    at least 1, and values that together do not exceed the number of
    matches. *)
Theorem chart_data_of_statistics (matches : list Match) :
  match FrequentResultsChart_chartData (calculateDetailedStats matches) with
  | None => matches = []
  | Some chart =>
      matches <> []
      /\ length (labels chart) = length (values chart)
      /\ length (values chart) <= length (colors chart)
      /\ NoDup (labels chart)
      /\ Forall (fun v => 1 <= v) (values chart)
      /\ list_sum (values chart) <= length matches
  end.
Proof.
  unfold FrequentResultsChart_chartData.
  destruct (frequentResults_facts matches)
    as [Hnd [Hcount [Hsum [Hnil _]]]]. cbn zeta in *.
  pose proof (firstn_le_length 4
                (array_sort
                   (fun a b => (Z.of_nat (count b) - Z.of_nat (count a))%Z)
                   (scoreline_groups matches))) as Hlen.
  rewrite <- frequentResults_sorted_groups in Hlen.
  destruct (frequentResults (calculateDetailedStats matches)) as [|r rest] eqn:E.
  - simpl. now apply Hnil.
  - cbn [length Nat.eqb labels values colors].
    split; [intros ->; discriminate E|].
    split; [now rewrite !length_map|].
    split; [rewrite length_map; exact Hlen|].
    split; [exact Hnd|]. split; [|exact Hsum].
    apply Forall_forall. intros v Hv. apply in_map_iff in Hv.
    destruct Hv as [x [<- Hx]]. now apply Hcount.
Qed.

(** ** The half-time block of the statistics card *)

(** X22.  The card shows its half-time block only when no home side and
    at least one away side has led at half-time.  As soon as a home side
    has led the block is hidden, so the percentage of home leads held is
    never shown. *)
Theorem half_time_block_hidden_by_home_leads (stats : DetailedMatchStats) :
  match DetailedStatsCard_halfTimeBlock stats with
  | None =>
      0 < ht_home_leads (halfTimeAnalysis stats)
      \/ ht_away_leads (halfTimeAnalysis stats) = 0
  | Some block =>
      ht_home_leads (halfTimeAnalysis stats) = 0
      /\ 0 < ht_away_leads (halfTimeAnalysis stats)
      /\ shown_home_leads block = 0
      /\ shown_home_hold block = None
      /\ shown_away_hold block
         = Some (away_lead_hold_percentage (halfTimeAnalysis stats))
  end.
Proof.
  unfold DetailedStatsCard_halfTimeBlock.
  destruct (ht_home_leads (halfTimeAnalysis stats)) as [|h] eqn:Eh;
    cbn [Nat.ltb Nat.leb].
  - destruct (ht_away_leads (halfTimeAnalysis stats)) as [|a] eqn:Ea;
      cbn [Nat.ltb Nat.leb].
    + now right.
    + cbn [shown_home_leads shown_home_hold shown_away_hold].
      repeat split; lia.
  - left. lia.
Qed.

(** ** The statistics of the chosen pairs *)



Lemma statsRowOf_match
    (select_pair : string -> string -> Promise PairResponse)
    (m : PredictedMatch) :
  row_match (statsRowOf select_pair m) = m.
Proof.
  unfold statsRowOf.
  destruct (select_pair (slot_home_team m) (slot_away_team m))
    as [response|reason]; [|reflexivity].
  destruct (pair_error response); [reflexivity|].
  destruct (pair_data response) as [[|first others]|]; reflexivity.
Qed.

(** X24.  runPredictions isolates failures: with at least one complete
    pair it stores one row per complete pair, in the order of the slots,
    whether the queries succeed or fail, and ends with the loading flag
    off; with no complete pair it keeps the rows it had and only shows a
    toast. *)
Theorem runPredictions_rows
    (select_pair : string -> string -> Promise PairResponse)
    (st : ModalState) :
  let validMatches :=
    filter (fun m => truthy (slot_home_team m) && truthy (slot_away_team m))
      (selectedMatches st) in
  let st' := runPredictions select_pair st in
  selectedMatches st' = selectedMatches st
  /\ length (modal_toasts st') = S (length (modal_toasts st))
  /\ match validMatches with
     | [] =>
         modal_predictions st' = modal_predictions st
         /\ loading st' = loading st
     | _ :: _ =>
         map row_match (modal_predictions st') = validMatches
         /\ loading st' = false
     end.
Proof.
  cbn zeta. unfold runPredictions.
  destruct (filter _ (selectedMatches st)) as [|m rest] eqn:E;
    cbn [length Nat.eqb selectedMatches modal_toasts modal_predictions loading].
  - repeat split; reflexivity.
  - split; [reflexivity|]. split; [reflexivity|]. split; [|reflexivity].
    rewrite map_map.
    rewrite (map_ext _ (fun m => m)) by (intros; apply statsRowOf_match).
    apply map_id.
Qed.

(** ** Choosing teams *)

Lemma NoDup_app_inv (A : Type) (l1 l2 : list A) :
  NoDup (l1 ++ l2) ->
  NoDup l1 /\ NoDup l2 /\ (forall a, In a l1 -> ~ In a l2).
Proof.
  intros Hnd. split; [now apply NoDup_app_remove_r in Hnd|].
  split; [now apply NoDup_app_remove_l in Hnd|].
  induction l1 as [|x l1 IH]; simpl in *; [tauto|].
  apply NoDup_cons_iff in Hnd. destruct Hnd as [Hnotin Hnd].
  intros a [->|Ha] Hin2.
  - apply Hnotin. apply in_or_app. now right.
  - now apply (IH Hnd a).
Qed.

Lemma set_add_In (x y : string) (s : list string) :
  In x (set_add y s) <-> x = y \/ In x s.
Proof.
  unfold set_add. destruct (existsb (String.eqb y) s) eqn:E.
  - apply existsb_eqb_In in E. split; [tauto|]. intros [->|H]; assumption.
  - rewrite in_app_iff. simpl. intuition congruence.
Qed.

Lemma chosen_teams_cons (m : PredictedMatch) (rest : list PredictedMatch) :
  chosen_teams (m :: rest)
  = filter truthy [slot_home_team m; slot_away_team m] ++ chosen_teams rest.
Proof.
  unfold chosen_teams. simpl flat_map.
  change (slot_home_team m :: slot_away_team m :: flat_map _ rest)
    with ([slot_home_team m; slot_away_team m]
            ++ flat_map (fun m => [slot_home_team m; slot_away_team m]) rest).
  apply filter_app.
Qed.

Lemma In_pair (x a b : string) :
  In x (filter truthy [a; b]) <-> truthy x = true /\ (x = a \/ x = b).
Proof.
  rewrite filter_In. simpl. intuition congruence.
Qed.

Lemma In_slot_teams (x : string) (m : PredictedMatch) :
  In x (filter truthy [slot_home_team m; slot_away_team m])
  <-> truthy x = true /\ (x = slot_home_team m \/ x = slot_away_team m).
Proof.
  apply In_pair.
Qed.

Lemma NoDup_pair (a b : string) :
  (truthy a = true -> truthy b = true -> a <> b) ->
  NoDup (filter truthy [a; b]).
Proof.
  intros Hne. simpl.
  destruct (truthy a) eqn:Ea; destruct (truthy b) eqn:Eb;
    repeat constructor; simpl; intuition.
Qed.

Lemma used_teams_from (selectedMatches : list PredictedMatch)
    (used : list string) (x : string) :
  In x (fold_left
          (fun used m =>
             let used :=
               if truthy (slot_home_team m)
               then set_add (slot_home_team m) used else used in
             if truthy (slot_away_team m)
             then set_add (slot_away_team m) used else used)
          selectedMatches used)
  <-> In x used \/ In x (chosen_teams selectedMatches).
Proof.
  revert used. induction selectedMatches as [|m rest IH]; intros used.
  - simpl. unfold chosen_teams. simpl. tauto.
  - simpl fold_left. rewrite IH, chosen_teams_cons, in_app_iff, In_slot_teams.
    cbn zeta.
    destruct (truthy (slot_home_team m)) eqn:Eh;
      destruct (truthy (slot_away_team m)) eqn:Ea;
      rewrite ?set_add_In; intuition (subst; try congruence; auto).
Qed.

(** The used teams are the chosen ones. *)
Lemma used_teams_chosen (selectedMatches : list PredictedMatch) (x : string) :
  set_has x (getUsedTeams selectedMatches) = true
  <-> In x (chosen_teams selectedMatches).
Proof.
  unfold set_has, getUsedTeams.
  rewrite existsb_eqb_In, used_teams_from. simpl. tauto.
Qed.

Lemma slot_eta (m : PredictedMatch) :
  {| slot_id := slot_id m; slot_home_team := slot_home_team m;
     slot_away_team := slot_away_team m |} = m.
Proof.
  now destruct m.
Qed.

Lemma slot_by_id (selectedMatches : list PredictedMatch)
    (m m' : PredictedMatch) :
  NoDup (map slot_id selectedMatches) ->
  In m selectedMatches -> In m' selectedMatches ->
  slot_id m = slot_id m' -> m = m'.
Proof.
  induction selectedMatches as [|m0 rest IH]; simpl; [tauto|].
  intros Hnd Hm Hm' Hid. apply NoDup_cons_iff in Hnd.
  destruct Hnd as [Hnotin Hnd].
  destruct Hm as [->|Hm]; destruct Hm' as [->|Hm'].
  - reflexivity.
  - exfalso. apply Hnotin. rewrite Hid. now apply in_map.
  - exfalso. apply Hnotin. rewrite <- Hid. now apply in_map.
  - now apply IH.
Qed.

Lemma updateMatch_ids (matchId : nat) (side : Side) (team : string)
    (prev : list PredictedMatch) :
  map slot_id (updateMatch matchId side team prev) = map slot_id prev.
Proof.
  unfold updateMatch. rewrite map_map. apply map_ext.
  intros m. destruct (slot_id m =? matchId); [destruct side|]; reflexivity.
Qed.

Lemma updateMatch_other_id (matchId : nat) (side : Side) (team : string)
    (prev : list PredictedMatch) :
  ~ In matchId (map slot_id prev) ->
  updateMatch matchId side team prev = prev.
Proof.
  intros Hnot. unfold updateMatch.
  rewrite <- (map_id prev) at 2. apply map_ext_in. intros m Hm.
  destruct (Nat.eqb_spec (slot_id m) matchId) as [E|E]; [|reflexivity].
  exfalso. apply Hnot. rewrite <- E. now apply in_map.
Qed.

Lemma updateMatch_fresh (matchId : nat) (side : Side) (team : string)
    (prev : list PredictedMatch) :
  ~ In team (chosen_teams prev) ->
  NoDup (map slot_id prev) ->
  NoDup (chosen_teams prev) ->
  NoDup (chosen_teams (updateMatch matchId side team prev))
  /\ (forall x, In x (chosen_teams (updateMatch matchId side team prev)) ->
                x = team \/ In x (chosen_teams prev)).
Proof.
  induction prev as [|m rest IH]; intros Hfresh Hids Hnd.
  - split; [constructor|]. simpl. unfold chosen_teams. simpl. tauto.
  - simpl in Hids. apply NoDup_cons_iff in Hids. destruct Hids as [Hid Hids].
    rewrite chosen_teams_cons in Hfresh, Hnd.
    apply NoDup_app_inv in Hnd. destruct Hnd as [Hm [Hrest Hdisj]].
    rewrite in_app_iff in Hfresh.
    assert (Hfresh_m : ~ In team (filter truthy
                                    [slot_home_team m; slot_away_team m]))
      by tauto.
    assert (Hfresh_rest : ~ In team (chosen_teams rest)) by tauto.
    rewrite In_pair in Hfresh_m.
    simpl updateMatch.
    change (map _ rest) with (updateMatch matchId side team rest).
    destruct (Nat.eqb_spec (slot_id m) matchId) as [E|E].
    + subst matchId.
      rewrite (updateMatch_other_id (slot_id m) side team rest Hid).
      rewrite chosen_teams_cons.
      destruct side; cbn [slot_home_team slot_away_team].
      * split.
        -- apply NoDup_app; [|assumption|].
           ++ apply NoDup_pair. intros Ht Ha Heq. apply Hfresh_m. auto.
           ++ intros a Ha Hin. apply In_pair in Ha.
              destruct Ha as [Ht [->| ->]]; [contradiction|].
              apply (Hdisj (slot_away_team m)); [|assumption].
              apply In_pair. auto.
        -- intros x Hx. rewrite chosen_teams_cons, in_app_iff.
           rewrite in_app_iff, In_pair in Hx. rewrite In_pair.
           intuition.
      * split.
        -- apply NoDup_app; [|assumption|].
           ++ apply NoDup_pair. intros Hh Ht Heq. apply Hfresh_m. auto.
           ++ intros a Ha Hin. apply In_pair in Ha.
              destruct Ha as [Ht [->| ->]]; [|contradiction].
              apply (Hdisj (slot_home_team m)); [|assumption].
              apply In_pair. auto.
        -- intros x Hx. rewrite chosen_teams_cons, in_app_iff.
           rewrite in_app_iff, In_pair in Hx. rewrite In_pair.
           intuition.
    + destruct (IH Hfresh_rest Hids Hrest) as [IHnd IHin].
      rewrite !chosen_teams_cons. split.
      * apply NoDup_app; [assumption|assumption|].
        intros a Ha Hin. destruct (IHin a Hin) as [->|Hin'].
        -- apply Hfresh_m. now apply In_pair.
        -- now apply (Hdisj a).
      * intros x Hx. rewrite in_app_iff in Hx. rewrite in_app_iff.
        destruct Hx as [Hx|Hx]; [tauto|].
        destruct (IHin x Hx); tauto.
Qed.

Lemma updateMatch_same_choice (matchId : nat) (side : Side) (team : string)
    (prev : list PredictedMatch) (current : PredictedMatch) :
  NoDup (map slot_id prev) ->
  find (fun m => slot_id m =? matchId) prev = Some current ->
  team = match side with
         | SideHome => slot_home_team current
         | SideAway => slot_away_team current
         end ->
  updateMatch matchId side team prev = prev.
Proof.
  intros Hids Hfind Hteam. apply find_some in Hfind.
  destruct Hfind as [Hin Hid]. apply Nat.eqb_eq in Hid.
  unfold updateMatch. rewrite <- (map_id prev) at 2.
  apply map_ext_in. intros m Hm.
  destruct (Nat.eqb_spec (slot_id m) matchId) as [E|E]; [|reflexivity].
  assert (m = current) by (apply (slot_by_id prev); congruence).
  subst m team. destruct side; apply slot_eta.
Qed.

Lemma clearMatch_chosen (matchId : nat) (prev : list PredictedMatch) :
  NoDup (chosen_teams prev) ->
  NoDup (chosen_teams (clearMatch matchId prev))
  /\ (forall x, In x (chosen_teams (clearMatch matchId prev)) ->
                In x (chosen_teams prev)).
Proof.
  induction prev as [|m rest IH]; intros Hnd.
  - split; [constructor|]. simpl. tauto.
  - rewrite chosen_teams_cons in Hnd. apply NoDup_app_inv in Hnd.
    destruct Hnd as [Hm [Hrest Hdisj]].
    destruct (IH Hrest) as [IHnd IHin].
    simpl clearMatch.
    change (map _ rest) with (clearMatch matchId rest).
    destruct (slot_id m =? matchId); rewrite !chosen_teams_cons.
    + cbn [slot_home_team slot_away_team]. simpl filter. simpl app.
      split; [assumption|]. intros x Hx. apply in_or_app. right. auto.
    + split.
      * apply NoDup_app; [assumption|assumption|].
        intros a Ha Hin. apply (Hdisj a Ha). auto.
      * intros x Hx. rewrite in_app_iff in *. destruct Hx; auto.
Qed.

Lemma clearMatch_ids (matchId : nat) (prev : list PredictedMatch) :
  map slot_id (clearMatch matchId prev) = map slot_id prev.
Proof.
  unfold clearMatch. rewrite map_map. apply map_ext.
  intros m. destruct (slot_id m =? matchId); reflexivity.
Qed.

(** X25.  The slots stay consistent.  If the slots have different ids and
    no team is chosen twice, then putting a team that getAvailableTeams
    offers for a slot and a side into that place, or clearing a slot,
    leaves the slots with different ids and no team chosen twice. *)
Theorem choosing_available_teams_keeps_slots_consistent (teams : list string)
    (selected : list PredictedMatch) (matchId : nat) (side : Side)
    (team : string) :
  slots_consistent selected ->
  In team (getAvailableTeams teams selected matchId side) ->
  slots_consistent (updateMatch matchId side team selected)
  /\ slots_consistent (clearMatch matchId selected).
Proof.
  intros [Hids Hnd] Havailable. split.
  - unfold getAvailableTeams in Havailable.
    apply filter_In in Havailable. destruct Havailable as [_ Hcond].
    destruct (set_has team (getUsedTeams selected)) eqn:Eused.
    + assert (Hsame : updateMatch matchId side team selected = selected).
      { destruct (find (fun m => slot_id m =? matchId) selected)
          as [current|] eqn:Efind.
        - apply updateMatch_same_choice with (current := current);
            [assumption|assumption|].
          destruct side; simpl in Hcond; now apply String.eqb_eq in Hcond.
        - destruct side; discriminate Hcond. }
      rewrite Hsame. now split.
    + assert (Hfresh : ~ In team (chosen_teams selected)).
      { intros Hin. apply used_teams_chosen in Hin. congruence. }
      split; [now rewrite updateMatch_ids|].
      now apply updateMatch_fresh.
  - split; [now rewrite clearMatch_ids|].
    now apply clearMatch_chosen.
Qed.

Lemma emptyMatches_consistent : slots_consistent emptyMatches.
Proof.
  split.
  - repeat constructor; simpl; intuition discriminate.
  - constructor.
Qed.

Lemma choosing_available_teams_keeps_slots_consistent_witness :
  slots_consistent emptyMatches
  /\ In "Arsenal"%string
       (getAvailableTeams ["Arsenal"; "Chelsea"]%string emptyMatches 1 SideHome)
  /\ slots_consistent (updateMatch 1 SideHome "Arsenal" emptyMatches)
  /\ slots_consistent (clearMatch 1 emptyMatches).
Proof.
  assert (Hin : In "Arsenal"%string
                  (getAvailableTeams ["Arsenal"; "Chelsea"]%string
                     emptyMatches 1 SideHome))
    by (vm_compute; auto).
  split; [exact emptyMatches_consistent|]. split; [exact Hin|].
  exact (@choosing_available_teams_keeps_slots_consistent
           ["Arsenal"; "Chelsea"]%string emptyMatches 1 SideHome "Arsenal"
           emptyMatches_consistent Hin).
Defined.

(** ** The modal of coming matches *)

Lemma filter_length_partition3 (A : Type) (f g h k : A -> bool) (l : list A) :
  (forall x, Nat.b2n (f x) + Nat.b2n (g x) + Nat.b2n (h x) = Nat.b2n (k x)) ->
  length (filter f l) + length (filter g l) + length (filter h l)
  = length (filter k l).
Proof.
  intros Hx. induction l as [|a rest IH]; [reflexivity|].
  simpl. specialize (Hx a).
  destruct (f a); destruct (g a); destruct (h a); destruct (k a);
    simpl in *; lia.
Qed.

(** X26.  The three counts of getConfidenceStats never count a prediction
    twice, and together they count every prediction whose confidence is a
    number: a prediction with a NaN confidence is in none of them. *)
Theorem confidence_stats_partition (shown : list PredictionOutput) :
  let stats := getConfidenceStats shown in
  high stats + medium stats + low stats
  = length (filter (fun p => negb (is_nan (confidence_score (predictions p))))
              shown).
Proof.
  cbn zeta. unfold getConfidenceStats. cbn [high medium low].
  apply filter_length_partition3. intros p.
  destruct (confidence_score (predictions p)) as [q| | |]; cbn; try reflexivity.
  destruct (Qle_bool 0.75 q) eqn:E75; destruct (Qle_bool 0.55 q) eqn:E55;
    simpl; try reflexivity.
  apply Qle_bool_iff in E75. apply Qle_bool_false in E55. lra.
Qed.



(** Whether a prediction resolves is decided by the five queries. *)
Lemma predict_resolved_by_table (supabase : Supabase) (now : string)
    (input : PredictionInput) :
  is_resolved (predict supabase now input) = table_answers supabase input.
Proof.
  unfold table_answers, predict, prepareFeatures, getTeamFeatures,
    getHeadToHeadFeatures, Promise.try_catch.
  destruct (select_home supabase (input_home_team input)); simpl;
    [|reflexivity].
  destruct (select_away supabase (input_home_team input)); simpl;
    [|reflexivity].
  destruct (select_home supabase (input_away_team input)); simpl;
    [|reflexivity].
  destruct (select_away supabase (input_away_team input)); simpl;
    [|reflexivity].
  destruct (select_between supabase (input_home_team input)
              (input_away_team input)); simpl; reflexivity.
Qed.

Lemma forallb_pointwise (A : Type) (f g : A -> bool) (l : list A) :
  (forall a, f a = g a) -> forallb f l = forallb g l.
Proof.
  intros E. induction l as [|a rest IH]; [reflexivity|].
  simpl. now rewrite E, IH.
Qed.

Lemma all_resolved_iff (A B : Type) (f : A -> Promise B) (l : list A) :
  is_resolved (Promise.all (map f l)) = forallb (fun a => is_resolved (f a)) l.
Proof.
  induction l as [|a rest IH]; [reflexivity|]. simpl.
  destruct (f a) as [b|e]; simpl; [|reflexivity].
  rewrite <- IH. destruct (Promise.all (map f rest)); reflexivity.
Qed.

(** X28.  The modal of coming matches shows eight predictions or none.
    When the table answers the queries about all sixteen teams, the eight
    predictions all carry the modal's badge for high confidence, although
    the engine gave each of them the tier MEDIUM; when some query is
    rejected, there is no prediction to show and the three counts are 0. *)
Theorem upcoming_predictions_are_all_high (supabase : Supabase) (now : string)
    (st : HookState) :
  let shown := fst (predictUpcomingMatches supabase now st) in
  let stats := getConfidenceStats shown in
  if forallb (table_answers supabase) getUpcomingMatches
  then length shown = 8
       /\ high stats = 8 /\ medium stats = 0 /\ low stats = 0
       /\ Forall (fun p =>
                    badge_level (PredictionModal_getConfidenceLevel p)
                    = "Magas"%string
                    /\ prediction_confidence (prediction_metadata p) = MEDIUM)
            shown
  else shown = []
       /\ high stats = 0 /\ medium stats = 0 /\ low stats = 0.
Proof.
  cbn zeta. unfold predictUpcomingMatches, predictBatch.
  rewrite <- (@forallb_pointwise _
                (fun a => is_resolved (engine_predict supabase now a))
                (table_answers supabase) getUpcomingMatches
                (predict_resolved_by_table supabase now)).
  rewrite <- (all_resolved_iff (engine_predict supabase now) getUpcomingMatches).
  destruct (Promise.all (map (engine_predict supabase now) getUpcomingMatches))
    as [results|reason] eqn:Eall; cbn [fst is_resolved].
  - apply all_resolved in Eall.
    assert (Hfixed : Forall (fun p =>
              confidence_score (predictions p) = Fin 0.75%Q
              /\ prediction_confidence (prediction_metadata p) = MEDIUM)
              results).
    { clear -Eall. induction Eall as [|input output ins outs Hio Hrest IH];
        constructor; [|assumption].
      unfold engine_predict, predict, Promise.try_catch in Hio.
      destruct (prepareFeatures supabase now input); simpl in Hio;
        [|discriminate].
      injection Hio as <-. split; reflexivity. }
    assert (Hlen : length results = 8).
    { apply Forall2_length in Eall. now rewrite <- Eall. }
    split; [exact Hlen|].
    assert (Hhigh : length (filter (fun p =>
                       geb (confidence_score (predictions p)) (Fin 0.75%Q))
                       results) = length results).
    { clear -Hfixed. induction Hfixed as [|p rest [Hc _] Hrest IH];
        [reflexivity|]. simpl. rewrite Hc. simpl. now rewrite IH. }
    assert (Hmedium : length (filter (fun p =>
                         geb (confidence_score (predictions p)) (Fin 0.55%Q)
                         && ltb (confidence_score (predictions p))
                              (Fin 0.75%Q)) results) = 0).
    { clear -Hfixed. induction Hfixed as [|p rest [Hc _] Hrest IH];
        [reflexivity|]. simpl. rewrite Hc. simpl. exact IH. }
    assert (Hlow : length (filter (fun p =>
                      ltb (confidence_score (predictions p)) (Fin 0.55%Q))
                      results) = 0).
    { clear -Hfixed. induction Hfixed as [|p rest [Hc _] Hrest IH];
        [reflexivity|]. simpl. rewrite Hc. simpl. exact IH. }
    unfold getConfidenceStats. cbn [high medium low].
    rewrite Hhigh, Hmedium, Hlow, Hlen.
    repeat (split; [reflexivity|]).
    revert Hfixed. apply Forall_impl. intros p [Hc Ht].
    split; [|exact Ht].
    unfold PredictionModal_getConfidenceLevel. rewrite Hc. reflexivity.
  - repeat split; reflexivity.
Qed.

(** ** Formatted explanations *)

Lemma sort_insert_permutation (A : Type) (cmp : A -> A -> Z) (x : A)
    (l : list A) :
  Permutation (sort_insert cmp x l) (x :: l).
Proof.
  induction l as [|y rest IH]; simpl; [apply Permutation_refl|].
  destruct (cmp y x <? 0)%Z.
  - rewrite IH. apply perm_swap.
  - apply Permutation_refl.
Qed.

Lemma array_sort_permutation (A : Type) (cmp : A -> A -> Z) (l : list A) :
  Permutation (array_sort cmp l) l.
Proof.
  induction l as [|x rest IH]; simpl; [constructor|].
  rewrite sort_insert_permutation. now constructor.
Qed.

Lemma by_importance_desc_spec (y x : FeatureImportance) :
  finite_importance y -> finite_importance x ->
  ((by_importance_desc y x <? 0)%Z = true
   <-> (importance_value x < importance_value y)%Q).
Proof.
  unfold finite_importance, by_importance_desc, importance_value,
    comparator_sign.
  destruct (importance y) as [qy| | |]; try discriminate.
  destruct (importance x) as [qx| | |]; try discriminate.
  intros _ _. cbn [sub ltb gtb].
  set (bx := binary64 qx). set (by_ := binary64 qy).
  destruct (Qle_bool 0 (binary64 (bx - by_))) eqn:E; cbn [negb].
  - apply Qle_bool_iff in E.
    assert (Hd : (0 <= bx - by_)%Q).
    { apply Qnot_lt_le. intros Hlt. apply binary64_neg in Hlt. lra. }
    destruct (Qle_bool (binary64 (bx - by_)) 0); cbn [negb];
      split; try discriminate; intros; clearbody bx by_; lra.
  - apply Qle_bool_false in E.
    assert (Hd : (bx - by_ < 0)%Q).
    { apply Qnot_le_lt. intros Hle. apply binary64_nonneg in Hle. lra. }
    split; [intros _; clearbody bx by_; lra|reflexivity].
Qed.

Lemma sort_insert_descending (x : FeatureImportance)
    (l : list FeatureImportance) :
  finite_importance x -> Forall finite_importance l ->
  importance_descending l ->
  importance_descending (sort_insert by_importance_desc x l).
Proof.
  unfold importance_descending.
  intros Hx Hfin Hsorted. induction Hsorted as [|y rest Hrest IH Hy]; simpl.
  - repeat constructor.
  - inversion Hfin as [|? ? Hfy Hfrest]; subst.
    destruct (by_importance_desc y x <? 0)%Z eqn:E.
    + apply by_importance_desc_spec in E; try assumption.
      constructor; [now apply IH|].
      apply (Permutation_Forall
               (Permutation_sym (sort_insert_permutation _ x rest))).
      constructor; [lra|assumption].
    + assert (Hle : (importance_value y <= importance_value x)%Q).
      { apply Qnot_lt_le. intros Hlt.
        apply (by_importance_desc_spec Hfy Hx) in Hlt. congruence. }
      constructor; [now constructor|].
      constructor; [assumption|].
      rewrite Forall_forall in *. intros z Hz. specialize (Hy z Hz). lra.
Qed.

Lemma array_sort_descending (l : list FeatureImportance) :
  Forall finite_importance l ->
  importance_descending (array_sort by_importance_desc l).
Proof.
  induction 1 as [|x rest Hx Hrest IH]; simpl; [constructor|].
  apply sort_insert_descending; [assumption| |assumption].
  now apply (Permutation_Forall
               (Permutation_sym (array_sort_permutation _ rest))).
Qed.

Lemma array_sort_of_descending (l : list FeatureImportance) :
  Forall finite_importance l -> importance_descending l ->
  array_sort by_importance_desc l = l.
Proof.
  unfold importance_descending.
  intros Hfin Hsorted. induction Hsorted as [|x rest Hrest IH Hx];
    [reflexivity|].
  inversion Hfin as [|? ? Hfx Hfrest]; subst.
  simpl. rewrite (IH Hfrest).
  destruct rest as [|y r]; [reflexivity|]. simpl.
  destruct (by_importance_desc y x <? 0)%Z eqn:E; [|reflexivity].
  inversion Hfrest as [|? ? Hfy _]; subst.
  apply (by_importance_desc_spec Hfy Hfx) in E.
  inversion Hx as [|? ? Hxy _]; subst. lra.
Qed.

(** X29.  formatModelExplanations returns one entry per explanation, in
    order and under the same names, each with at most three top features;
    and it sorts the features of the prediction it was given, whose
    explanations keep their names and hold the same features as before. *)
Theorem formatted_explanations_shape (prediction : PredictionOutput) :
  let formatted := fst (formatModelExplanations prediction) in
  let after := snd (formatModelExplanations prediction) in
  map fmt_name formatted = map model_name (model_explanations prediction)
  /\ Forall (fun e => length (topFeatures e) <= 3) formatted
  /\ predictions after = predictions prediction
  /\ prediction_metadata after = prediction_metadata prediction
  /\ Forall2 (fun before sorted =>
                model_name sorted = model_name before
                /\ Permutation (key_features sorted) (key_features before))
       (model_explanations prediction) (model_explanations after).
Proof.
  cbn zeta. unfold formatModelExplanations. cbn [fst snd].
  cbn [predictions prediction_metadata model_explanations].
  split; [rewrite map_map; reflexivity|].
  split.
  { apply Forall_forall. intros e He. apply in_map_iff in He.
    destruct He as [x [<- _]]. cbn [format_explanation topFeatures].
    rewrite length_map. apply firstn_le_length. }
  split; [reflexivity|]. split; [reflexivity|].
  induction (model_explanations prediction) as [|e rest IH]; simpl;
    constructor; [|exact IH].
  split; [reflexivity|]. apply array_sort_permutation.
Qed.

(** X30.  When the importances are finite numbers, the features are left
    sorted by importance, largest first, and the top features are the
    first three of them; formatting the prediction again returns the same
    entries and changes nothing more. *)
Theorem formatting_sorts_once (prediction : PredictionOutput) :
  Forall (fun e => Forall finite_importance (key_features e))
    (model_explanations prediction) ->
  let formatted := fst (formatModelExplanations prediction) in
  let after := snd (formatModelExplanations prediction) in
  Forall (fun e => importance_descending (key_features e))
    (model_explanations after)
  /\ Forall2 (fun e f =>
                map top_name (topFeatures f)
                = map description (firstn 3 (key_features e)))
       (model_explanations after) formatted
  /\ formatModelExplanations after = (formatted, after).
Proof.
  intros Hfin. cbn zeta. unfold formatModelExplanations. cbn [fst snd].
  cbn [predictions prediction_metadata model_explanations].
  assert (Hfixed : forall e,
             Forall finite_importance (key_features e) ->
             sort_features (sort_features e) = sort_features e).
  { intros e He. unfold sort_features. cbn [key_features model_name weight
      explained_home_win explained_draw explained_away_win].
    f_equal. apply array_sort_of_descending.
    - now apply (Permutation_Forall
                   (Permutation_sym (array_sort_permutation _ _))).
    - now apply array_sort_descending. }
  split.
  { apply Forall_forall. intros e He. apply in_map_iff in He.
    destruct He as [x [<- Hx]]. cbn [sort_features key_features].
    apply array_sort_descending.
    rewrite Forall_forall in Hfin. now apply Hfin. }
  split.
  { clear Hfixed Hfin.
    induction (model_explanations prediction) as [|e rest IH]; simpl;
      constructor; [|exact IH].
    cbn [format_explanation topFeatures]. unfold slice0.
    rewrite map_map. reflexivity. }
  f_equal.
  - rewrite map_map. apply map_ext_in. intros e He.
    rewrite Forall_forall in Hfin. specialize (Hfin e He).
    unfold format_explanation. rewrite (Hfixed e Hfin). reflexivity.
  - f_equal. rewrite map_map. apply map_ext_in. intros e He.
    rewrite Forall_forall in Hfin. now apply Hfixed, Hfin.
Qed.

(* ===================================================================== *)
(** * Runs *)
(* ===================================================================== *)

Lemma goal_averages_agree_witness :
  let d := calculateDetailedStats goalless_half_example in
  goalless_half_example <> []
  /\ list_sum (map match_goals goalless_half_example)
     <= 1000 * length goalless_half_example
  /\ home_goals_total (goalStats d)
     = list_sum (map full_time_home_goals goalless_half_example)
  /\ away_goals_total (goalStats d)
     = list_sum (map full_time_away_goals goalless_half_example)
  /\ exists avg home away : Q,
       avg_goals (basic d) = Fin avg
       /\ home_goals_per_match (goalStats d) = Fin home
       /\ away_goals_per_match (goalStats d) = Fin away
       /\ (Qabs (avg
                 - inject_Z (Z.of_nat (home_goals_total (goalStats d)
                                       + away_goals_total (goalStats d)))
                   / inject_Z (Z.of_nat (length goalless_half_example)))
           <= (1 # 20) + (1 # 10 ^ 9))%Q
       /\ (Qabs (avg - (home + away)) <= (6 # 100) + (1 # 10 ^ 9))%Q.
Proof.
  assert (Hne : goalless_half_example <> []) by discriminate.
  assert (Hgoals : list_sum (map match_goals goalless_half_example)
                   <= 1000 * length goalless_half_example)
    by (vm_compute; lia).
  cbn zeta. split; [exact Hne|]. split; [exact Hgoals|].
  exact (@goal_averages_agree goalless_half_example Hne Hgoals).
Defined.

Lemma statistics_ignore_match_order_witness :
  Permutation goalless_half_example (rev goalless_half_example)
  /\ calculateBasicStats goalless_half_example
     = calculateBasicStats (rev goalless_half_example)
  /\ halfTimeAnalysis (calculateDetailedStats goalless_half_example)
     = halfTimeAnalysis (calculateDetailedStats (rev goalless_half_example)).
Proof.
  assert (Hp : Permutation goalless_half_example (rev goalless_half_example))
    by apply Permutation_rev.
  destruct (@statistics_ignore_match_order _ _ Hp) as [Hb [_ [_ [_ Hht]]]].
  split; [exact Hp|]. split; [exact Hb|exact Hht].
Defined.

Lemma predict_output_is_fixed_witness :
  predict empty_table "2025-01-01T12:00:00.000Z" upcoming_input
  = Resolved (engine_output "2025-01-01T12:00:00.000Z")
  /\ engine_output "2025-01-01T12:00:00.000Z"
     = {| predictions :=
            {| home_win_probability := Fin 0.5%Q;
               draw_probability := Fin 0.25%Q;
               away_win_probability := Fin 0.25%Q;
               most_likely_outcome := OutH;
               confidence_score := Fin 0.75%Q |};
          model_explanations := [];
          prediction_metadata :=
            {| model_version := "v1.0";
               prediction_timestamp := "2025-01-01T12:00:00.000Z";
               data_quality_score := Fin 0.85%Q;
               prediction_confidence := MEDIUM;
               warning_flags := [] |} |}.
Proof.
  assert (E : predict empty_table "2025-01-01T12:00:00.000Z" upcoming_input
              = Resolved (engine_output "2025-01-01T12:00:00.000Z"))
    by reflexivity.
  split; [exact E|].
  exact (@predict_output_is_fixed _ _ _ _ E).
Defined.

Lemma team_without_history_witness :
  or_empty (data {| data := None |}) = []
  /\ or_empty (data {| data := Some [] |}) = []
  /\ total_matches_played
       (historical_features
          (teamFeaturesOf "2025-01-01T12:00:00.000Z" "Arsenal"
             {| data := None |} {| data := Some [] |}))
     = 0.
Proof.
  assert (H1 : or_empty (data {| data := None |}) = []) by reflexivity.
  assert (H2 : or_empty (data {| data := Some [] |}) = []) by reflexivity.
  destruct (@team_without_history "2025-01-01T12:00:00.000Z" "Arsenal"
              {| data := None |} {| data := Some [] |} H1 H2)
    as [_ [Hplayed _]].
  split; [exact H1|]. split; [exact H2|exact Hplayed].
Defined.

Lemma home_advantages_are_shares_witness :
  "Arsenal"%string <> "Chelsea"%string
  /\ six_meetings <> []
  /\ Forall (is_between "Arsenal" "Chelsea") six_meetings
  /\ exists a b : Q,
       home_advantage
         (headToHeadFeaturesOf "Arsenal" "Chelsea"
            {| data := Some six_meetings |}) = Fin a
       /\ home_advantage
            (headToHeadFeaturesOf "Chelsea" "Arsenal"
               {| data := Some six_meetings |}) = Fin b
       /\ (Qabs (a + b
                 + inject_Z (Z.of_nat
                     (length (filter (fun m => Outcome_eqb (result_computed m) OutD)
                                six_meetings)))
                   / inject_Z (Z.of_nat (length six_meetings))
                 - 1)
           <= 1 # 10 ^ 14)%Q.
Proof.
  assert (Hne : "Arsenal"%string <> "Chelsea"%string) by discriminate.
  assert (Hrows : six_meetings <> []) by discriminate.
  assert (Hall : Forall (is_between "Arsenal" "Chelsea") six_meetings).
  { repeat constructor;
      solve [left; split; reflexivity | right; split; reflexivity]. }
  split; [exact Hne|]. split; [exact Hrows|]. split; [exact Hall|].
  exact (@home_advantages_are_shares _ _ _ Hne Hrows Hall).
Defined.


Lemma resolved_predictions_are_medium_and_good_witness :
  predict empty_table "2025-01-01T12:00:00.000Z" upcoming_input
  = Resolved (engine_output "2025-01-01T12:00:00.000Z")
  /\ prediction_confidence
       (prediction_metadata (engine_output "2025-01-01T12:00:00.000Z"))
     = MEDIUM
  /\ level (assessPredictionQuality (engine_output "2025-01-01T12:00:00.000Z"))
     = GOOD.
Proof.
  assert (E : predict empty_table "2025-01-01T12:00:00.000Z" upcoming_input
              = Resolved (engine_output "2025-01-01T12:00:00.000Z"))
    by reflexivity.
  split; [exact E|].
  exact (@resolved_predictions_are_medium_and_good _ _ _ _ E).
Defined.

Lemma trend_grades_agree_witness :
  let t := analyzeTrends close_prediction in
  (0.41 + 0.33 + 0.26 == 1)%Q
  /\ isCloseMatch t = true
  /\ surpriseFactor t = LOW
  /\ certaintyLevel t = LOW
  /\ certaintyLevel t <> HIGH
  /\ dominantOutcome t = OutH.
Proof.
  assert (Hsum : (0.41 + 0.33 + 0.26 == 1)%Q) by reflexivity.
  destruct (@trend_grades_agree close_prediction
              0.41%Q 0.33%Q 0.26%Q eq_refl eq_refl eq_refl Hsum)
    as [Hclose [Hsurprise Hdominant]].
  assert (Hc : isCloseMatch (analyzeTrends close_prediction) = true)
    by (vm_compute; reflexivity).
  assert (Hs : surpriseFactor (analyzeTrends close_prediction) = LOW)
    by (vm_compute; reflexivity).
  cbn zeta. split; [exact Hsum|]. split; [exact Hc|]. split; [exact Hs|].
  split; [exact (Hclose Hc)|]. split; [exact (Hsurprise Hs)|exact Hdominant].
Defined.


Lemma formatting_sorts_once_witness :
  Forall (fun e => Forall finite_importance (key_features e))
    (model_explanations explained_output)
  /\ formatModelExplanations (snd (formatModelExplanations explained_output))
     = (fst (formatModelExplanations explained_output),
        snd (formatModelExplanations explained_output)).
Proof.
  assert (Hfin : Forall (fun e => Forall finite_importance (key_features e))
                   (model_explanations explained_output))
    by (repeat constructor).
  split; [exact Hfin|].
  exact (proj2 (proj2 (@formatting_sorts_once explained_output Hfin))).
Defined.

Lemma upcoming_predictions_are_all_high_witness :
  let now := "2025-01-01T12:00:00.000Z"%string in
  let shown := fst (predictUpcomingMatches empty_table now initialHookState) in
  let failed :=
    fst (predictUpcomingMatches (unreachable_for "Chelsea") now
           initialHookState) in
  forallb (table_answers empty_table) getUpcomingMatches = true
  /\ length shown = 8
  /\ high (getConfidenceStats shown) = 8
  /\ Forall (fun p =>
               badge_level (PredictionModal_getConfidenceLevel p)
               = "Magas"%string
               /\ prediction_confidence (prediction_metadata p) = MEDIUM)
       shown
  /\ forallb (table_answers (unreachable_for "Chelsea")) getUpcomingMatches
     = false
  /\ failed = []
  /\ high (getConfidenceStats failed) = 0.
Proof.
  cbn zeta.
  assert (E1 : forallb (table_answers empty_table) getUpcomingMatches = true)
    by reflexivity.
  assert (E2 : forallb (table_answers (unreachable_for "Chelsea"))
                 getUpcomingMatches = false)
    by reflexivity.
  pose proof (upcoming_predictions_are_all_high empty_table
                "2025-01-01T12:00:00.000Z" initialHookState) as H1.
  pose proof (upcoming_predictions_are_all_high (unreachable_for "Chelsea")
                "2025-01-01T12:00:00.000Z" initialHookState) as H2.
  cbn zeta in H1, H2. rewrite E1 in H1. rewrite E2 in H2.
  destruct H1 as [Hlen [Hhigh [_ [_ Hall]]]].
  destruct H2 as [Hnil [Hzero _]].
  split; [exact E1|]. split; [exact Hlen|]. split; [exact Hhigh|].
  split; [exact Hall|]. split; [exact E2|]. split; [exact Hnil|exact Hzero].
Defined.
